(** * Shallow embedding of the SSOT GraphRAG core (indexer, query engine,
    impact analyzer, sync engine) of demeter/core/ssot/graphrag.

    Data model: the JSON/YAML values the Python code manipulates are [Value]s;
    dicts are association lists with string keys in insertion order, as the
    dicts loaded from JSON/YAML are.  Python floats are modelled by exact
    rationals; strings are byte strings and [str.lower]/[str.split] are their
    ASCII versions.  Exceptions are [Err] results carrying the exception class
    name (the exact message only where the code builds it itself). *)

From Stdlib Require Import String Ascii List ZArith QArith Bool Lia Sorting Lqa.
Import ListNotations.
Local Open Scope string_scope.
Local Open Scope Z_scope.
Local Open Scope list_scope.

Set Warnings "-register-all".

Infix "+++" := String.append (at level 60, right associativity).

(** ** Values *)

Inductive Value : Type :=
| VNull
| VBool (b : bool)
| VInt (z : Z)
| VFloat (q : Q)
| VStr (s : string)
| VList (l : list Value)
| VDict (kvs : list (string * Value)).

Fixpoint assoc {A : Type} (k : string) (kvs : list (string * A)) : option A :=
  match kvs with
  | [] => None
  | (k', v) :: r => if String.eqb k k' then Some v else assoc k r
  end.

(** Python [==] on values: [True == 1], [1 == 1.0], dicts compare
    regardless of key order. *)
Fixpoint py_eq (a b : Value) : bool :=
  match a, b with
  | VNull, VNull => true
  | VBool x, VBool y => Bool.eqb x y
  | VBool x, VInt z | VInt z, VBool x => Z.eqb z (Z.b2z x)
  | VBool x, VFloat q | VFloat q, VBool x => Qeq_bool q (inject_Z (Z.b2z x))
  | VInt x, VInt y => Z.eqb x y
  | VInt z, VFloat q | VFloat q, VInt z => Qeq_bool q (inject_Z z)
  | VFloat p, VFloat q => Qeq_bool p q
  | VStr s, VStr t => String.eqb s t
  | VList xs, VList ys =>
      (fix go (xs ys : list Value) : bool :=
         match xs, ys with
         | [], [] => true
         | x :: xs', y :: ys' => py_eq x y && go xs' ys'
         | _, _ => false
         end) xs ys
  | VDict ks, VDict ls =>
      Nat.eqb (length ks) (length ls) &&
      (fix go (ks : list (string * Value)) : bool :=
         match ks with
         | [] => true
         | (k, v) :: r =>
             match assoc k ls with
             | Some w => py_eq v w
             | None => false
             end && go r
         end) ks
  | _, _ => false
  end.

Definition hashable (v : Value) : bool :=
  match v with VList _ | VDict _ => false | _ => true end.

Definition py_truthy (v : Value) : bool :=
  match v with
  | VNull => false
  | VBool b => b
  | VInt z => negb (Z.eqb z 0)
  | VFloat q => negb (Qeq_bool q 0)
  | VStr s => negb (String.eqb s "")
  | VList l => match l with [] => false | _ => true end
  | VDict l => match l with [] => false | _ => true end
  end.

(** ** Results with exceptions *)

Inductive Res (A : Type) : Type :=
| Ok (a : A)
| Err (e : string).
Arguments Ok {A} a.
Arguments Err {A} e.

Definition rbind {A B : Type} (m : Res A) (f : A -> Res B) : Res B :=
  match m with Ok a => f a | Err e => Err e end.

Notation "x <- m ;; k" := (rbind m (fun x => k))
  (at level 61, m at next level, right associativity).

Fixpoint rmap {A B : Type} (f : A -> Res B) (l : list A) : Res (list B) :=
  match l with
  | [] => Ok []
  | x :: r => y <- f x ;; ys <- rmap f r ;; Ok (y :: ys)
  end.

Fixpoint rfilter {A : Type} (p : A -> Res bool) (l : list A) : Res (list A) :=
  match l with
  | [] => Ok []
  | x :: r => b <- p x ;; ys <- rfilter p r ;; Ok (if b then x :: ys else ys)
  end.

(** ** Strings (ASCII) *)

Definition lower_ascii (c : ascii) : ascii :=
  let n := nat_of_ascii c in
  if (65 <=? n)%nat && (n <=? 90)%nat then ascii_of_nat (n + 32) else c.

Fixpoint lower (s : string) : string :=
  match s with
  | EmptyString => EmptyString
  | String c r => String (lower_ascii c) (lower r)
  end.

(** [str.isspace] on ASCII: \t \n \v \f \r, the separators 0x1c-0x1f, space. *)
Definition is_space (c : ascii) : bool :=
  let n := nat_of_ascii c in
  ((9 <=? n)%nat && (n <=? 13)%nat) || ((28 <=? n)%nat && (n <=? 32)%nat).

Fixpoint split_ws_aux (s : string) (cur : list ascii) : list string :=
  match s with
  | EmptyString =>
      match cur with [] => [] | _ => [string_of_list_ascii (rev cur)] end
  | String c r =>
      if is_space c then
        match cur with
        | [] => split_ws_aux r []
        | _ => string_of_list_ascii (rev cur) :: split_ws_aux r []
        end
      else split_ws_aux r (c :: cur)
  end.

(** [str.split()] with no separator. *)
Definition split_ws (s : string) : list string := split_ws_aux s [].

(** [t in s] for strings. *)
Fixpoint str_in (t s : string) : bool :=
  String.prefix t s ||
  match s with EmptyString => false | String _ r => str_in t r end.

Fixpoint count_from (t s : string) (skip : nat) : nat :=
  match s with
  | EmptyString => O
  | String _ r =>
      match skip with
      | S k => count_from t r k
      | O => if String.prefix t s
             then S (count_from t r (String.length t - 1))
             else count_from t r O
      end
  end.

(** [s.count(t)]: non-overlapping occurrences, [len(s) + 1] for [t = ""]. *)
Definition py_count (t s : string) : nat :=
  if String.eqb t "" then S (String.length s) else count_from t s O.

Definition digit_char (n : Z) : ascii := ascii_of_nat (Z.to_nat (48 + n)).

Fixpoint digits_aux (fuel : nat) (n : Z) (acc : string) : string :=
  match fuel with
  | O => acc
  | S f => if n <? 10 then String (digit_char n) acc
           else digits_aux f (n / 10) (String (digit_char (n mod 10)) acc)
  end.

Definition z_to_string (z : Z) : string :=
  if z <? 0 then "-" +++ digits_aux 64 (- z) "" else digits_aux 64 z "".

(** [str(x)] / [repr(x)] of values, as used in f-strings. *)
Fixpoint py_repr (v : Value) : string :=
  match v with
  | VNull => "None"
  | VBool b => if b then "True" else "False"
  | VInt z => z_to_string z
  | VFloat q => z_to_string (Qnum q) +++ "/" +++ z_to_string (Zpos (Qden q))
  | VStr s => "'" +++ s +++ "'"
  | VList l => "[" +++ String.concat ", " (map py_repr l) +++ "]"
  | VDict kvs =>
      "{" +++ String.concat ", "
        (map (fun kv => "'" +++ fst kv +++ "': " +++ py_repr (snd kv)) kvs)
      +++ "}"
  end.

Definition py_str (v : Value) : string :=
  match v with VStr s => s | _ => py_repr v end.

(** ** Python operations on values *)

(** [d.get(k, default)] *)
Definition py_get (d : Value) (k : string) (dflt : Value) : Res Value :=
  match d with
  | VDict kvs => Ok (match assoc k kvs with Some v => v | None => dflt end)
  | _ => Err "AttributeError"
  end.

(** [d[k]] with a string key *)
Definition py_getitem (d : Value) (k : string) : Res Value :=
  match d with
  | VDict kvs => match assoc k kvs with Some v => Ok v | None => Err "KeyError" end
  | _ => Err "TypeError"
  end.

(** [d.items()] *)
Definition py_items (d : Value) : Res (list (string * Value)) :=
  match d with VDict kvs => Ok kvs | _ => Err "AttributeError" end.

(** [for x in v] *)
Definition py_iter (v : Value) : Res (list Value) :=
  match v with
  | VList l => Ok l
  | VDict kvs => Ok (map (fun kv => VStr (fst kv)) kvs)
  | VStr s => Ok (map (fun c => VStr (String c EmptyString)) (list_ascii_of_string s))
  | _ => Err "TypeError"
  end.

(** [x in c] *)
Definition py_in (x c : Value) : Res bool :=
  match c with
  | VDict kvs =>
      if hashable x then
        Ok (match x with
            | VStr s => match assoc s kvs with Some _ => true | None => false end
            | _ => false
            end)
      else Err "TypeError"
  | VList l => Ok (existsb (py_eq x) l)
  | VStr s => match x with VStr t => Ok (str_in t s) | _ => Err "TypeError" end
  | _ => Err "TypeError"
  end.

(** [sep.join(xs)]: every element must be a string. *)
Definition py_join (sep : string) (xs : list Value) : Res string :=
  ss <- rmap (fun v => match v with VStr s => Ok s | _ => Err "TypeError" end) xs ;;
  Ok (String.concat sep ss).

(** Lists of values used as hash-based sets and dicts keyed by values. *)
Fixpoint vlookup {A : Type} (k : Value) (m : list (Value * A)) : option A :=
  match m with
  | [] => None
  | (k', a) :: r => if py_eq k k' then Some a else vlookup k r
  end.

Fixpoint vinsert {A : Type} (k : Value) (a : A) (m : list (Value * A)) : list (Value * A) :=
  match m with
  | [] => [(k, a)]
  | (k', a') :: r => if py_eq k k' then (k', a) :: r else (k', a') :: vinsert k a r
  end.

(** [d.get(k)] on a dict keyed by values: the key must be hashable. *)
Definition vget {A : Type} (k : Value) (m : list (Value * A)) : Res (option A) :=
  if hashable k then Ok (vlookup k m) else Err "TypeError".

Definition vset_mem (k : Value) (s : list Value) : Res bool :=
  if hashable k then Ok (existsb (py_eq k) s) else Err "TypeError".

Definition vset_add (k : Value) (s : list Value) : Res (list Value) :=
  if hashable k then Ok (if existsb (py_eq k) s then s else s ++ [k])
  else Err "TypeError".

(** ** Wall clock: [datetime.now()] and [isoformat()] *)

(** A clock gives the successive results of [datetime.now()], in
    microseconds since 1970-01-01T00:00:00 (naive local time). *)
Definition Clock := nat -> Z.

(** Computations that may read the clock and raise: the counter is the
    number of [datetime.now()] calls made so far. *)
Definition M (A : Type) : Type := Clock -> nat -> Res A * nat.

Definition mret {A : Type} (a : A) : M A := fun _ n => (Ok a, n).

Definition mbind {A B : Type} (m : M A) (f : A -> M B) : M B :=
  fun c n =>
    let (r, n') := m c n in
    match r with Ok a => f a c n' | Err e => (Err e, n') end.

Notation "x <<- m ;; k" := (mbind m (fun x => k))
  (at level 61, m at next level, right associativity).

Definition lift {A : Type} (r : Res A) : M A := fun _ n => (r, n).

Definition now : M Z := fun c n => (Ok (c n), S n).

(** [try: m except Exception as e: h(str(e))] *)
Definition mcatch {A : Type} (m : M A) (h : string -> M A) : M A :=
  fun c n =>
    let (r, n') := m c n in
    match r with Ok a => (Ok a, n') | Err e => h e c n' end.

Fixpoint mmap {A B : Type} (f : A -> M B) (l : list A) : M (list B) :=
  match l with
  | [] => mret []
  | x :: r => y <<- f x ;; ys <<- mmap f r ;; mret (y :: ys)
  end.

Definition civil_from_days (z : Z) : Z * Z * Z :=
  let z := z + 719468 in
  let era := z / 146097 in
  let doe := z - era * 146097 in
  let yoe := (doe - doe / 1460 + doe / 36524 - doe / 146096) / 365 in
  let y := yoe + era * 400 in
  let doy := doe - (365 * yoe + yoe / 4 - yoe / 100) in
  let mp := (5 * doy + 2) / 153 in
  let d := doy - (153 * mp + 2) / 5 + 1 in
  let m := if mp <? 10 then mp + 3 else mp - 9 in
  ((if m <=? 2 then y + 1 else y), m, d).

Definition pad (w : nat) (n : Z) : string :=
  let s := z_to_string n in
  String.append (String.concat "" (repeat "0" (w - String.length s))) s.

(** [datetime.isoformat()]: microseconds are printed only when non-zero. *)
Definition isoformat (us : Z) : string :=
  let secs := us / 1000000 in
  let micro := us mod 1000000 in
  let sod := secs mod 86400 in
  let '(y, m, d) := civil_from_days (secs / 86400) in
  pad 4 y +++ "-" +++ pad 2 m +++ "-" +++ pad 2 d +++ "T" +++
  pad 2 (sod / 3600) +++ ":" +++ pad 2 ((sod mod 3600) / 60) +++ ":" +++
  pad 2 (sod mod 60) +++ (if micro =? 0 then "" else "." +++ pad 6 micro).

Definition now_iso : M string := t <<- now ;; mret (isoformat t).

(** * Indexer: ssot-indexer.py, class SSOTIndexer *)

Module Indexer.

Definition entity_types : list string :=
  ["functional_requirement"; "non_functional_requirement"; "unit_of_work";
   "contract"; "bdd_scenario"; "extension"; "dependency"].

Definition relationship_types : list string :=
  ["implements"; "depends_on"; "extends"; "validates"; "covers"; "conflicts_with"].

(** The three files of the index store, as a reader sees them: absent,
    just truncated by [open(..., 'w')], or holding a JSON document. *)
Inductive FileContent : Type :=
| Missing
| Truncated
| Json (v : Value).

Record Store : Type := mkStore {
  entities_file : FileContent;
  relationships_file : FileContent;
  metadata_file : FileContent
}.

Section Digest.

(** [_generate_hash]: the first 16 hex digits of the SHA-256 of
    [json.dumps(data, sort_keys=True, ensure_ascii=False)]; any function of
    the data. *)
Variable digest : Value -> string.

Definition generate_hash (data : Value) : string := digest data.

(** The [spec.get(key, default)] calls that copy a record's fields. *)
Definition get_fields (spec : Value) (fs : list (string * Value)) : Res (list (string * Value)) :=
  rmap (fun kd => v <- py_get spec (fst kd) (snd kd) ;; Ok (fst kd, v)) fs.

Definition meta (source ts : string) (spec : Value) : Value :=
  VDict [("source", VStr source); ("last_updated", VStr ts);
         ("hash", VStr (generate_hash spec))].

Definition fr_entity (fr_id : string) (fr_spec : Value) : M Value :=
  fs <<- lift (get_fields fr_spec
                 [("title", VStr ""); ("description", VStr ""); ("category", VStr "");
                  ("priority", VStr ""); ("acceptance_criteria", VList [])]) ;;
  ts <<- now_iso ;;
  mret (VDict ([("id", VStr fr_id); ("type", VStr "functional_requirement")] ++ fs ++
               [("metadata", meta "framework_requirements" ts fr_spec)])).

Definition nfr_entity (nfr_id : string) (nfr_spec : Value) : M Value :=
  fs <<- lift (get_fields nfr_spec
                 [("title", VStr ""); ("description", VStr ""); ("category", VStr "");
                  ("priority", VStr ""); ("requirements", VList []);
                  ("measurement", VStr "")]) ;;
  ts <<- now_iso ;;
  mret (VDict ([("id", VStr nfr_id); ("type", VStr "non_functional_requirement")] ++ fs ++
               [("metadata", meta "framework_requirements" ts nfr_spec)])).

Definition uow_entity (uow_id : string) (uow_spec : Value) : M Value :=
  fs <<- lift (get_fields uow_spec
                 [("name", VStr ""); ("goal", VStr ""); ("layer", VStr "");
                  ("priority", VStr ""); ("effort", VStr ""); ("implements", VList []);
                  ("dependencies", VList []); ("acceptance_criteria", VList [])]) ;;
  ts <<- now_iso ;;
  mret (VDict ([("id", VStr uow_id); ("type", VStr "unit_of_work")] ++ fs ++
               [("metadata", meta "framework_requirements" ts uow_spec)])).

Definition contract_entity (contract_id : string) (contract_spec : Value) : M Value :=
  cid <<- lift (py_get contract_spec "contract_id" (VStr contract_id)) ;;
  fs <<- lift (get_fields contract_spec
                 [("title", VStr ""); ("applies_to", VDict []); ("preconditions", VList []);
                  ("postconditions", VList []); ("invariants", VList []);
                  ("performance", VDict []); ("security", VDict [])]) ;;
  ts <<- now_iso ;;
  mret (VDict ([("id", cid); ("type", VStr "contract")] ++ fs ++
               [("metadata", meta ("contracts/" +++ contract_id) ts contract_spec)])).

Definition extension_entity (category ext_name : string) (ext_spec : Value) : M Value :=
  name <<- lift (py_get ext_spec "name" (VStr ext_name)) ;;
  fs <<- lift (get_fields ext_spec
                 [("description", VStr ""); ("functional_requirements", VDict []);
                  ("non_functional_requirements", VDict []); ("units_of_work", VDict [])]) ;;
  ts <<- now_iso ;;
  mret (VDict ([("id", VStr (category +++ "_" +++ ext_name)); ("type", VStr "extension");
                ("name", name); ("category", VStr category)] ++ fs ++
               [("metadata", meta ("extensions/" +++ category +++ "/" +++ ext_name) ts ext_spec)])).

(** [if key in d: for k, spec in d[key].items(): ...] *)
Definition over_items {B : Type} (d : Value) (key : string) (f : string -> Value -> M (list B))
  : M (list B) :=
  b <<- lift (py_in (VStr key) d) ;;
  if b then
    items <<- lift (x <- py_getitem d key ;; py_items x) ;;
    ls <<- mmap (fun kv => f (fst kv) (snd kv)) items ;;
    mret (concat ls)
  else mret [].

Definition one {A : Type} (m : M A) : M (list A) := a <<- m ;; mret [a].

(** [extract_entities] *)
Definition extract_entities (ssot_data : Value) : M (list Value) :=
  b <<- lift (py_in (VStr "framework_requirements") ssot_data) ;;
  part1 <<- (if b then
               fr_data <<- lift (py_getitem ssot_data "framework_requirements") ;;
               frs <<- over_items fr_data "functional_requirements"
                         (fun k v => one (fr_entity k v)) ;;
               nfrs <<- over_items fr_data "non_functional_requirements"
                         (fun k v => one (nfr_entity k v)) ;;
               uows <<- over_items fr_data "units_of_work"
                         (fun k v => one (uow_entity k v)) ;;
               mret (frs ++ nfrs ++ uows)
             else mret []) ;;
  part2 <<- over_items ssot_data "contracts" (fun k v => one (contract_entity k v)) ;;
  part3 <<- over_items ssot_data "extensions"
              (fun category extensions =>
                 items <<- lift (py_items extensions) ;;
                 ls <<- mmap (fun kv => extension_entity category (fst kv) (snd kv)) items ;;
                 mret ls) ;;
  mret (part1 ++ part2 ++ part3).

Definition relationship (source target : Value) (rtype source_file : string) : M Value :=
  ts <<- now_iso ;;
  mret (VDict [("source", source); ("target", target); ("type", VStr rtype);
               ("metadata", VDict [("created", VStr ts); ("source_file", VStr source_file)])]).

Definition uow_relationships (uow_id : string) (uow_spec : Value) : M (list Value) :=
  implements <<- lift (v <- py_get uow_spec "implements" (VList []) ;; py_iter v) ;;
  r1 <<- mmap (fun req_id => relationship (VStr uow_id) req_id "implements"
                                          "framework_requirements") implements ;;
  dependencies <<- lift (v <- py_get uow_spec "dependencies" (VList []) ;; py_iter v) ;;
  r2 <<- mmap (fun dep_id => relationship (VStr uow_id) dep_id "depends_on"
                                          "framework_requirements") dependencies ;;
  mret (r1 ++ r2).

Definition contract_relationships (contract_id : string) (contract_spec : Value)
  : M (list Value) :=
  applies_to <<- lift (py_get contract_spec "applies_to" (VDict [])) ;;
  et <<- lift (py_get applies_to "entity_type" VNull) ;;
  if py_eq et (VStr "uow") then
    entity_name <<- lift (py_get applies_to "entity_name" VNull) ;;
    if py_truthy entity_name then
      src <<- lift (py_get contract_spec "contract_id" (VStr contract_id)) ;;
      one (relationship src entity_name "validates" ("contracts/" +++ contract_id))
    else mret []
  else mret [].

(** [extract_relationships] *)
Definition extract_relationships (ssot_data : Value) : M (list Value) :=
  b <<- lift (py_in (VStr "framework_requirements") ssot_data) ;;
  part1 <<- (if b then
               fr_data <<- lift (py_getitem ssot_data "framework_requirements") ;;
               over_items fr_data "units_of_work" uow_relationships
             else mret []) ;;
  part2 <<- over_items ssot_data "contracts" contract_relationships ;;
  mret (part1 ++ part2).

(** [len([e for e in xs if e['type'] == t])] *)
Definition count_type (xs : list Value) (t : string) : Res Value :=
  l <- rfilter (fun e => ty <- py_getitem e "type" ;; Ok (py_eq ty (VStr t))) xs ;;
  Ok (VInt (Z.of_nat (length l))).

Definition counts_by (xs : list Value) (ts : list string) : Res Value :=
  cs <- rmap (fun t => c <- count_type xs t ;; Ok (t, c)) ts ;; Ok (VDict cs).

Definition metadata_of (indexed_at : string) (es rs : list Value) : Res Value :=
  et <- counts_by es entity_types ;;
  rt <- counts_by rs relationship_types ;;
  Ok (VDict [("indexed_at", VStr indexed_at);
             ("total_entities", VInt (Z.of_nat (length es)));
             ("total_relationships", VInt (Z.of_nat (length rs)));
             ("entity_types", et); ("relationship_types", rt)]).

Definition set_entities (f : FileContent) (s : Store) : Store :=
  mkStore f (relationships_file s) (metadata_file s).
Definition set_relationships (f : FileContent) (s : Store) : Store :=
  mkStore (entities_file s) f (metadata_file s).
Definition set_metadata (f : FileContent) (s : Store) : Store :=
  mkStore (entities_file s) (relationships_file s) f.

(** [save_graphrag_data]: the successive states of the store (each
    [open(path, 'w')] truncates the file in place, [json.dump] then fills
    it), and the final state, or the exception raised while building the
    metadata.  [indexed_at] is the [datetime.now().isoformat()] it reads. *)
Definition save_graphrag_data (indexed_at : string) (s : Store) (es rs : list Value)
  : list Store * Res Store :=
  let s1 := set_entities Truncated s in
  let s2 := set_entities (Json (VList es)) s1 in
  let s3 := set_relationships Truncated s2 in
  let s4 := set_relationships (Json (VList rs)) s3 in
  match metadata_of indexed_at es rs with
  | Err e => ([s1; s2; s3; s4], Err e)
  | Ok m =>
      let s5 := set_metadata Truncated s4 in
      let s6 := set_metadata (Json m) s5 in
      ([s1; s2; s3; s4; s5; s6], Ok s6)
  end.

(** [index_ssot] on the loaded SSOT data: the trace of store states and the
    returned summary. *)
Definition index_ssot (ssot_data : Value) (s : Store) : M (list Store * Res Value) :=
  es <<- extract_entities ssot_data ;;
  rs <<- extract_relationships ssot_data ;;
  ts <<- now_iso ;;
  let '(trace, r) := save_graphrag_data ts s es rs in
  mret (trace, (_ <- r ;;
                Ok (VDict [("entities_count", VInt (Z.of_nat (length es)));
                           ("relationships_count", VInt (Z.of_nat (length rs)));
                           ("status", VStr "success")]))).

End Digest.

End Indexer.

(** * Impact analyzer: impact-analyzer.py, class ImpactAnalyzer *)

(** [x in ['a', 'b', ...]] *)
Definition in_strs (v : Value) (l : list string) : bool :=
  existsb (fun s => py_eq v (VStr s)) l.

(** [dict[key] = value] on a dict with string keys: in place if present. *)
Fixpoint dict_set {A : Type} (k : string) (v : A) (d : list (string * A)) : list (string * A) :=
  match d with
  | [] => [(k, v)]
  | (k', v') :: r => if String.eqb k k' then (k', v) :: r else (k', v') :: dict_set k v r
  end.

(** [list.sort(key=..., reverse=True)]: stable, equal keys keep their order. *)
Fixpoint insert_desc {A : Type} (key : A -> Q) (x : A) (l : list A) : list A :=
  match l with
  | [] => [x]
  | y :: r => if Qle_bool (key x) (key y) then y :: insert_desc key x r else x :: l
  end.

Definition sort_desc {A : Type} (key : A -> Q) (l : list A) : list A :=
  fold_left (fun acc x => insert_desc key x acc) l [].

Module Impact.

Record ImpactItem : Type := mkItem {
  entity_id : Value;
  entity_type : Value;
  impact_type : string;
  severity : string;
  description : string;
  path : list Value;
  recommendations : list string
}.

Record ImpactReport : Type := mkReport {
  source_entity : string;
  change_type : string;
  analysis_timestamp : string;
  direct_impacts : list ImpactItem;
  indirect_impacts : list ImpactItem;
  cascade_impacts : list ImpactItem;
  risk_assessment : Value;
  mitigation_strategies : list string;
  affected_layers : list Value;
  testing_recommendations : list string
}.

(** [self.entities] (as iterated), [self.relationships] (the loaded JSON,
    iterated at each use) and [self.entity_index]. *)
Record Analyzer : Type := mkAnalyzer {
  entities : list Value;
  relationships : Value;
  entity_index : list (Value * Value)
}.

(** [_load_entities] / [_load_relationships]: [json.load] of the file, or
    [[]] when the file does not exist ([None]). *)
Definition load_or_empty (file : option Value) : Value :=
  match file with Some v => v | None => VList [] end.

(** [{e['id']: e for e in self.entities}] *)
Fixpoint build_index (es : list Value) (acc : list (Value * Value)) : Res (list (Value * Value)) :=
  match es with
  | [] => Ok acc
  | e :: r =>
      k <- py_getitem e "id" ;;
      if hashable k then build_index r (vinsert k e acc) else Err "TypeError"
  end.

(** [ImpactAnalyzer.__init__] *)
Definition init (entities_file relationships_file : option Value) : Res Analyzer :=
  es <- py_iter (load_or_empty entities_file) ;;
  idx <- build_index es [] ;;
  Ok (mkAnalyzer es (load_or_empty relationships_file) idx).

Definition rels (a : Analyzer) : Res (list Value) := py_iter (relationships a).

(** [r.get('source') == x or r.get('target') == x] *)
Definition touches (r x : Value) : Res bool :=
  s <- py_get r "source" VNull ;;
  if py_eq s x then Ok true else (t <- py_get r "target" VNull ;; Ok (py_eq t x)).

(** [r.get('target') if r.get('source') == x else r.get('source')] *)
Definition other_end (r x : Value) : Res Value :=
  s <- py_get r "source" VNull ;;
  if py_eq s x then py_get r "target" VNull else py_get r "source" VNull.

Definition determine_impact_type (rel : Value) (change_type : string) : Res string :=
  rt <- py_get rel "type" (VStr "unknown") ;;
  Ok (if py_eq rt (VStr "implements") then "implementation_change"
      else if py_eq rt (VStr "depends_on") then "dependency_impact"
      else if py_eq rt (VStr "validates") then "contract_validation"
      else if py_eq rt (VStr "extends") then "extension_impact"
      else "general_impact").

(** [_calculate_impact_severity] *)
Definition calculate_impact_severity (rel affected : Value) (change_type : string) : Res string :=
  let base_severity := 1 in
  rel_type <- py_get rel "type" (VStr "unknown") ;;
  let base_severity :=
    if in_strs rel_type ["implements"; "validates"] then base_severity + 2
    else if py_eq rel_type (VStr "depends_on") then base_severity + 1
    else base_severity in
  entity_type <- py_get affected "type" (VStr "unknown") ;;
  let base_severity :=
    if in_strs entity_type ["functional_requirement"; "contract"] then base_severity + 2
    else if py_eq entity_type (VStr "unit_of_work") then base_severity + 1
    else base_severity in
  let base_severity :=
    if String.eqb change_type "removal" then base_severity + 2
    else if String.eqb change_type "major_modification" then base_severity + 1
    else base_severity in
  Ok (if 6 <=? base_severity then "critical"
      else if 4 <=? base_severity then "high"
      else if 2 <=? base_severity then "medium"
      else "low").

Definition severity_levels : list (string * Z) :=
  [("critical", 4); ("high", 3); ("medium", 2); ("low", 1)].

(** [_calculate_indirect_severity] *)
Definition calculate_indirect_severity (direct_severity : string) (rel : Value) : string :=
  let direct_level := match assoc direct_severity severity_levels with Some l => l | None => 1 end in
  let indirect_level := Z.max 1 (direct_level - 1) in
  match find (fun sl => Z.eqb (snd sl) indirect_level) severity_levels with
  | Some (s, _) => s
  | None => "low"
  end.

(** [_calculate_cascade_severity] *)
Definition calculate_cascade_severity (path_length : nat) : string :=
  if (path_length <=? 3)%nat then "medium"
  else if (path_length <=? 4)%nat then "low"
  else "low".

Definition generate_impact_description (rel affected : Value) (change_type : string) : Res string :=
  rel_type <- py_get rel "type" (VStr "unknown") ;;
  entity_type <- py_get affected "type" (VStr "unknown") ;;
  id_ <- py_get affected "id" (VStr "Unknown") ;;
  name_ <- py_get affected "name" id_ ;;
  entity_name <- py_get affected "title" name_ ;;
  Ok (if py_eq rel_type (VStr "implements") then
        "Implementation relationship will be affected: " +++ py_str entity_name
      else if py_eq rel_type (VStr "depends_on") then
        "Dependency relationship will be affected: " +++ py_str entity_name
      else if py_eq rel_type (VStr "validates") then
        "Contract validation will be affected: " +++ py_str entity_name
      else "Related " +++ py_str entity_type +++ " will be affected: " +++ py_str entity_name).

Definition generate_impact_recommendations (rel affected : Value) (change_type : string)
  : Res (list string) :=
  rel_type <- py_get rel "type" (VStr "unknown") ;;
  Ok (if py_eq rel_type (VStr "implements") then
        ["Update implementation to match changes"; "Verify acceptance criteria still satisfied"]
      else if py_eq rel_type (VStr "depends_on") then
        ["Check dependency compatibility"; "Update dependent entity if needed"]
      else if py_eq rel_type (VStr "validates") then
        ["Re-validate contract conditions"; "Update contract if necessary"]
      else []).

(** One [rel] of [_analyze_direct_impacts]: the item it adds, if any. *)
Definition direct_item (a : Analyzer) (eid : Value) (change_type : string) (rel : Value)
  : Res (list ImpactItem) :=
  aid <- other_end rel eid ;;
  ae <- vget aid (entity_index a) ;;
  match ae with
  | Some affected =>
      if py_truthy affected then
        it <- determine_impact_type rel change_type ;;
        sev <- calculate_impact_severity rel affected change_type ;;
        ety <- py_get affected "type" (VStr "unknown") ;;
        desc <- generate_impact_description rel affected change_type ;;
        recs <- generate_impact_recommendations rel affected change_type ;;
        Ok [mkItem aid ety it sev desc [eid; aid] recs]
      else Ok []
  | None => Ok []
  end.

(** [_analyze_direct_impacts] *)
Definition analyze_direct_impacts (a : Analyzer) (entity_id change_type : string)
  : Res (list ImpactItem) :=
  rs <- rels a ;;
  direct_relationships <- rfilter (fun r => touches r (VStr entity_id)) rs ;;
  items <- rmap (direct_item a (VStr entity_id) change_type) direct_relationships ;;
  Ok (concat items).

(** [second_level_rels] filter of [_analyze_indirect_impacts]. *)
Definition second_level (eid did : Value) (r : Value) : Res bool :=
  b <- touches r did ;;
  if b then
    s <- py_get r "source" VNull ;;
    if py_eq s eid then Ok false
    else (t <- py_get r "target" VNull ;; Ok (negb (py_eq t eid)))
  else Ok false.

Fixpoint indirect_rels (a : Analyzer) (eid : Value) (d : ImpactItem) (l : list Value)
  (acc : list ImpactItem) : Res (list ImpactItem) :=
  match l with
  | [] => Ok acc
  | rel :: r =>
      aid <- other_end rel (entity_id d) ;;
      if negb (py_eq aid eid) && negb (existsb (fun i => py_eq (entity_id i) aid) acc) then
        ae <- vget aid (entity_index a) ;;
        match ae with
        | Some affected =>
            if py_truthy affected then
              it <- determine_impact_type rel "modification" ;;
              let sev := calculate_indirect_severity (severity d) rel in
              ety <- py_get affected "type" (VStr "unknown") ;;
              let item := mkItem aid ety ("indirect_" +++ it) sev
                            ("Indirectly affected via " +++ py_str (entity_id d))
                            [eid; entity_id d; aid] ["Review for potential side effects"] in
              indirect_rels a eid d r (acc ++ [item])
            else indirect_rels a eid d r acc
        | None => indirect_rels a eid d r acc
        end
      else indirect_rels a eid d r acc
  end.

(** [_analyze_indirect_impacts] *)
Definition analyze_indirect_impacts (a : Analyzer) (entity_id : string)
  (direct_impacts : list ImpactItem) : Res (list ImpactItem) :=
  fold_left (fun acc d =>
               acc <- acc ;;
               rs <- rels a ;;
               second_level_rels <- rfilter (second_level (VStr entity_id) (Impact.entity_id d)) rs ;;
               indirect_rels a (VStr entity_id) d second_level_rels acc)
            direct_impacts (Ok []).

(** The inner [for rel in next_level_rels] loop of the cascade BFS:
    visited set, cascade items and queue after it. *)
Fixpoint cascade_step (a : Analyzer) (cur : Value) (cpath : list Value) (l : list Value)
  (visited : list Value) (acc : list ImpactItem) (queue : list (Value * list Value))
  : Res (list Value * list ImpactItem * list (Value * list Value)) :=
  match l with
  | [] => Ok (visited, acc, queue)
  | rel :: r =>
      nid <- other_end rel cur ;;
      seen <- vset_mem nid visited ;;
      if seen then cascade_step a cur cpath r visited acc queue
      else
        visited <- vset_add nid visited ;;
        ne <- vget nid (entity_index a) ;;
        match ne with
        | Some next_entity =>
            if py_truthy next_entity then
              let sev := calculate_cascade_severity (length cpath) in
              ety <- py_get next_entity "type" (VStr "unknown") ;;
              via <- py_join " → " (tl cpath) ;;
              let item := mkItem nid ety "cascade" sev ("Cascade impact via " +++ via)
                            (cpath ++ [nid]) ["Monitor for unexpected effects"] in
              cascade_step a cur cpath r visited (acc ++ [item]) (queue ++ [(nid, cpath ++ [nid])])
            else cascade_step a cur cpath r visited acc queue
        | None => cascade_step a cur cpath r visited acc queue
        end
  end.

(** The [while queue and len(cascade_impacts) < 20] loop.  Every queue
    entry after the initial ones is a value newly added to [visited], an
    endpoint of some relationship, so [length queue + 2 * length rs + 1]
    iterations always reach the exit of the loop. *)
Fixpoint cascade_loop (a : Analyzer) (rs : list Value) (fuel : nat)
  (queue : list (Value * list Value)) (visited : list Value) (acc : list ImpactItem)
  : Res (list ImpactItem) :=
  match fuel with
  | O => Ok acc
  | S fuel' =>
      match queue with
      | [] => Ok acc
      | (cur, cpath) :: queue' =>
          if (length acc <? 20)%nat then
            if (5 <=? length cpath)%nat then cascade_loop a rs fuel' queue' visited acc
            else
              next_level_rels <- rfilter (fun r => touches r cur) rs ;;
              st <- cascade_step a cur cpath next_level_rels visited acc queue' ;;
              let '(visited', acc', queue'') := st in
              cascade_loop a rs fuel' queue'' visited' acc'
          else Ok acc
      end
  end.

(** [_analyze_cascade_impacts] *)
Definition analyze_cascade_impacts (a : Analyzer) (entity_id : string)
  (existing_impacts : list ImpactItem) : Res (list ImpactItem) :=
  visited <- fold_left (fun acc i => acc <- acc ;; vset_add (Impact.entity_id i) acc)
                       existing_impacts (vset_add (VStr entity_id) []) ;;
  let queue := map (fun i => (Impact.entity_id i, path i)) existing_impacts in
  rs <- rels a ;;
  cascade_loop a rs (length queue + 2 * length rs + 1) queue visited [].

(** [_analyze_affected_layers] over the impacts of a report. *)
Definition analyze_affected_layers (a : Analyzer) (all_impacts : list ImpactItem)
  : Res (list Value) :=
  fold_left (fun acc i =>
               acc <- acc ;;
               e <- vget (Impact.entity_id i) (entity_index a) ;;
               match e with
               | Some entity =>
                   if py_truthy entity then
                     layer <- py_get entity "layer" (VStr "unknown") ;;
                     if py_eq layer (VStr "unknown") then Ok acc else vset_add layer acc
                   else Ok acc
               | None => Ok acc
               end)
            all_impacts (Ok []).

Definition all_impacts (r : ImpactReport) : list ImpactItem :=
  direct_impacts r ++ indirect_impacts r ++ cascade_impacts r.

(** [_perform_risk_assessment] *)
Definition perform_risk_assessment (a : Analyzer) (source : Value) (r : ImpactReport) : Res Value :=
  entity_type <- py_get source "type" (VStr "unknown") ;;
  let '(f1, s1) := if in_strs entity_type ["functional_requirement"; "contract"]
                   then (["Critical entity type"], 3) else ([], 0) in
  let total := length (all_impacts r) in
  let '(f2, s2) := if (10 <? total)%nat then (["High impact count"], 2)
                   else if (5 <? total)%nat then (["Medium impact count"], 1) else ([], 0) in
  let critical := Z.of_nat (length (filter (fun i => String.eqb (severity i) "critical")
                                           (direct_impacts r ++ indirect_impacts r))) in
  let '(f3, s3) := if 0 <? critical then (["Critical severity impacts"], critical) else ([], 0) in
  layers <- analyze_affected_layers a (all_impacts r) ;;
  let '(f4, s4) := if (2 <? length layers)%nat then (["Multiple layer impact"], 1) else ([], 0) in
  let risk_score := s1 + s2 + s3 + s4 in
  let overall := if 8 <=? risk_score then "critical" else if 5 <=? risk_score then "high"
                 else if 3 <=? risk_score then "medium" else "low" in
  Ok (VDict [("overall_risk", VStr overall); ("risk_score", VInt risk_score);
             ("risk_factors", VList (map VStr (f1 ++ f2 ++ f3 ++ f4)));
             ("mitigation_required", VBool (in_strs (VStr overall) ["critical"; "high"]))]).

(** [_generate_mitigation_strategies] *)
Definition generate_mitigation_strategies (r : ImpactReport) : Res (list string) :=
  risk_level <- py_get (risk_assessment r) "overall_risk" (VStr "low") ;;
  let s1 := if py_eq risk_level (VStr "critical") then
              ["Implement phased rollout with rollback plan";
               "Create comprehensive test suite covering all impacts";
               "Set up monitoring for all affected entities";
               "Prepare hotfix deployment process"]
            else if py_eq risk_level (VStr "high") then
              ["Perform staged deployment"; "Enhanced testing of affected components";
               "Monitor key metrics during rollout"]
            else [] in
  let types := map impact_type (direct_impacts r ++ indirect_impacts r) in
  let has t := existsb (String.eqb t) types in
  Ok (s1 ++ (if has "implementation_change" then ["Update related contracts and BDD scenarios"] else [])
         ++ (if has "dependency_impact" then ["Verify dependency compatibility"] else [])
         ++ (if has "contract_validation" then ["Re-validate all affected contracts"] else [])
         ++ (if (1 <? length (affected_layers r))%nat
             then ["Coordinate changes across affected layers"] else [])).

(** [_generate_testing_recommendations] *)
Definition generate_testing_recommendations (r : ImpactReport) : list string :=
  let total := length (direct_impacts r ++ indirect_impacts r) in
  let layer_in l := existsb (py_eq (VStr l)) (affected_layers r) in
  ["Unit tests for modified entity"; "Integration tests for direct impacts"]
  ++ (if (5 <? total)%nat then ["Regression test suite execution";
                                "End-to-end testing of affected workflows"] else [])
  ++ (if layer_in "foundation" then ["Infrastructure and configuration testing"] else [])
  ++ (if layer_in "application" then ["Business logic validation testing"] else [])
  ++ (if layer_in "deployment" then ["Deployment and operational testing"] else [])
  ++ (if existsb (fun i => String.eqb (impact_type i) "contract_validation")
                 (direct_impacts r ++ indirect_impacts r)
      then ["Contract compliance verification"] else []).

Definition set_direct (l : list ImpactItem) (r : ImpactReport) : ImpactReport :=
  mkReport (source_entity r) (change_type r) (analysis_timestamp r) l (indirect_impacts r)
    (cascade_impacts r) (risk_assessment r) (mitigation_strategies r) (affected_layers r)
    (testing_recommendations r).
Definition set_indirect (l : list ImpactItem) (r : ImpactReport) : ImpactReport :=
  mkReport (source_entity r) (change_type r) (analysis_timestamp r) (direct_impacts r) l
    (cascade_impacts r) (risk_assessment r) (mitigation_strategies r) (affected_layers r)
    (testing_recommendations r).
Definition set_cascade (l : list ImpactItem) (r : ImpactReport) : ImpactReport :=
  mkReport (source_entity r) (change_type r) (analysis_timestamp r) (direct_impacts r)
    (indirect_impacts r) l (risk_assessment r) (mitigation_strategies r) (affected_layers r)
    (testing_recommendations r).
Definition set_risk (v : Value) (r : ImpactReport) : ImpactReport :=
  mkReport (source_entity r) (change_type r) (analysis_timestamp r) (direct_impacts r)
    (indirect_impacts r) (cascade_impacts r) v (mitigation_strategies r) (affected_layers r)
    (testing_recommendations r).
Definition set_mitigation (l : list string) (r : ImpactReport) : ImpactReport :=
  mkReport (source_entity r) (change_type r) (analysis_timestamp r) (direct_impacts r)
    (indirect_impacts r) (cascade_impacts r) (risk_assessment r) l (affected_layers r)
    (testing_recommendations r).
Definition set_layers (l : list Value) (r : ImpactReport) : ImpactReport :=
  mkReport (source_entity r) (change_type r) (analysis_timestamp r) (direct_impacts r)
    (indirect_impacts r) (cascade_impacts r) (risk_assessment r) (mitigation_strategies r) l
    (testing_recommendations r).
Definition set_testing (l : list string) (r : ImpactReport) : ImpactReport :=
  mkReport (source_entity r) (change_type r) (analysis_timestamp r) (direct_impacts r)
    (indirect_impacts r) (cascade_impacts r) (risk_assessment r) (mitigation_strategies r)
    (affected_layers r) l.

(** [except Exception as e: report.risk_assessment = {"error": str(e)}] *)
Definition with_error (r : ImpactReport) (e : string) : ImpactReport :=
  set_risk (VDict [("error", VStr e)]) r.

(** The [try] block of [analyze_change_impact], from the freshly built
    report: each phase stores its result in the report before the next runs. *)
Definition analyze_phases (a : Analyzer) (r0 : ImpactReport) : ImpactReport :=
  let eid := source_entity r0 in
  let ct := change_type r0 in
  match vget (VStr eid) (entity_index a) with
  | Err e => with_error r0 e
  | Ok found =>
  match found with
  | Some src =>
    if negb (py_truthy src) then with_error r0 ("Entity " +++ eid +++ " not found") else
    match analyze_direct_impacts a eid ct with
    | Err e => with_error r0 e
    | Ok d =>
    let r1 := set_direct d r0 in
    match analyze_indirect_impacts a eid d with
    | Err e => with_error r1 e
    | Ok i =>
    let r2 := set_indirect i r1 in
    match analyze_cascade_impacts a eid (d ++ i) with
    | Err e => with_error r2 e
    | Ok cs =>
    let r3 := set_cascade cs r2 in
    match perform_risk_assessment a src r3 with
    | Err e => with_error r3 e
    | Ok ra =>
    let r4 := set_risk ra r3 in
    match generate_mitigation_strategies r4 with
    | Err e => with_error r4 e
    | Ok ms =>
    let r5 := set_mitigation ms r4 in
    match analyze_affected_layers a (all_impacts r5) with
    | Err e => with_error r5 e
    | Ok ls =>
    let r6 := set_layers ls r5 in
    set_testing (generate_testing_recommendations r6) r6
    end end end end end end
  | None => with_error r0 ("Entity " +++ eid +++ " not found")
  end
  end.

(** [analyze_change_impact(entity_id, change_type)] *)
Definition analyze_change_impact (a : Analyzer) (entity_id change_type : string) : M ImpactReport :=
  ts <<- now_iso ;;
  mret (analyze_phases a (mkReport entity_id change_type ts [] [] [] (VDict []) [] [] [])).

(** Python's [min(a, b)] on floats. *)
Definition py_min (a b : Q) : Q := if Qle_bool a b then a else b.

(** The [for rel in self.relationships] loop of [_find_shortest_path]. *)
Fixpoint connected_of (cur : Value) (rs : list Value) : Res (list Value) :=
  match rs with
  | [] => Ok []
  | rel :: r =>
      s <- py_get rel "source" VNull ;;
      hd <- (if py_eq s cur then (t <- py_get rel "target" VNull ;; Ok [t])
             else (t <- py_get rel "target" VNull ;;
                   if py_eq t cur then Ok [s] else Ok [])) ;;
      rest <- connected_of cur r ;;
      Ok (hd ++ rest)
  end.

(** The [for next_entity in connected] loop: the path found, or the new
    visited set and queue. *)
Fixpoint bfs_expand (target : Value) (p : list Value) (l : list Value) (visited : list Value)
  (queue : list (Value * list Value))
  : Res (option (list Value) * list Value * list (Value * list Value)) :=
  match l with
  | [] => Ok (None, visited, queue)
  | nxt :: r =>
      if py_eq nxt target then Ok (Some (p ++ [target]), visited, queue)
      else
        seen <- vset_mem nxt visited ;;
        if seen then bfs_expand target p r visited queue
        else
          visited <- vset_add nxt visited ;;
          bfs_expand target p r visited (queue ++ [(nxt, p ++ [nxt])])
  end.

(** The [while queue] loop; [2 * length rs + 2] iterations reach its exit,
    as in [cascade_loop]. *)
Fixpoint bfs_loop (rs : list Value) (target : Value) (fuel : nat)
  (queue : list (Value * list Value)) (visited : list Value) : Res (option (list Value)) :=
  match fuel with
  | O => Ok None
  | S fuel' =>
      match queue with
      | [] => Ok None
      | (cur, p) :: queue' =>
          connected <- connected_of cur rs ;;
          st <- bfs_expand target p connected visited queue' ;;
          match st with
          | (Some found, _, _) => Ok (Some found)
          | (None, visited', queue'') => bfs_loop rs target fuel' queue'' visited'
          end
      end
  end.

(** [_find_shortest_path] *)
Definition find_shortest_path (a : Analyzer) (source target : Value) : Res (option (list Value)) :=
  if py_eq source target then Ok (Some [source])
  else
    rs <- rels a ;;
    visited <- vset_add source [] ;;
    bfs_loop rs target (2 * length rs + 2) [(source, [source])] visited.

(** [_calculate_entity_impact] *)
Definition calculate_entity_impact (a : Analyzer) (source target : string) : Res string :=
  p <- find_shortest_path a (VStr source) (VStr target) ;;
  Ok (match p with
      | None | Some [] => "none"
      | Some l => if (length l =? 2)%nat then "high"
                  else if (length l =? 3)%nat then "medium" else "low"
      end).

(** [generate_impact_matrix(entities)] *)
Definition generate_impact_matrix (a : Analyzer) (ids : list string)
  : Res (list (string * list (string * string))) :=
  fold_left
    (fun acc source =>
       m <- acc ;;
       row <- fold_left (fun racc target =>
                           row <- racc ;;
                           if String.eqb source target then Ok row
                           else (lvl <- calculate_entity_impact a source target ;;
                                 Ok (dict_set target lvl row)))
                        ids (Ok []) ;;
       Ok (dict_set source row m))
    ids (Ok []).

(** [_calculate_criticality_score]; floats as exact rationals. *)
Definition calculate_criticality_score (entity : Value) (n_in n_out : nat) : Res Q :=
  entity_type <- py_get entity "type" (VStr "unknown") ;;
  let score := if py_eq entity_type (VStr "functional_requirement") then 4 # 10
               else if py_eq entity_type (VStr "contract") then 3 # 10
               else if py_eq entity_type (VStr "unit_of_work") then 2 # 10 else 0 # 1 in
  let score := (score + py_min (inject_Z (Z.of_nat n_in) * (1 # 10)) (4 # 10))%Q in
  let score := (score + py_min (inject_Z (Z.of_nat n_out) * (5 # 100)) (2 # 10))%Q in
  Ok (py_min score (1 # 1)).

Definition identify_risk_factors (entity : Value) (n_in n_out : nat) : Res (list string) :=
  entity_type <- py_get entity "type" (VStr "unknown") ;;
  Ok ((if (5 <? n_in)%nat then ["High number of dependent entities"] else [])
      ++ (if (3 <? n_out)%nat then ["High complexity with multiple dependencies"] else [])
      ++ (if in_strs entity_type ["functional_requirement"; "contract"]
          then ["Critical entity type"] else [])).

Definition critical_entry (rs : list Value) (entity : Value) : Res (list (Q * Value)) :=
  eid <- py_getitem entity "id" ;;
  incoming <- rfilter (fun r => t <- py_get r "target" VNull ;;
                                if py_eq t eid
                                then (ty <- py_get r "type" VNull ;;
                                      Ok (in_strs ty ["depends_on"; "implements"]))
                                else Ok false) rs ;;
  outgoing <- rfilter (fun r => s <- py_get r "source" VNull ;;
                                if py_eq s eid
                                then (ty <- py_get r "type" VNull ;; Ok (in_strs ty ["depends_on"]))
                                else Ok false) rs ;;
  score <- calculate_criticality_score entity (length incoming) (length outgoing) ;;
  if Qle_bool (7 # 10) score then
    rf <- identify_risk_factors entity (length incoming) (length outgoing) ;;
    Ok [(score, VDict [("entity", entity); ("criticality_score", VFloat score);
                       ("incoming_dependencies", VInt (Z.of_nat (length incoming)));
                       ("outgoing_dependencies", VInt (Z.of_nat (length outgoing)));
                       ("risk_factors", VList (map VStr rf))])]
  else Ok [].

(** [find_critical_dependencies()]: [self.relationships] is iterated inside
    the loop over the entities, so only when there is an entity. *)
Definition find_critical_dependencies (a : Analyzer) : Res (list Value) :=
  entries <- rmap (fun e => rs <- rels a ;; critical_entry rs e) (entities a) ;;
  Ok (map snd (sort_desc fst (concat entries))).

(** ** [simulate_entity_removal] *)

Record Simulation : Type := mkSimulation {
  removed_entity : string;
  broken_relationships : list Value;
  orphaned_entities : list Value;
  cascade_removals : list Value;
  affected_contracts : list Value;
  affected_bdd_scenarios : list Value;
  recovery_plan : list string;
  simulation_timestamp : string;
  error : option string
}.

(** A [for] loop appending to a list of the result dict in place: the
    entries appended before an exception stay in the list. *)
Fixpoint append_loop (f : Value -> Res (list Value)) (l : list Value) (acc : list Value)
  : list Value * option string :=
  match l with
  | [] => (acc, None)
  | x :: r =>
      match f x with
      | Ok ys => append_loop f r (acc ++ ys)
      | Err e => (acc, Some e)
      end
  end.

(** One [rel] of the orphaned-entities loop. *)
Definition orphan_of (a : Analyzer) (eid rel : Value) : Res (list Value) :=
  ty <- py_get rel "type" VNull ;;
  if py_eq ty (VStr "implements") then
    s <- py_get rel "source" VNull ;;
    if py_eq s eid then
      t <- py_get rel "target" VNull ;;
      te <- vget t (entity_index a) ;;
      match te with
      | Some target_entity =>
          if py_truthy target_entity then (i <- py_getitem target_entity "id" ;; Ok [i])
          else Ok []
      | None => Ok []
      end
    else Ok []
  else Ok [].

(** One [r] of [dependent_entities]. *)
Definition dependent_of (eid r : Value) : Res (list Value) :=
  ty <- py_get r "type" VNull ;;
  if py_eq ty (VStr "depends_on") then
    t <- py_get r "target" VNull ;;
    if py_eq t eid then (s <- py_get r "source" VNull ;; Ok [s]) else Ok []
  else Ok [].

(** One [dep_entity_id] of the cascade-removals loop: [alternative_deps]
    scans [self.relationships]. *)
Definition cascade_of (rs : list Value) (eid dep : Value) : Res (list Value) :=
  alternative_deps <- rfilter (fun r =>
                                 s <- py_get r "source" VNull ;;
                                 if py_eq s dep then
                                   ty <- py_get r "type" VNull ;;
                                   if py_eq ty (VStr "depends_on") then
                                     t <- py_get r "target" VNull ;; Ok (negb (py_eq t eid))
                                   else Ok false
                                 else Ok false) rs ;;
  Ok (match alternative_deps with [] => [dep] | _ => [] end).

(** One [entity] of the affected-contracts loop. *)
Definition contract_of (eid entity : Value) : Res (list Value) :=
  ty <- py_get entity "type" VNull ;;
  if py_eq ty (VStr "contract") then
    applies_to <- py_get entity "applies_to" (VDict []) ;;
    n <- py_get applies_to "entity_name" VNull ;;
    if py_eq n eid then (i <- py_getitem entity "id" ;; Ok [i]) else Ok []
  else Ok [].

(** [_generate_recovery_plan]: a list is true when it is not empty. *)
Definition generate_recovery_plan (s : Simulation) : list string :=
  (if py_truthy (VList (orphaned_entities s))
   then ["Create alternative implementations for orphaned requirements"] else [])
  ++ (if py_truthy (VList (cascade_removals s))
      then ["Establish alternative dependencies for cascade-affected entities"] else [])
  ++ (if py_truthy (VList (affected_contracts s)) then ["Update or remove affected contracts"] else [])
  ++ (if py_truthy (VList (broken_relationships s))
      then ["Re-establish critical relationships with alternative entities"] else [])
  ++ ["Update documentation and traceability matrix"; "Run full SSOT verification after changes"].

(** The [try] block of [simulate_entity_removal]: on an exception the
    result holds what was stored before it, and [error]. *)
Definition removal_phases (a : Analyzer) (entity_id ts : string) : Simulation :=
  let eid := VStr entity_id in
  let result broken orphaned cascade contracts plan err :=
    mkSimulation entity_id broken orphaned cascade contracts [] plan ts err in
  match rels a with
  | Err e => result [] [] [] [] [] (Some e)
  | Ok rs =>
  match rfilter (fun r => touches r eid) rs with
  | Err e => result [] [] [] [] [] (Some e)
  | Ok related =>
  match append_loop (orphan_of a eid) related [] with
  | (orphaned, Some e) => result related orphaned [] [] [] (Some e)
  | (orphaned, None) =>
  match rmap (dependent_of eid) related with
  | Err e => result related orphaned [] [] [] (Some e)
  | Ok ds =>
  match append_loop (cascade_of rs eid) (concat ds) [] with
  | (cascade, Some e) => result related orphaned cascade [] [] (Some e)
  | (cascade, None) =>
  match append_loop (contract_of eid) (entities a) [] with
  | (contracts, Some e) => result related orphaned cascade contracts [] (Some e)
  | (contracts, None) =>
      result related orphaned cascade contracts
             (generate_recovery_plan (result related orphaned cascade contracts [] None)) None
  end end end end end end.

(** [simulate_entity_removal(entity_id)] *)
Definition simulate_entity_removal (a : Analyzer) (entity_id : string) : M Simulation :=
  ts <<- now_iso ;;
  mret (removal_phases a entity_id ts).

End Impact.

(** * Query engine: ssot-query.py, class SSOTQuery *)

Module Query.

Record QueryResult : Type := mkResult {
  query : string;
  results : list Value;
  metadata : Value;
  execution_time : Q
}.

(** [self.entities] and [self.relationships] as loaded (iterated at each
    use), [self.knowledge], and the stems of the [*.feature] files found
    under the features directory (none when it does not exist). *)
Record Engine : Type := mkEngine {
  entities : Value;
  relationships : Value;
  knowledge : list (string * Value);
  feature_stems : list string
}.

(** [_load_knowledge]: each of patterns/decisions/lessons.yaml that exists,
    as [yaml.safe_load(f) or {}]. *)
Definition load_knowledge (patterns decisions lessons : option Value) : list (string * Value) :=
  let entry k f := match f with
                   | Some v => [(k, if py_truthy v then v else VDict [])]
                   | None => []
                   end in
  entry "patterns" patterns ++ entry "decisions" decisions ++ entry "lessons" lessons.

(** [SSOTQuery.__init__]: [_load_entities] and [_load_relationships] give
    [[]] for a missing file. *)
Definition init (entities_file relationships_file : option Value)
  (knowledge : list (string * Value)) (feature_stems : list string) : Engine :=
  mkEngine (Impact.load_or_empty entities_file) (Impact.load_or_empty relationships_file)
           knowledge feature_stems.

Definition ents (q : Engine) : Res (list Value) := py_iter (entities q).
Definition rels (q : Engine) : Res (list Value) := py_iter (relationships q).

(** [_get_entity_by_id] *)
Definition get_entity_by_id (q : Engine) (eid : Value) : Res (option Value) :=
  es <- ents q ;;
  (fix go (l : list Value) : Res (option Value) :=
     match l with
     | [] => Ok None
     | e :: r => i <- py_get e "id" VNull ;; if py_eq i eid then Ok (Some e) else go r
     end) es.

(** ** keyword queries *)

(** [' '.join([title, description, ' '.join(acceptance_criteria)]).lower()] *)
Definition searchable_text (entity : Value) : Res string :=
  title <- py_get entity "title" (VStr "") ;;
  description <- py_get entity "description" (VStr "") ;;
  ac <- py_get entity "acceptance_criteria" (VList []) ;;
  acl <- py_iter ac ;;
  acs <- py_join " " acl ;;
  s <- py_join " " [title; description; VStr acs] ;;
  Ok (lower s).

(** [_calculate_relevance] *)
Definition calculate_relevance (keyword text : string) : Q :=
  Z.of_nat (py_count (lower keyword) (lower text))
    # Pos.of_nat (Nat.max (length (split_ws text)) 1).

(** [s.lower()]: an [AttributeError] unless [s] is a string. *)
Definition py_lower (v : Value) : Res string :=
  match v with VStr s => Ok (lower s) | _ => Err "AttributeError" end.

(** [_find_keyword_matches] *)
Definition find_keyword_matches (keyword : string) (entity : Value) : Res (list string) :=
  let keyword_lower := lower keyword in
  title <- py_get entity "title" (VStr "") ;;
  tl_ <- py_lower title ;;
  description <- py_get entity "description" (VStr "") ;;
  dl <- py_lower description ;;
  Ok ((if str_in keyword_lower tl_ then ["title: " +++ py_str title] else [])
      ++ (if str_in keyword_lower dl then ["description: " +++ py_str description] else [])).

(** One entity of [find_requirements_by_keyword]: its result, if any,
    with the relevance it is sorted by. *)
Definition keyword_entry (keyword : string) (entity : Value) : Res (list (Q * Value)) :=
  ty <- py_get entity "type" VNull ;;
  if in_strs ty ["functional_requirement"; "non_functional_requirement"] then
    text <- searchable_text entity ;;
    if str_in (lower keyword) text then
      let rel := calculate_relevance keyword text in
      ms <- find_keyword_matches keyword entity ;;
      Ok [(rel, VDict [("entity", entity); ("relevance", VFloat rel);
                       ("matches", VList (map VStr ms))])]
    else Ok []
  else Ok [].

(** [find_requirements_by_keyword], sorted by relevance (stable). *)
Definition find_requirements_by_keyword (q : Engine) (keyword : string) : Res (list Value) :=
  es <- ents q ;;
  rs <- rmap (keyword_entry keyword) es ;;
  Ok (map snd (sort_desc fst (concat rs))).

(** [result['entity']['id']] *)
Definition result_entity_id (r : Value) : Res Value :=
  e <- py_getitem r "entity" ;; py_getitem e "id".

(** The de-duplication loop of [_process_keyword_query]. *)
Fixpoint dedup_results (l : list Value) (seen_ids : list Value) : Res (list Value) :=
  match l with
  | [] => Ok []
  | r :: rest =>
      eid <- result_entity_id r ;;
      seen <- vset_mem eid seen_ids ;;
      if seen then dedup_results rest seen_ids
      else (seen_ids' <- vset_add eid seen_ids ;;
            tl_ <- dedup_results rest seen_ids' ;; Ok (r :: tl_))
  end.

(** [_process_keyword_query] *)
Definition process_keyword_query (q : Engine) (query_text : string) : Res (list Value) :=
  per_keyword <- rmap (find_requirements_by_keyword q) (split_ws query_text) ;;
  dedup_results (concat per_keyword) [].

(** ** entity-id extraction: [re.findall(r'PFX-\d+', text, re.IGNORECASE)] *)

Definition is_digit (c : ascii) : bool :=
  let n := nat_of_ascii c in ((48 <=? n)%nat && (n <=? 57)%nat).

Fixpoint take_digits (s : string) : string :=
  match s with
  | String c r => if is_digit c then String c (take_digits r) else EmptyString
  | EmptyString => EmptyString
  end.

(** The match of [PFX-\d+] (ignoring case) at the start of [s], if any. *)
Definition match_id_at (pfx s : string) : option string :=
  let head := pfx +++ "-" in
  if String.prefix (lower head) (lower s) then
    let rest := String.substring (String.length head) (String.length s) s in
    let ds := take_digits rest in
    if String.eqb ds "" then None
    else Some (String.substring 0 (String.length head) s +++ ds)
  else None.

Fixpoint findall_from (pfx s : string) (skip : nat) : list string :=
  match s with
  | EmptyString => []
  | String _ r =>
      match skip with
      | S k => findall_from pfx r k
      | O => match match_id_at pfx s with
             | Some m => m :: findall_from pfx r (String.length m - 1)
             | None => findall_from pfx r O
             end
      end
  end.

Definition entity_patterns : list string := ["FR"; "NFR"; "UoW"; "CTR"].

Definition found_entities (query_text : string) : list string :=
  concat (map (fun p => findall_from p query_text O) entity_patterns).

(** [re.search(r'uow[_-](\d+)', stem).group(1)] *)
Fixpoint search_uow (s : string) : option string :=
  match s with
  | EmptyString => None
  | String _ r =>
      let m1 := if String.prefix "uow_" s then Some (String.substring 4 (String.length s) s)
                else if String.prefix "uow-" s then Some (String.substring 4 (String.length s) s)
                else None in
      match m1 with
      | Some rest => let ds := take_digits rest in
                     if String.eqb ds "" then search_uow r else Some ds
      | None => search_uow r
      end
  end.


(** ** relationship queries *)

(** [if uow_entity:] on the result of [_get_entity_by_id] *)
Definition found (o : option Value) : option Value :=
  match o with Some e => if py_truthy e then Some e else None | None => None end.

(** [_find_dependent_uows] *)
Definition find_dependent_uows (q : Engine) (uow_id : Value) : Res (list Value) :=
  rs <- rels q ;;
  xs <- rmap (fun rel =>
                ty <- py_get rel "type" VNull ;;
                if py_eq ty (VStr "depends_on") then
                  tg <- py_get rel "target" VNull ;;
                  if py_eq tg uow_id then
                    src <- py_get rel "source" VNull ;;
                    o <- get_entity_by_id q src ;;
                    Ok (match found o with Some e => [e] | None => [] end)
                  else Ok []
                else Ok []) rs ;;
  Ok (concat xs).

Definition indirect_entry (e : Value) : Value :=
  VDict [("uow", e); ("relationship", VDict [("type", VStr "indirect")]);
         ("direct", VBool false)].

(** The second loop of [find_implementing_uows] iterates over the list it
    appends to, so it visits the entries layer by layer: the dependents of
    the direct entries, then theirs, and so on.  A chain of more layers
    than there are relationships uses one relationship twice and repeats
    for ever: the loop does not terminate, reported here as
    [Err "nontermination"]. *)
Fixpoint implementing_layers (q : Engine) (fuel : nat) (layer : list Value) : Res (list Value) :=
  match layer with
  | [] => Ok []
  | _ =>
      match fuel with
      | O => Err "nontermination"
      | S fuel' =>
          next <- rmap (fun item => u <- py_getitem item "uow" ;; i <- py_getitem u "id" ;;
                                    find_dependent_uows q i) layer ;;
          let next' := map indirect_entry (concat next) in
          rest <- implementing_layers q fuel' next' ;;
          Ok (next' ++ rest)
      end
  end.

(** [find_implementing_uows] *)
Definition find_implementing_uows (q : Engine) (requirement_id : string) : Res (list Value) :=
  rs <- rels q ;;
  direct <- rmap (fun rel =>
                    ty <- py_get rel "type" VNull ;;
                    if py_eq ty (VStr "implements") then
                      tg <- py_get rel "target" VNull ;;
                      if py_eq tg (VStr requirement_id) then
                        src <- py_get rel "source" VNull ;;
                        o <- get_entity_by_id q src ;;
                        Ok (match found o with
                            | Some e => [VDict [("uow", e); ("relationship", rel);
                                                ("direct", VBool true)]]
                            | None => [] end)
                      else Ok []
                    else Ok []) rs ;;
  let direct' := concat direct in
  indirect <- implementing_layers q (S (length rs)) direct' ;;
  Ok (direct' ++ indirect).

(** [find_related_contracts] *)
Definition find_related_contracts (q : Engine) (entity_id : string) : Res (list Value) :=
  es <- ents q ;;
  xs <- rmap (fun entity =>
                ty <- py_get entity "type" VNull ;;
                if py_eq ty (VStr "contract") then
                  applies_to <- py_get entity "applies_to" (VDict []) ;;
                  n <- py_get applies_to "entity_name" VNull ;;
                  if py_eq n (VStr entity_id) then
                    Ok [VDict [("contract", entity); ("relationship_type", VStr "validates");
                               ("applies_to", applies_to)]]
                  else Ok []
                else Ok []) es ;;
  Ok (concat xs).

(** [_process_relationship_query] *)
Definition process_relationship_query (q : Engine) (query_text : string) : Res (list Value) :=
  xs <- rmap (fun entity_id =>
                us <- (if String.prefix "FR-" entity_id || String.prefix "NFR-" entity_id
                       then find_implementing_uows q entity_id else Ok []) ;;
                cs <- find_related_contracts q entity_id ;;
                Ok (us ++ cs)) (found_entities query_text) ;;
  Ok (concat xs).

(** ** pattern queries *)

(** The relevances [search_patterns] sorts with [reverse=True]: numbers
    (bool, int, float) with each other, strings with each other; a list of
    at most one entry is not compared.  Any other mix, and any other kind of
    value (lists of lists, compared lexicographically by Python, included),
    is reported as [TypeError]. *)
Definition as_number (v : Value) : option Q :=
  match v with
  | VBool b => Some (if b then 1 # 1 else 0 # 1)
  | VInt z => Some (z # 1)
  | VFloat x => Some x
  | _ => None
  end.

Definition as_string (v : Value) : option string :=
  match v with VStr s => Some s | _ => None end.

Fixpoint all_some {A : Type} (l : list (option A)) : option (list A) :=
  match l with
  | [] => Some []
  | None :: _ => None
  | Some a :: r => match all_some r with Some l' => Some (a :: l') | None => None end
  end.

Fixpoint insert_desc_str {A : Type} (x : string * A) (l : list (string * A)) : list (string * A) :=
  match l with
  | [] => [x]
  | y :: r => if String.leb (fst x) (fst y) then y :: insert_desc_str x r else x :: l
  end.

Definition sort_by_relevance (ps : list (Value * Value)) : Res (list Value) :=
  match ps with
  | [] | [_] => Ok (map snd ps)
  | _ =>
      match all_some (map (fun p => as_number (fst p)) ps) with
      | Some ns => Ok (map snd (sort_desc fst (combine ns (map snd ps))))
      | None =>
          match all_some (map (fun p => as_string (fst p)) ps) with
          | Some ss => Ok (map snd (fold_left (fun acc x => insert_desc_str x acc)
                                              (combine ss (map snd ps)) []))
          | None => Err "TypeError"
          end
      end
  end.

(** [search_patterns] *)
Definition search_patterns (q : Engine) (pattern_type : option string) : Res (list Value) :=
  match assoc "patterns" (knowledge q) with
  | None => Ok []
  | Some pats =>
      kvs <- py_items pats ;;
      xs <- rmap (fun kv =>
                    let '(pattern_id, pattern_data) := kv in
                    keep <- (match pattern_type with
                             | None => Ok true
                             | Some t => c <- py_get pattern_data "category" VNull ;;
                                         Ok (py_eq c (VStr t))
                             end) ;;
                    if keep then
                      rel <- py_get pattern_data "frequency" (VInt 0) ;;
                      Ok [(rel, VDict [("id", VStr pattern_id); ("pattern", pattern_data);
                                       ("relevance", rel)])]
                    else Ok []) kvs ;;
      sort_by_relevance (concat xs)
  end.

Definition pattern_keywords : list (string * string) :=
  [("error", "error_handling"); ("validation", "data_validation");
   ("config", "configuration"); ("test", "testing"); ("performance", "performance")].

(** [_process_pattern_query] *)
Definition process_pattern_query (q : Engine) (query_text : string) : Res (list Value) :=
  let pattern_type :=
    match find (fun kp => str_in (fst kp) (lower query_text)) pattern_keywords with
    | Some (_, t) => Some t
    | None => None
    end in
  search_patterns q pattern_type.

(** ** impact queries *)

(** A loop that appends to a list in place: the entries appended before an
    exception stay in the list. *)
Fixpoint partial_map {A B : Type} (f : A -> list B * option string) (l : list A)
  : list B * option string :=
  match l with
  | [] => ([], None)
  | x :: r =>
      let (ys, e) := f x in
      match e with
      | Some _ => (ys, e)
      | None => let (zs, e') := partial_map f r in (ys ++ zs, e')
      end
  end.

Definition of_res {B : Type} (r : Res (list B)) : list B * option string :=
  match r with Ok l => (l, None) | Err e => ([], Some e) end.

(** [_determine_impact_type] *)
Definition determine_impact_type (relationship : Value) : Res string :=
  rel_type <- py_get relationship "type" VNull ;;
  Ok (if py_eq rel_type (VStr "implements") then "implementation_change"
      else if py_eq rel_type (VStr "depends_on") then "dependency_impact"
      else if py_eq rel_type (VStr "validates") then "contract_validation"
      else "general_impact").

(** [_calculate_risk_level] *)
Definition calculate_risk_level (direct_count indirect_count : nat) (entity_type : Value) : string :=
  let total_impacts := Z.of_nat (direct_count + indirect_count) in
  let risk_multiplier := if in_strs entity_type ["functional_requirement"; "contract"]
                         then 3 # 2 else 1 # 1 in
  let adjusted_impact := ((total_impacts # 1) * risk_multiplier)%Q in
  if Qle_bool (10 # 1) adjusted_impact then "high"
  else if Qle_bool (5 # 1) adjusted_impact then "medium"
  else "low".

(** [_generate_impact_recommendations] *)
Definition generate_impact_recommendations (entity : Value) (direct_impacts indirect_impacts : list Value)
  : Res (list Value) :=
  ty <- py_get entity "type" VNull ;;
  Ok ((if (5 <? length direct_impacts)%nat
       then [VStr "Consider breaking down this entity due to high coupling"] else [])
      ++ (if (10 <? length indirect_impacts)%nat
          then [VStr "Review architecture to reduce indirect dependencies"] else [])
      ++ (if py_eq ty (VStr "functional_requirement") && (length direct_impacts =? 0)%nat
          then [VStr "This requirement has no implementing UoWs - consider adding implementation"]
          else [])).

(** [r.get('source') == eid or r.get('target') == eid] *)
Definition touches_id (r eid : Value) : Res bool :=
  s <- py_get r "source" VNull ;;
  if py_eq s eid then Ok true else (t <- py_get r "target" VNull ;; Ok (py_eq t eid)).

(** [rel.get('target') if rel.get('source') == eid else rel.get('source')] *)
Definition other_end_id (rel eid : Value) : Res Value :=
  s <- py_get rel "source" VNull ;;
  if py_eq s eid then py_get rel "target" VNull else py_get rel "source" VNull.

(** One iteration of the direct-impact loop of [analyze_impact]. *)
Definition direct_impact_of (q : Engine) (entity_id : string) (rel : Value) : Res (list Value) :=
  related_entity_id <- other_end_id rel (VStr entity_id) ;;
  o <- get_entity_by_id q related_entity_id ;;
  match found o with
  | Some related_entity =>
      it <- determine_impact_type rel ;;
      Ok [VDict [("entity", related_entity); ("relationship", rel); ("impact_type", VStr it)]]
  | None => Ok []
  end.

(** One iteration of the indirect-impact loop of [analyze_impact]: the
    comprehension, then the appending loop over it. *)
Definition indirect_impacts_of (q : Engine) (entity_id : string) (direct_relationships : list Value)
  (direct_impact : Value) : list Value * option string :=
  let did := de <- py_getitem direct_impact "entity" ;; py_getitem de "id" in
  match (rs <- rels q ;;
         rfilter (fun r => d <- did ;; b <- touches_id r d ;;
                           Ok (b && negb (existsb (py_eq r) direct_relationships))) rs) with
  | Err e => ([], Some e)
  | Ok indirect_rels =>
      partial_map (fun indirect_rel => of_res (
        d <- did ;;
        related_entity_id <- other_end_id indirect_rel d ;;
        o <- get_entity_by_id q related_entity_id ;;
        match found o with
        | Some related_entity =>
            rid <- py_getitem related_entity "id" ;;
            if py_eq rid (VStr entity_id) then Ok []
            else Ok [VDict [("entity", related_entity); ("relationship", indirect_rel);
                            ("via", d); ("impact_type", VStr "indirect")]]
        | None => Ok []
        end)) indirect_rels
  end.

(** The [try] block of [analyze_impact]: direct impacts, indirect impacts,
    risk level, recommendations and the [error] entry, as left in
    [impact_analysis] when the block ends or raises. *)
Definition impact_body (q : Engine) (entity_id : string)
  : list Value * list Value * string * list Value * option string :=
  match get_entity_by_id q (VStr entity_id) with
  | Err e => ([], [], "low", [], Some e)
  | Ok o =>
      match found o with
      | None => ([], [], "low", [], Some ("Entity " +++ entity_id +++ " not found"))
      | Some entity =>
          match (rs <- rels q ;; rfilter (fun r => touches_id r (VStr entity_id)) rs) with
          | Err e => ([], [], "low", [], Some e)
          | Ok direct_relationships =>
              let (direct, e1) := partial_map (fun rel => of_res (direct_impact_of q entity_id rel))
                                              direct_relationships in
              match e1 with
              | Some _ => (direct, [], "low", [], e1)
              | None =>
                  let (indirect, e2) := partial_map (indirect_impacts_of q entity_id direct_relationships)
                                                    direct in
                  match e2 with
                  | Some _ => (direct, indirect, "low", [], e2)
                  | None =>
                      match py_get entity "type" VNull with
                      | Err e => (direct, indirect, "low", [], Some e)
                      | Ok ty =>
                          let risk := calculate_risk_level (length direct) (length indirect) ty in
                          match generate_impact_recommendations entity direct indirect with
                          | Err e => (direct, indirect, risk, [], Some e)
                          | Ok recs => (direct, indirect, risk, recs, None)
                          end
                      end
                  end
              end
          end
      end
  end.

(** [analyze_impact] *)
Definition analyze_impact (q : Engine) (entity_id change_type : string) : M Value :=
  ts <<- now_iso ;;
  let '(direct, indirect, risk, recs, err) := impact_body q entity_id in
  mret (VDict ([("entity_id", VStr entity_id); ("change_type", VStr change_type);
                ("direct_impacts", VList direct); ("indirect_impacts", VList indirect);
                ("risk_level", VStr risk); ("recommendations", VList recs);
                ("analysis_timestamp", VStr ts)]
               ++ match err with Some e => [("error", VStr e)] | None => [] end)).

(** [_process_impact_query] *)
Definition process_impact_query (q : Engine) (query_text : string) : M (list Value) :=
  mmap (fun entity_id =>
          ia <<- analyze_impact q entity_id "modification" ;;
          mret (VDict [("entity_id", VStr entity_id); ("impact_analysis", ia)]))
       (found_entities query_text).

(** ** coverage and gap queries *)

Definition type_is (ts : list string) (e : Value) : Res bool :=
  ty <- py_get e "type" VNull ;; Ok (in_strs ty ts).

Definition ids_of_type (ts : list string) (es : list Value) : Res (list Value) :=
  xs <- rfilter (type_is ts) es ;; rmap (fun e => py_getitem e "id") xs.

(** [x not in xs] on a list *)
Definition not_in (xs : list Value) (x : Value) : bool := negb (existsb (py_eq x) xs).

(** [analyze_coverage_gaps] *)
Definition analyze_coverage_gaps (q : Engine) : M Value :=
  ts <<- now_iso ;;
  lift (
    es <- ents q ;;
    rs <- rels q ;;
    requirement_ids <- ids_of_type ["functional_requirement"; "non_functional_requirement"] es ;;
    impl <- rfilter (type_is ["implements"]) rs ;;
    implemented_reqs <- rmap (fun r => py_getitem r "target") impl ;;
    uow_ids <- ids_of_type ["unit_of_work"] es ;;
    contracts <- rfilter (type_is ["contract"]) es ;;
    contracted <- rmap (fun entity =>
                          applies_to <- py_get entity "applies_to" (VDict []) ;;
                          et <- py_get applies_to "entity_type" VNull ;;
                          if py_eq et (VStr "uow") then
                            n <- py_get applies_to "entity_name" VNull ;; Ok [n]
                          else Ok []) contracts ;;
    let uows_with_bdd :=
      flat_map (fun stem => match search_uow stem with
                            | Some uow_num => [VStr ("UoW-" +++ uow_num)]
                            | None => [] end) (feature_stems q) in
    valid_entity_ids <- rmap (fun e => py_getitem e "id") es ;;
    orphaned <- rmap (fun entity =>
                        applies_to <- py_get entity "applies_to" (VDict []) ;;
                        target_entity <- py_get applies_to "entity_name" VNull ;;
                        if py_truthy target_entity && not_in valid_entity_ids target_entity then
                          i <- py_getitem entity "id" ;; Ok [i]
                        else Ok []) contracts ;;
    Ok (VDict [("requirements_without_uows", VList (filter (not_in implemented_reqs) requirement_ids));
               ("uows_without_contracts", VList (filter (not_in (concat contracted)) uow_ids));
               ("uows_without_bdd", VList (filter (not_in uows_with_bdd) uow_ids));
               ("orphaned_contracts", VList (concat orphaned));
               ("analysis_timestamp", VStr ts)])).

(** [_process_coverage_query]; [_process_gap_query] calls it. *)
Definition process_coverage_query (q : Engine) (query_text : string) : M (list Value) :=
  gaps <<- analyze_coverage_gaps q ;;
  mret [VDict [("coverage_analysis", gaps)]].

Definition process_gap_query (q : Engine) (query_text : string) : M (list Value) :=
  process_coverage_query q query_text.

(** ** dispatch *)

(** [_detect_query_type] *)
Definition detect_query_type (query_text : string) : string :=
  let query_lower := lower query_text in
  let any ws := existsb (fun w => str_in w query_lower) ws in
  if any ["impact"; "affect"; "change"] then "impact"
  else if any ["implement"; "cover"; "relate"] then "relationship"
  else if any ["pattern"; "frequent"; "common"] then "pattern"
  else if any ["gap"; "missing"; "without"] then "gap"
  else if any ["coverage"; "complete"] then "coverage"
  else "keyword".

(** [self.query_processors.get(query_type, self._process_keyword_query)] *)
Definition processor (q : Engine) (query_type query_text : string) : M (list Value) :=
  if String.eqb query_type "keyword" then lift (process_keyword_query q query_text)
  else if String.eqb query_type "relationship" then lift (process_relationship_query q query_text)
  else if String.eqb query_type "pattern" then lift (process_pattern_query q query_text)
  else if String.eqb query_type "impact" then process_impact_query q query_text
  else if String.eqb query_type "coverage" then process_coverage_query q query_text
  else if String.eqb query_type "gap" then process_gap_query q query_text
  else lift (process_keyword_query q query_text).

(** [query] *)
Definition query_ (q : Engine) (query_text query_type : string) : M QueryResult :=
  start_time <<- now ;;
  let query_type := if String.eqb query_type "auto" then detect_query_type query_text
                    else query_type in
  mcatch
    (results <<- processor q query_type query_text ;;
     end_time <<- now ;;
     mret (mkResult query_text results
             (VDict [("query_type", VStr query_type); ("timestamp", VStr (isoformat end_time));
                     ("results_count", VInt (Z.of_nat (length results)))])
             ((end_time - start_time) # 1000000)))
    (fun e => ts <<- now_iso ;;
              mret (mkResult query_text []
                      (VDict [("error", VStr e); ("query_type", VStr query_type);
                              ("timestamp", VStr ts)])
                      (0 # 1))).

End Query.

(** * Sync engine: sync-engine.py, class SyncEngine *)

Module Sync.

Section Digest.

(** [_generate_hash], the same function as the indexer's. *)
Variable digest : Value -> string.

(** The entries of one section of the framework requirements, in order. *)
Definition section_entities (fr_data : Value) (key ty : string)
  (entities : list (string * Value)) : Res (list (string * Value)) :=
  present <- py_in (VStr key) fr_data ;;
  if present then
    sec <- py_getitem fr_data key ;;
    kvs <- py_items sec ;;
    Ok (fold_left (fun acc kv =>
                     let '(eid, spec) := kv in
                     dict_set eid (VDict [("id", VStr eid); ("type", VStr ty);
                                          ("content", spec); ("hash", VStr (digest spec))]) acc)
                  kvs entities)
  else Ok entities.

(** [_extract_ssot_entities]: functional requirements, non-functional
    requirements and units of work, keyed by id (a later entry with the same
    id replaces an earlier one in place). *)
Definition extract_ssot_entities (ssot_state : list (string * Value)) : Res (list (string * Value)) :=
  match assoc "framework_requirements" ssot_state with
  | None => Ok []
  | Some fr_data =>
      e1 <- section_entities fr_data "functional_requirements" "functional_requirement" [] ;;
      e2 <- section_entities fr_data "non_functional_requirements" "non_functional_requirement" e1 ;;
      section_entities fr_data "units_of_work" "unit_of_work" e2
  end.

(** [_entities_differ] *)
Definition entities_differ (ssot_entity graphrag_entity : Value) : Res bool :=
  ssot_hash <- py_get ssot_entity "hash" VNull ;;
  m <- py_get graphrag_entity "metadata" (VDict []) ;;
  graphrag_hash <- py_get m "hash" VNull ;;
  Ok (negb (py_eq ssot_hash graphrag_hash)).

Record Changes : Type := mkChanges {
  ssot_updates : list Value;
  graphrag_updates : list Value;
  conflicts : list Value
}.

(** [{entity['id']: entity for entity in graphrag_state['entities']}] *)
Definition index_by_id (es : list Value) : Res (list (Value * Value)) :=
  fold_left (fun acc entity =>
               m <- acc ;;
               i <- py_getitem entity "id" ;;
               if hashable i then Ok (vinsert i entity m) else Err "TypeError")
            es (Ok []).

(** [entity_id in ssot_entities] for a key of the index. *)
Definition in_ssot (entity_id : Value) (ssot_entities : list (string * Value)) : bool :=
  existsb (fun kv => py_eq entity_id (VStr (fst kv))) ssot_entities.

(** [detect_changes] *)
Definition detect_changes (ssot_state graphrag_state : list (string * Value)) : Res Changes :=
  match assoc "entities" graphrag_state with
  | None => Ok (mkChanges [] [] [])
  | Some ges =>
      ssot_entities <- extract_ssot_entities ssot_state ;;
      gl <- py_iter ges ;;
      graphrag_entities <- index_by_id gl ;;
      ups <- rmap (fun kv =>
                     let '(entity_id, ssot_entity) := kv in
                     match vlookup (VStr entity_id) graphrag_entities with
                     | Some graphrag_entity =>
                         d <- entities_differ ssot_entity graphrag_entity ;;
                         Ok (if d then [VStr entity_id] else [])
                     | None => Ok [VStr entity_id]
                     end) ssot_entities ;;
      others <- rmap (fun kv =>
                        let '(entity_id, graphrag_entity) := kv in
                        if in_ssot entity_id ssot_entities then Ok ([], [])
                        else (ty <- py_get graphrag_entity "type" VNull ;;
                              if in_strs ty ["pattern"; "decision"; "lesson"]
                              then Ok ([entity_id], []) else Ok ([], [entity_id])))
                     graphrag_entities ;;
      Ok (mkChanges (concat ups) (concat (map fst others)) (concat (map snd others)))
  end.

(** ** Synchronisation operations *)

Record SyncConflict : Type := mkConflict {
  conflict_entity_id : Value;
  conflict_type : string;
  ssot_value : Value;
  graphrag_value : Value;
  resolution : option string
}.

(** [SyncResult(success, entities_updated=0, conflicts=None, error=None)];
    its [conflicts] field is [result_conflicts] here, [conflicts] naming
    the list of [detect_changes]. *)
Record SyncResult : Type := mkSyncResult {
  success : bool;
  entities_updated : nat;
  result_conflicts : option (list SyncConflict);
  error : option string
}.

(** The message of the [ImportError] raised by
    [from .indexer.ssot_indexer import SSOTIndexer]: no module
    [ssot_indexer] exists (the indexer is [indexer/ssot-indexer.py], not a
    module name), whether the file runs as a script or inside a package. *)
Variable import_error : string.

Definition import_ssot_indexer : Res unit := Err import_error.

(** [sync_ssot_to_graphrag(changes)]; the events it logs to [sync.log] are
    not modelled.  Past the import, [index_ssot] is only reached if the
    import succeeds. *)
Definition sync_ssot_to_graphrag (changes : list Value) : SyncResult :=
  match import_ssot_indexer with
  | Err e => mkSyncResult false 0 None (Some e)
  | Ok _ => mkSyncResult true (length changes) None None
  end.

(** [len(x)] *)
Definition py_len (v : Value) : Res nat :=
  match v with
  | VList l => Ok (length l)
  | VDict kvs => Ok (length kvs)
  | VStr s => Ok (String.length s)
  | _ => Err "TypeError"
  end.

(** One knowledge kind of [sync_graphrag_to_ssot]: the count it adds when
    [key in graphrag_state and graphrag_state[key]]; the file
    [_integrate_*_to_ssot] writes first is not modelled. *)
Definition knowledge_count (graphrag_state : list (string * Value)) (key : string) : Res nat :=
  match assoc key graphrag_state with
  | Some v => if py_truthy v then py_len v else Ok O
  | None => Ok O
  end.

(** [sync_graphrag_to_ssot(knowledge_updates)], on the GraphRAG state it
    reloads. *)
Definition sync_graphrag_to_ssot (graphrag_state : list (string * Value))
  (knowledge_updates : list Value) : SyncResult :=
  match (p <- knowledge_count graphrag_state "patterns" ;;
         d <- knowledge_count graphrag_state "decisions" ;;
         l <- knowledge_count graphrag_state "lessons" ;;
         Ok (p + d + l)%nat) with
  | Ok updated_count => mkSyncResult true updated_count None None
  | Err e => mkSyncResult false 0 None (Some e)
  end.

(** [_analyze_conflict] *)
Definition analyze_conflict (entity_id : Value) : option SyncConflict :=
  Some (mkConflict entity_id "content_divergence" (VStr "ssot_content") (VStr "graphrag_content") None).

(** [self.conflict_resolvers] *)
Definition conflict_resolvers : list (string * (SyncConflict -> string)) :=
  [("metadata_mismatch", fun _ => "prefer_ssot");
   ("content_divergence", fun _ => "manual_review_required");
   ("dependency_conflict", fun _ => "merge_dependencies");
   ("schema_mismatch", fun _ => "update_to_latest_schema")].

Definition set_resolution (r : string) (c : SyncConflict) : SyncConflict :=
  mkConflict (conflict_entity_id c) (conflict_type c) (ssot_value c) (graphrag_value c) (Some r).

(** [resolve_conflicts(conflicts)]; the states it loads are not used. *)
Definition resolve_conflicts (cs : list Value) : list SyncConflict :=
  flat_map (fun entity_id =>
              match analyze_conflict entity_id with
              | Some conflict =>
                  match assoc (conflict_type conflict) conflict_resolvers with
                  | Some resolver => [set_resolution (resolver conflict) conflict]
                  | None => [conflict]
                  end
              | None => []
              end) cs.

(** [full_sync()] on the loaded states. *)
Definition full_sync (ssot_state graphrag_state : list (string * Value)) : SyncResult :=
  match detect_changes ssot_state graphrag_state with
  | Err e => mkSyncResult false 0 None (Some ("Full synchronization failed: " +++ e))
  | Ok changes =>
      let finish total :=
        let all_conflicts := match conflicts changes with
                             | [] => []
                             | cs => resolve_conflicts cs
                             end in
        mkSyncResult true total (Some all_conflicts) None in
      let graphrag_step total :=
        match graphrag_updates changes with
        | [] => finish total
        | ups => let result := sync_graphrag_to_ssot graphrag_state ups in
                 if success result then finish (total + entities_updated result)%nat else result
        end in
      match ssot_updates changes with
      | [] => graphrag_step O
      | ups => let result := sync_ssot_to_graphrag ups in
               if success result then graphrag_step (0 + entities_updated result)%nat else result
      end
  end.

(** [_get_recent_changes] *)
Definition get_recent_changes : list string := [].

(** [incremental_sync()] *)
Definition incremental_sync (ssot_state graphrag_state : list (string * Value)) : SyncResult :=
  match get_recent_changes with
  | [] => mkSyncResult true 0 None None
  | _ => full_sync ssot_state graphrag_state
  end.

End Digest.

End Sync.

(** * Properties stated by the specification *)

Module Claims.

(** An indexed entity or relationship with the clock readings it carries
    ([metadata.last_updated], [metadata.created]) blanked out. *)
Definition erase_field (k : string) (v : Value) : Value :=
  if String.eqb k "last_updated" || String.eqb k "created" then VStr "" else v.

Definition erase_meta (m : Value) : Value :=
  match m with
  | VDict kvs => VDict (map (fun kv => (fst kv, erase_field (fst kv) (snd kv))) kvs)
  | v => v
  end.

Definition erase_entry (k : string) (v : Value) : Value :=
  if String.eqb k "metadata" then erase_meta v else v.

Definition erase_ts (e : Value) : Value :=
  match e with
  | VDict kvs => VDict (map (fun kv => (fst kv, erase_entry (fst kv) (snd kv))) kvs)
  | v => v
  end.

(** The content hash stored on an entity, read as the sync engine reads it:
    [entity.get('metadata', {}).get('hash')]. *)
Definition entity_hash (e : Value) : Res Value :=
  m <- py_get e "metadata" (VDict []) ;; py_get m "hash" VNull.

(** Two outcomes of a computation that agree: both raise the same
    exception, or both succeed with related results. *)
Definition agree {A : Type} (R : A -> A -> Prop) (r1 r2 : Res A) : Prop :=
  match r1, r2 with
  | Ok a, Ok b => R a b
  | Err e1, Err e2 => e1 = e2
  | _, _ => False
  end.

(** Two clocked computations that agree whatever the clocks read. *)
Definition mrel {A : Type} (R : A -> A -> Prop) (m1 m2 : M A) : Prop :=
  forall c1 n1 c2 n2, agree R (fst (m1 c1 n1)) (fst (m2 c2 n2)).

Definition same_but_ts (a b : Value) : Prop := erase_ts a = erase_ts b.

(** The weighted sum of the severity of a direct impact, with the weights
    the specification lists (its Requirement is the
    [functional_requirement] type), and its buckets. *)
Definition rel_weight (rel_type : Value) : Z :=
  if in_strs rel_type ["implements"; "validates"] then 2
  else if py_eq rel_type (VStr "depends_on") then 1 else 0.

Definition type_weight (entity_type : Value) : Z :=
  if in_strs entity_type ["functional_requirement"; "contract"] then 2
  else if py_eq entity_type (VStr "unit_of_work") then 1 else 0.

Definition change_weight (change_type : string) : Z :=
  if String.eqb change_type "removal" then 2
  else if String.eqb change_type "major_modification" then 1 else 0.

Definition severity_sum (rel_type entity_type : Value) (change_type : string) : Z :=
  rel_weight rel_type + type_weight entity_type + change_weight change_type.

Definition spec_bucket (s : Z) : string :=
  if s <? 2 then "low" else if s <=? 3 then "medium" else if s <=? 5 then "high" else "critical".

(** The [error] entry of a query result's metadata, if any. *)
Definition meta_error (r : Query.QueryResult) : option Value :=
  match Query.metadata r with VDict kvs => assoc "error" kvs | _ => None end.

(** The relationships whose target is [target] while no entity has that id. *)
Definition dangling_for (target : Value) (es rs : list Value) : list Value :=
  filter (fun r => match py_get r "target" VNull with
                   | Ok t => py_eq t target
                             && negb (existsb (fun e => match py_get e "id" VNull with
                                                         | Ok i => py_eq i target
                                                         | Err _ => false end) es)
                   | Err _ => false
                   end) rs.

(** A corpus whose framework requirements hold the given functional and
    non-functional requirements and the single unit of work
    [UoW-001 {implements: [FR-001]}]. *)
Definition scenario_a (frs nfrs : list (string * Value)) : Value :=
  VDict [("framework_requirements",
          VDict [("functional_requirements", VDict frs);
                 ("non_functional_requirements", VDict nfrs);
                 ("units_of_work", VDict [("UoW-001", VDict [("implements", VList [VStr "FR-001"])])])])].

Definition is_dict (v : Value) : bool := match v with VDict _ => true | _ => false end.

(** Requirements that are records and none of which is [FR-001]. *)
Definition no_fr001 (kvs : list (string * Value)) : bool :=
  forallb (fun kv => negb (String.eqb (fst kv) "FR-001") && is_dict (snd kv)) kvs.

(** An impact item whose path has at most five entities. *)
Definition short_path (i : Impact.ImpactItem) : Prop := (length (Impact.path i) <= 5)%nat.

(** ** Sample inputs *)

Definition sample_digest (v : Value) : string := "0123456789abcdef".

Definition ent (i ty : string) : Value := VDict [("id", VStr i); ("type", VStr ty)].

Definition rel (s t ty : string) : Value :=
  VDict [("source", VStr s); ("target", VStr t); ("type", VStr ty)].

Definition leaves : list string := map (fun i => "C" +++ z_to_string (Z.of_nat i)) (seq 1 25).

(** [S - A - B], and [B] linked to 25 further entities. *)
Definition fan_entities : list Value :=
  ent "S" "unit_of_work" :: ent "A" "unit_of_work" :: ent "B" "unit_of_work"
      :: map (fun i => ent i "unit_of_work") leaves.

Definition fan_relationships : list Value :=
  rel "S" "A" "depends_on" :: rel "A" "B" "depends_on"
      :: map (fun i => rel "B" i "depends_on") leaves.

Definition analyzer_of (es rs : list Value) : Impact.Analyzer :=
  match Impact.init (Some (VList es)) (Some (VList rs)) with
  | Ok a => a
  | Err _ => Impact.mkAnalyzer [] (VList []) []
  end.

Definition engine_of (es rs : list Value) : Query.Engine :=
  Query.init (Some (VList es)) (Some (VList rs)) [] [].

Definition titled (i title : string) : Value :=
  VDict [("id", VStr i); ("type", VStr "functional_requirement"); ("title", VStr title)].

(** The analyzer and the engine built when neither entities.json nor
    relationships.json exists. *)
Definition empty_analyzer : Impact.Analyzer := Impact.mkAnalyzer [] (VList []) [].

Definition empty_engine (knowledge : list (string * Value)) (feature_stems : list string)
  : Query.Engine := Query.init None None knowledge feature_stems.

(** The entry [_process_impact_query] gives for an id that is not found. *)
Definition not_found_impact (entity_id ts : string) : Value :=
  VDict [("entity_id", VStr entity_id);
         ("impact_analysis",
           VDict [("entity_id", VStr entity_id); ("change_type", VStr "modification");
                  ("direct_impacts", VList []); ("indirect_impacts", VList []);
                  ("risk_level", VStr "low"); ("recommendations", VList []);
                  ("analysis_timestamp", VStr ts);
                  ("error", VStr ("Entity " +++ entity_id +++ " not found"))])].

(** The coverage record over a graph with no entities. *)
Definition empty_coverage (ts : string) : Value :=
  VDict [("requirements_without_uows", VList []); ("uows_without_contracts", VList []);
         ("uows_without_bdd", VList []); ("orphaned_contracts", VList []);
         ("analysis_timestamp", VStr ts)].

(** A row of the impact matrix whose levels are all "none". *)
Definition all_none (row : list (string * string)) : Prop :=
  Forall (fun p => snd p = "none") row.

(** An entity with an id different from [target]. *)
Definition id_differs (target e : Value) : Prop :=
  exists i, py_get e "id" VNull = Ok i /\ py_eq i target = false.

(** An entity of scenario A: its id is not [FR-001] and it has a type. *)
Definition scenario_entity (e : Value) : Prop :=
  id_differs (VStr "FR-001") e /\ exists ty, py_getitem e "type" = Ok ty.

(** The framework requirements of [scenario_a]. *)
Definition fr_section (frs nfrs : list (string * Value)) : list (string * Value) :=
  [("functional_requirements", VDict frs);
   ("non_functional_requirements", VDict nfrs);
   ("units_of_work", VDict [("UoW-001", VDict [("implements", VList [VStr "FR-001"])])])].

(** Two keyword results whose entities have different ids. *)
Definition distinct_ids (r1 r2 : Value) : Prop :=
  exists i1 i2, Query.result_entity_id r1 = Ok i1 /\ Query.result_entity_id r2 = Ok i2
                /\ py_eq i2 i1 = false.

(** A result of [find_requirements_by_keyword] for the token [tok]: a
    requirement of the engine whose searchable text contains the token, with
    the relevance of the token in that text. *)
Definition keyword_result (q : Query.Engine) (tok : string) (r : Value) : Prop :=
  exists es e ty txt ms,
    Query.ents q = Ok es /\ In e es
    /\ py_get e "type" VNull = Ok ty
    /\ in_strs ty ["functional_requirement"; "non_functional_requirement"] = true
    /\ Query.searchable_text e = Ok txt /\ str_in (lower tok) txt = true
    /\ Query.find_keyword_matches tok e = Ok ms
    /\ r = VDict [("entity", e); ("relevance", VFloat (Query.calculate_relevance tok txt));
                  ("matches", VList (map VStr ms))].

(** The entity types [detect_changes] treats as accumulated knowledge. *)
Definition derived_types : list string := ["pattern"; "decision"; "lesson"].

(** An SSOT state with one functional requirement and one contract, and
    an index holding that contract and a pattern. *)
Definition sync_ssot : list (string * Value) :=
  [("framework_requirements",
     VDict [("functional_requirements", VDict [("FR-001", VDict [("title", VStr "Login")])])]);
   ("contracts", VDict [("CTR-1", VDict [("title", VStr "Auth")])])].

Definition sync_index : list (string * Value) :=
  [("entities", VList [ent "CTR-1" "contract"; ent "P-1" "pattern"])].

Definition indirect_sev (i : Impact.ImpactItem) : Prop := In (Impact.severity i) ["high"; "medium"; "low"].

Definition cascade_sev (i : Impact.ImpactItem) : Prop := In (Impact.severity i) ["medium"; "low"].

(** What the cascade search keeps of its visited set. *)
Definition cascade_inv (eid : Value) (visited : list Value) (acc : list Impact.ImpactItem) : Prop :=
  In eid visited /\ Forall (fun i => In (Impact.entity_id i) visited) acc /\
  Forall (fun i => py_eq (Impact.entity_id i) eid = false) acc /\
  ForallOrdPairs (fun x y => py_eq (Impact.entity_id y) (Impact.entity_id x) = false) acc.

(** What each critical entry holds. *)
Definition critical_ok (p : Q * Value) : Prop :=
  exists e nin nout rf ty,
    snd p = VDict [("entity", e); ("criticality_score", VFloat (fst p));
                   ("incoming_dependencies", VInt nin); ("outgoing_dependencies", VInt nout);
                   ("risk_factors", rf)] /\
    (7 # 10 <= fst p <= 1)%Q /\
    py_get e "type" (VStr "unknown") = Ok ty /\
    ((ty = VStr "functional_requirement" /\ 1 <= nin) \/
     (ty = VStr "contract" /\ 2 <= nin) \/
     (ty = VStr "unit_of_work" /\ 3 <= nin)).

Definition critical_fixture : Impact.Analyzer :=
  analyzer_of [ent "FR-1" "functional_requirement"; ent "U1" "unit_of_work"; ent "U2" "unit_of_work";
               ent "U3" "unit_of_work"]
              [rel "U1" "FR-1" "implements"; rel "U2" "FR-1" "implements"; rel "U3" "FR-1" "implements";
               rel "U2" "U1" "depends_on"].

Definition row_ok (U : list string) (s : string) (p : string * string) : Prop :=
  In (fst p) U /\ fst p <> s /\ In (snd p) ["high"; "medium"; "low"; "none"].

Definition matrix_row_ok (U : list string) (p : string * list (string * string)) : Prop :=
  In (fst p) U /\ NoDup (map fst (snd p)) /\ Forall (row_ok U (fst p)) (snd p) /\
  (forall t, In t U -> t <> fst p -> In t (map fst (snd p))).

(** Consecutive entries of a list related by [R]. *)
Fixpoint chain {A : Type} (R : A -> A -> Prop) (l : list A) : Prop :=
  match l with
  | x :: ((y :: _) as r) => R x y /\ chain R r
  | _ => True
  end.

(** [y] is found among the entities connected to [x] by [_find_shortest_path]. *)
Definition linked (rs : list Value) (x y : Value) : Prop :=
  exists zs z, Impact.connected_of x rs = Ok zs /\ In z zs /\ (z = y \/ py_eq z y = true).

Definition bfs_entry (rs : list Value) (s : Value) (e : Value * list Value) : Prop :=
  hd_error (snd e) = Some s /\ last (snd e) s = fst e /\ chain (linked rs) (snd e).

Definition justified_removal (a : Impact.Analyzer) (eid : Value) (related : list Value) (d : Value) : Prop :=
  (exists r ty t, In r related /\ py_get r "type" VNull = Ok ty /\ py_eq ty (VStr "depends_on") = true /\
                  py_get r "target" VNull = Ok t /\ py_eq t eid = true /\ py_get r "source" VNull = Ok d) /\
  (forall rs, Impact.rels a = Ok rs -> forall r src ty t, In r rs ->
     py_get r "source" VNull = Ok src -> py_eq src d = true ->
     py_get r "type" VNull = Ok ty -> py_eq ty (VStr "depends_on") = true ->
     py_get r "target" VNull = Ok t -> py_eq t eid = true).

Definition final_steps : list string :=
  ["Update documentation and traceability matrix"; "Run full SSOT verification after changes"].

Definition iso_fixture : Impact.Analyzer :=
  analyzer_of [ent "FR-1" "functional_requirement"; ent "U1" "unit_of_work"; ent "FR-2" "functional_requirement"]
              [rel "U1" "FR-1" "implements"].

Definition manual_review (i : Value) : Sync.SyncConflict :=
  Sync.mkConflict i "content_divergence" (VStr "ssot_content") (VStr "graphrag_content")
                  (Some "manual_review_required").

Definition contract_only_index : list (string * Value) :=
  [("entities", VList [VDict [("id", VStr "CTR-1"); ("type", VStr "contract")]])].

Definition gaps_fixture : Query.Engine :=
  engine_of [ent "FR-1" "functional_requirement"; ent "FR-2" "functional_requirement";
             ent "U1" "unit_of_work"]
            [rel "U1" "FR-1" "implements"].

End Claims.

(** * Proofs *)

Import Claims.

(** ** Clocked computations run under two clocks *)

Lemma mrel_ret {A : Type} (R : A -> A -> Prop) (a b : A) :
  R a b -> mrel R (mret a) (mret b).
Proof. intros H c1 n1 c2 n2. exact H. Qed.

Lemma mrel_lift {A : Type} (r : Res A) : mrel eq (lift r) (lift r).
Proof. intros c1 n1 c2 n2. destruct r; reflexivity. Qed.

Lemma mrel_now_iso : mrel (fun _ _ => True) now_iso now_iso.
Proof. intros c1 n1 c2 n2. exact I. Qed.

Lemma mrel_bind {A B : Type} (R1 : A -> A -> Prop) (R2 : B -> B -> Prop)
  (m1 m2 : M A) (k1 k2 : A -> M B) :
  mrel R1 m1 m2 -> (forall a b, R1 a b -> mrel R2 (k1 a) (k2 b)) ->
  mrel R2 (mbind m1 k1) (mbind m2 k2).
Proof.
  intros H1 H2 c1 n1 c2 n2. specialize (H1 c1 n1 c2 n2). unfold mbind.
  destruct (m1 c1 n1) as [r1 n1'], (m2 c2 n2) as [r2 n2']; cbn in H1.
  destruct r1 as [a|e1], r2 as [b|e2]; cbn in *; try contradiction.
  - apply H2; exact H1.
  - subst; reflexivity.
Qed.

Lemma mrel_mmap {A B : Type} (R : B -> B -> Prop) (f : A -> M B) (l : list A) :
  (forall x, mrel R (f x) (f x)) -> mrel (Forall2 R) (mmap f l) (mmap f l).
Proof.
  intros Hf. induction l as [|x r IH]; cbn.
  - apply mrel_ret. constructor.
  - apply (mrel_bind R); [apply Hf|]. intros a b Hab.
    apply (mrel_bind (Forall2 R)); [exact IH|]. intros l1 l2 Hl.
    apply mrel_ret. constructor; assumption.
Qed.

Lemma Forall2_concat {A : Type} (R : A -> A -> Prop) (l1 l2 : list (list A)) :
  Forall2 (Forall2 R) l1 l2 -> Forall2 R (concat l1) (concat l2).
Proof.
  induction 1; cbn; [constructor|]. apply Forall2_app; assumption.
Qed.

Lemma mrel_one {A : Type} (R : A -> A -> Prop) (m1 m2 : M A) :
  mrel R m1 m2 -> mrel (Forall2 R) (Indexer.one m1) (Indexer.one m2).
Proof.
  intros H. unfold Indexer.one. apply (mrel_bind R); [exact H|].
  intros a b Hab. apply mrel_ret. constructor; [exact Hab | constructor].
Qed.

Lemma mrel_over_items {B : Type} (R : B -> B -> Prop) (d : Value) (key : string)
  (f : string -> Value -> M (list B)) :
  (forall k v, mrel (Forall2 R) (f k v) (f k v)) ->
  mrel (Forall2 R) (Indexer.over_items d key f) (Indexer.over_items d key f).
Proof.
  intros Hf. unfold Indexer.over_items.
  apply (mrel_bind eq); [apply mrel_lift|]. intros b b' <-. destruct b.
  - apply (mrel_bind eq); [apply mrel_lift|]. intros items items' <-.
    apply (mrel_bind (Forall2 (Forall2 R))).
    + apply mrel_mmap. intros kv. apply Hf.
    + intros l1 l2 H. apply mrel_ret. apply Forall2_concat. exact H.
  - apply mrel_ret. constructor.
Qed.

(** ** Blanking the clock readings *)

Lemma erase_last_metadata (pre : list (string * Value)) (digest : Value -> string)
  (source t1 t2 : string) (spec : Value) :
  same_but_ts (VDict (pre ++ [("metadata", Indexer.meta digest source t1 spec)]))
              (VDict (pre ++ [("metadata", Indexer.meta digest source t2 spec)])).
Proof. unfold same_but_ts. cbn. rewrite !map_app. reflexivity. Qed.

Lemma assoc_map_kv {A B : Type} (f : string -> A -> B) (k : string) (kvs : list (string * A)) :
  assoc k (map (fun kv => (fst kv, f (fst kv) (snd kv))) kvs) = option_map (f k) (assoc k kvs).
Proof.
  induction kvs as [|[k' v] r IH]; cbn; [reflexivity|].
  destruct (String.eqb k k') eqn:E; [|exact IH].
  apply String.eqb_eq in E. subst. reflexivity.
Qed.

Lemma entity_hash_erase (e : Value) : entity_hash (erase_ts e) = entity_hash e.
Proof.
  destruct e as [| | | | | |kvs]; try reflexivity.
  unfold entity_hash, erase_ts. cbn [py_get rbind].
  rewrite (assoc_map_kv erase_entry).
  destruct (assoc "metadata" kvs) as [m|]; cbn; [|reflexivity].
  unfold erase_entry. cbn.
  destruct m as [| | | | | |mk]; try reflexivity. cbn.
  rewrite (assoc_map_kv erase_field).
  destruct (assoc "hash" mk); reflexivity.
Qed.

Lemma same_but_ts_hash (a b : Value) : same_but_ts a b -> entity_hash a = entity_hash b.
Proof.
  unfold same_but_ts. intros H. rewrite <- (entity_hash_erase a), <- (entity_hash_erase b), H.
  reflexivity.
Qed.

Lemma Forall2_map_eq {A B : Type} (f : A -> B) (l1 l2 : list A) :
  Forall2 (fun a b => f a = f b) l1 l2 -> map f l1 = map f l2.
Proof. induction 1; cbn; [reflexivity|]. f_equal; assumption. Qed.

Lemma agree_mono {A : Type} (R R' : A -> A -> Prop) (r1 r2 : Res A) :
  (forall a b, R a b -> R' a b) -> agree R r1 r2 -> agree R' r1 r2.
Proof. intros H. destruct r1, r2; cbn; auto. Qed.

(** ** The indexer's entities and relationships under two clocks *)

Section TwoClocks.

Variable digest : Value -> string.

Ltac entity_case :=
  apply (mrel_bind eq); [apply mrel_lift|]; intros ? ? <-;
  apply (mrel_bind (fun _ _ => True)); [apply mrel_now_iso|]; intros ? ? _;
  apply mrel_ret; rewrite !app_assoc; apply erase_last_metadata.

Lemma mrel_fr (k : string) (v : Value) :
  mrel same_but_ts (Indexer.fr_entity digest k v) (Indexer.fr_entity digest k v).
Proof. unfold Indexer.fr_entity. entity_case. Qed.

Lemma mrel_nfr (k : string) (v : Value) :
  mrel same_but_ts (Indexer.nfr_entity digest k v) (Indexer.nfr_entity digest k v).
Proof. unfold Indexer.nfr_entity. entity_case. Qed.

Lemma mrel_uow (k : string) (v : Value) :
  mrel same_but_ts (Indexer.uow_entity digest k v) (Indexer.uow_entity digest k v).
Proof. unfold Indexer.uow_entity. entity_case. Qed.

Lemma mrel_contract (k : string) (v : Value) :
  mrel same_but_ts (Indexer.contract_entity digest k v) (Indexer.contract_entity digest k v).
Proof.
  unfold Indexer.contract_entity.
  apply (mrel_bind eq); [apply mrel_lift|]. intros ? ? <-. entity_case.
Qed.

Lemma mrel_extension (c k : string) (v : Value) :
  mrel same_but_ts (Indexer.extension_entity digest c k v) (Indexer.extension_entity digest c k v).
Proof.
  unfold Indexer.extension_entity.
  apply (mrel_bind eq); [apply mrel_lift|]. intros ? ? <-. entity_case.
Qed.

Lemma mrel_extract_entities (d : Value) :
  mrel (Forall2 same_but_ts) (Indexer.extract_entities digest d) (Indexer.extract_entities digest d).
Proof.
  unfold Indexer.extract_entities.
  apply (mrel_bind eq); [apply mrel_lift|]. intros b ? <-.
  apply (mrel_bind (Forall2 same_but_ts)).
  - destruct b; [|apply mrel_ret; constructor].
    apply (mrel_bind eq); [apply mrel_lift|]. intros fr_data ? <-.
    apply (mrel_bind (Forall2 same_but_ts));
      [apply mrel_over_items; intros; apply mrel_one, mrel_fr|]. intros ? ? H1.
    apply (mrel_bind (Forall2 same_but_ts));
      [apply mrel_over_items; intros; apply mrel_one, mrel_nfr|]. intros ? ? H2.
    apply (mrel_bind (Forall2 same_but_ts));
      [apply mrel_over_items; intros; apply mrel_one, mrel_uow|]. intros ? ? H3.
    apply mrel_ret. repeat apply Forall2_app; assumption.
  - intros ? ? H1.
    apply (mrel_bind (Forall2 same_but_ts));
      [apply mrel_over_items; intros; apply mrel_one, mrel_contract|]. intros ? ? H2.
    apply (mrel_bind (Forall2 same_but_ts)).
    + apply mrel_over_items. intros category extensions.
      apply (mrel_bind eq); [apply mrel_lift|]. intros items ? <-.
      apply (mrel_bind (Forall2 same_but_ts)).
      * apply mrel_mmap. intros kv. apply mrel_extension.
      * intros ? ? H. apply mrel_ret. exact H.
    + intros ? ? H3. apply mrel_ret. repeat apply Forall2_app; assumption.
Qed.

End TwoClocks.

Lemma mrel_relationship (s t : Value) (ty sf : string) :
  mrel same_but_ts (Indexer.relationship s t ty sf) (Indexer.relationship s t ty sf).
Proof.
  unfold Indexer.relationship.
  apply (mrel_bind (fun _ _ => True)); [apply mrel_now_iso|]. intros ? ? _.
  apply mrel_ret. reflexivity.
Qed.

Lemma mrel_uow_relationships (k : string) (v : Value) :
  mrel (Forall2 same_but_ts) (Indexer.uow_relationships k v) (Indexer.uow_relationships k v).
Proof.
  unfold Indexer.uow_relationships.
  apply (mrel_bind eq); [apply mrel_lift|]. intros ? ? <-.
  apply (mrel_bind (Forall2 same_but_ts)); [apply mrel_mmap; intros; apply mrel_relationship|].
  intros ? ? H1.
  apply (mrel_bind eq); [apply mrel_lift|]. intros ? ? <-.
  apply (mrel_bind (Forall2 same_but_ts)); [apply mrel_mmap; intros; apply mrel_relationship|].
  intros ? ? H2. apply mrel_ret. apply Forall2_app; assumption.
Qed.

Lemma mrel_contract_relationships (k : string) (v : Value) :
  mrel (Forall2 same_but_ts) (Indexer.contract_relationships k v)
       (Indexer.contract_relationships k v).
Proof.
  unfold Indexer.contract_relationships.
  apply (mrel_bind eq); [apply mrel_lift|]. intros ? ? <-.
  apply (mrel_bind eq); [apply mrel_lift|]. intros et ? <-.
  destruct (py_eq et (VStr "uow")); [|apply mrel_ret; constructor].
  apply (mrel_bind eq); [apply mrel_lift|]. intros n ? <-.
  destruct (py_truthy n); [|apply mrel_ret; constructor].
  apply (mrel_bind eq); [apply mrel_lift|]. intros ? ? <-.
  apply mrel_one, mrel_relationship.
Qed.

Lemma mrel_extract_relationships (d : Value) :
  mrel (Forall2 same_but_ts) (Indexer.extract_relationships d) (Indexer.extract_relationships d).
Proof.
  unfold Indexer.extract_relationships.
  apply (mrel_bind eq); [apply mrel_lift|]. intros b ? <-.
  apply (mrel_bind (Forall2 same_but_ts)).
  - destruct b; [|apply mrel_ret; constructor].
    apply (mrel_bind eq); [apply mrel_lift|]. intros ? ? <-.
    apply mrel_over_items. intros. apply mrel_uow_relationships.
  - intros ? ? H1.
    apply (mrel_bind (Forall2 same_but_ts));
      [apply mrel_over_items; intros; apply mrel_contract_relationships|].
    intros ? ? H2. apply mrel_ret. apply Forall2_app; assumption.
Qed.

(** ** C1: indexing twice *)

(** C1 (counterexample): the indexer stamps each entity with the time it
    reads from the clock, so two runs on the same single-requirement corpus,
    one second apart, produce different entity lists. *)
Lemma index_twice_differs :
  let d := VDict [("framework_requirements",
                   VDict [("functional_requirements",
                           VDict [("FR-001", VDict [("title", VStr "Login")])])])] in
  fst (Indexer.extract_entities sample_digest d (fun _ => 0) 0%nat)
  <> fst (Indexer.extract_entities sample_digest d (fun _ => 1000000) 0%nat).
Proof. vm_compute. discriminate. Qed.

(** C1 (amended): whatever the clock reads, two runs of the indexer on the
    same corpus both raise the same exception, or both succeed with entity
    lists and relationship lists that are equal once [metadata.last_updated]
    and [metadata.created] are blanked out, and with identical content
    hashes on the entities, position by position. *)
Theorem index_deterministic_up_to_clock (digest : Value -> string) (d : Value)
  (c1 c2 : Clock) (n1 n2 : nat) :
  agree (fun es1 es2 => map erase_ts es1 = map erase_ts es2
                        /\ map entity_hash es1 = map entity_hash es2)
        (fst (Indexer.extract_entities digest d c1 n1))
        (fst (Indexer.extract_entities digest d c2 n2))
  /\ agree (fun rs1 rs2 => map erase_ts rs1 = map erase_ts rs2)
           (fst (Indexer.extract_relationships d c1 n1))
           (fst (Indexer.extract_relationships d c2 n2)).
Proof.
  split.
  - eapply agree_mono; [|apply mrel_extract_entities].
    intros es1 es2 H. split.
    + apply Forall2_map_eq. exact H.
    + apply Forall2_map_eq. eapply Forall2_impl; [|exact H]. apply same_but_ts_hash.
  - eapply agree_mono; [|apply mrel_extract_relationships].
    intros rs1 rs2 H. apply Forall2_map_eq. exact H.
Qed.

(** ** C4: writing the index *)

(** C4 (counterexample): saving a one-entity index over an older one passes
    through a store whose entities file is truncated, which is neither the
    old index nor the new one. *)
Lemma index_write_observes_truncated_file :
  let old := Indexer.mkStore (Indexer.Json (VList [])) (Indexer.Json (VList []))
                             (Indexer.Json (VDict [])) in
  let '(trace, final) := Indexer.save_graphrag_data "2026-10-16T12:00:00" old
                           [ent "FR-001" "functional_requirement"] [] in
  exists st, In st trace /\ Indexer.entities_file st = Indexer.Truncated
             /\ st <> old /\ final <> Ok st.
Proof.
  cbn. eexists. split; [left; reflexivity|].
  split; [reflexivity|]. split; discriminate.
Qed.

(** C4 (amended): [save_graphrag_data] rewrites the three files in place,
    one after the other, with no temporary file: the entities file is
    truncated and then written, then the relationships file, then the
    metadata file.  A reader can see each truncated file and every mix of
    old and new files in between.  When the metadata can be computed the
    last state holds the new entities, relationships and metadata; when it
    cannot, the write stops with the new entities and relationships next to
    the old metadata. *)
Theorem index_write_in_place (indexed_at : string) (s : Indexer.Store) (es rs : list Value) :
  let '(trace, final) := Indexer.save_graphrag_data indexed_at s es rs in
  firstn 4 trace =
    [Indexer.mkStore Indexer.Truncated (Indexer.relationships_file s) (Indexer.metadata_file s);
     Indexer.mkStore (Indexer.Json (VList es)) (Indexer.relationships_file s) (Indexer.metadata_file s);
     Indexer.mkStore (Indexer.Json (VList es)) Indexer.Truncated (Indexer.metadata_file s);
     Indexer.mkStore (Indexer.Json (VList es)) (Indexer.Json (VList rs)) (Indexer.metadata_file s)]
  /\ match final with
     | Ok last =>
         exists m, Indexer.metadata_of indexed_at es rs = Ok m
                   /\ last = Indexer.mkStore (Indexer.Json (VList es)) (Indexer.Json (VList rs))
                                             (Indexer.Json m)
                   /\ skipn 4 trace =
                        [Indexer.mkStore (Indexer.Json (VList es)) (Indexer.Json (VList rs))
                                         Indexer.Truncated; last]
     | Err e => Indexer.metadata_of indexed_at es rs = Err e /\ skipn 4 trace = []
     end.
Proof.
  unfold Indexer.save_graphrag_data.
  destruct (Indexer.metadata_of indexed_at es rs) as [m|e]; cbn.
  - split; [reflexivity|]. exists m. repeat split; reflexivity.
  - split; [reflexivity | split; reflexivity].
Qed.

(** ** Exceptions *)

(** Peel the successful steps off a hypothesis [m = Ok v]. *)
Ltac unres H :=
  repeat match type of H with
  | rbind ?m _ = Ok _ =>
      let E := fresh "E" in destruct m eqn:E; cbn [rbind] in H; [|discriminate H]
  | (if ?b then _ else _) = Ok _ => let E := fresh "E" in destruct b eqn:E
  | (match ?o with Some _ => _ | None => _ end) = Ok _ =>
      let E := fresh "E" in destruct o eqn:E
  end.

Lemma rmap_Forall {A B : Type} (f : A -> Res B) (P : B -> Prop) (l : list A) (ys : list B) :
  (forall x y, In x l -> f x = Ok y -> P y) -> rmap f l = Ok ys -> Forall P ys.
Proof.
  revert ys. induction l as [|x r IH]; intros ys Hf H; cbn in H.
  - injection H as <-. constructor.
  - unres H. injection H as <-. constructor.
    + eapply Hf; [left; reflexivity | eassumption].
    + apply IH; [intros; eapply Hf; [right|]; eassumption | first [assumption | reflexivity]].
Qed.

Lemma Forall_concat' {A : Type} (P : A -> Prop) (ls : list (list A)) :
  Forall (Forall P) ls -> Forall P (concat ls).
Proof. induction 1; cbn; [constructor|]. apply Forall_app; split; assumption. Qed.

Lemma rfilter_incl {A : Type} (p : A -> Res bool) (l ys : list A) :
  rfilter p l = Ok ys -> incl ys l.
Proof.
  revert ys. induction l as [|x r IH]; intros ys H; cbn in H.
  - injection H as <-. apply incl_nil_l.
  - unres H. injection H as <-. destruct a.
    + apply incl_cons; [left; reflexivity|]. apply incl_tl. apply IH; first [assumption | reflexivity].
    + apply incl_tl. apply IH; first [assumption | reflexivity].
Qed.

(** ** C2: paths of the impact items *)

Lemma direct_item_paths (a : Impact.Analyzer) (eid : Value) (ct : string) (rel : Value)
  (items : list Impact.ImpactItem) :
  Impact.direct_item a eid ct rel = Ok items -> Forall short_path items.
Proof.
  unfold Impact.direct_item. intros H. unres H.
  - injection H as <-. constructor; [unfold short_path; cbn; lia | constructor].
  - injection H as <-. constructor.
  - injection H as <-. constructor.
Qed.

Lemma direct_paths (a : Impact.Analyzer) (eid ct : string) (d : list Impact.ImpactItem) :
  Impact.analyze_direct_impacts a eid ct = Ok d -> Forall short_path d.
Proof.
  unfold Impact.analyze_direct_impacts. intros H. unres H. injection H as <-.
  apply Forall_concat'. eapply rmap_Forall; [|eassumption].
  intros rel items _ Hi. eapply direct_item_paths. exact Hi.
Qed.

Lemma indirect_rels_paths (a : Impact.Analyzer) (eid : Value) (d : Impact.ImpactItem)
  (l : list Value) (acc res : list Impact.ImpactItem) :
  Forall short_path acc -> Impact.indirect_rels a eid d l acc = Ok res -> Forall short_path res.
Proof.
  revert acc. induction l as [|rel r IH]; intros acc Hacc H; cbn in H.
  - injection H as <-. exact Hacc.
  - unres H; try (eapply IH; [|exact H]; exact Hacc).
    eapply IH; [|exact H]. apply Forall_app. split; [exact Hacc|].
    constructor; [unfold short_path; cbn; lia | constructor].
Qed.

Lemma indirect_paths (a : Impact.Analyzer) (eid : string) (d i : list Impact.ImpactItem) :
  Impact.analyze_indirect_impacts a eid d = Ok i -> Forall short_path i.
Proof.
  unfold Impact.analyze_indirect_impacts.
  assert (G : forall acc, (forall x, acc = Ok x -> Forall short_path x) ->
              fold_left (fun acc d0 =>
                           acc <- acc ;;
                           rs <- Impact.rels a ;;
                           second_level_rels <- rfilter (Impact.second_level (VStr eid)
                                                           (Impact.entity_id d0)) rs ;;
                           Impact.indirect_rels a (VStr eid) d0 second_level_rels acc) d acc = Ok i ->
              Forall short_path i).
  { induction d as [|d0 r IH]; intros acc Hacc H; cbn in H.
    - apply Hacc. exact H.
    - eapply IH; [|exact H]. intros x Hx. destruct acc as [acc|]; cbn in Hx; [|discriminate].
      unres Hx. eapply indirect_rels_paths; [|exact Hx]. apply Hacc. reflexivity. }
  apply G. intros x Hx. injection Hx as <-. constructor.
Qed.

Lemma cascade_step_paths (a : Impact.Analyzer) (cur : Value) (cpath : list Value) (l : list Value)
  (visited : list Value) (acc : list Impact.ImpactItem) (queue : list (Value * list Value))
  v' acc' q' :
  (length cpath < 5)%nat -> Forall short_path acc ->
  Impact.cascade_step a cur cpath l visited acc queue = Ok (v', acc', q') ->
  Forall short_path acc'.
Proof.
  intros Hlen. revert visited acc queue.
  induction l as [|rel r IH]; intros visited acc queue Hacc H; cbn in H.
  - injection H as _ <- _. exact Hacc.
  - unres H; try (eapply IH; [|exact H]; exact Hacc).
    eapply IH; [|exact H]. apply Forall_app. split; [exact Hacc|].
    constructor; [unfold short_path; cbn; rewrite length_app; cbn; lia | constructor].
Qed.

Lemma cascade_loop_paths (a : Impact.Analyzer) (rs : list Value) (fuel : nat)
  (queue : list (Value * list Value)) (visited : list Value) (acc res : list Impact.ImpactItem) :
  Forall short_path acc -> Impact.cascade_loop a rs fuel queue visited acc = Ok res ->
  Forall short_path res.
Proof.
  revert queue visited acc.
  induction fuel as [|fuel IH]; intros queue visited acc Hacc H; cbn [Impact.cascade_loop] in H.
  - injection H as <-. exact Hacc.
  - destruct queue as [|[cur cpath] queue']; [injection H as <-; exact Hacc|].
    destruct (length acc <? 20)%nat; [|injection H as <-; exact Hacc].
    destruct (5 <=? length cpath)%nat eqn:E5; [eapply IH; eassumption|].
    unres H. destruct a1 as [[visited' acc'] queue''].
    eapply IH; [|exact H]. eapply cascade_step_paths; [|exact Hacc|eassumption].
    apply Nat.leb_gt in E5. exact E5.
Qed.

Lemma cascade_paths (a : Impact.Analyzer) (eid : string) (ex cs : list Impact.ImpactItem) :
  Impact.analyze_cascade_impacts a eid ex = Ok cs -> Forall short_path cs.
Proof.
  unfold Impact.analyze_cascade_impacts. intros H. unres H.
  eapply cascade_loop_paths; [|exact H]. constructor.
Qed.

Lemma phases_paths (a : Impact.Analyzer) (eid ct ts : string) :
  Forall short_path (Impact.all_impacts
    (Impact.analyze_phases a (Impact.mkReport eid ct ts [] [] [] (VDict []) [] [] []))).
Proof.
  unfold Impact.analyze_phases. cbn [Impact.source_entity Impact.change_type].
  repeat match goal with
         | |- context [match ?x with _ => _ end] => let E := fresh "E" in destruct x eqn:E
         end;
  unfold Impact.all_impacts; cbn;
  repeat (apply Forall_app; split); try constructor;
  eauto using direct_paths, indirect_paths, cascade_paths.
Qed.

(** Every impact item of a report has a path of at most five entities: the
    part of C2 that holds. *)
Theorem report_paths_bounded (a : Impact.Analyzer) (entity_id change_type : string)
  (c : Clock) (n : nat) :
  match fst (Impact.analyze_change_impact a entity_id change_type c n) with
  | Ok r => Forall short_path (Impact.all_impacts r)
  | Err _ => True
  end.
Proof. apply phases_paths. Qed.

(** C2 (counterexample): a chain [S - A - B] with 25 entities hanging off
    [B]: the analysis of [S] returns 25 cascade impacts, more than 20, since
    the bound is only checked before each entity of the queue is expanded. *)
Lemma cascade_exceeds_twenty :
  match fst (Impact.analyze_change_impact (analyzer_of fan_entities fan_relationships)
               "S" "modification" (fun _ => 0) 0%nat) with
  | Ok r => length (Impact.cascade_impacts r) = 25%nat
  | Err _ => False
  end.
Proof. vm_compute. reflexivity. Qed.

(** ** C3: severity of the direct impacts *)

Lemma impact_severity_bucket (rel affected : Value) (ct sev : string) :
  Impact.calculate_impact_severity rel affected ct = Ok sev ->
  exists rt et, py_get rel "type" (VStr "unknown") = Ok rt
                /\ py_get affected "type" (VStr "unknown") = Ok et
                /\ sev = spec_bucket (1 + severity_sum rt et ct).
Proof.
  unfold Impact.calculate_impact_severity. intros H. unres H.
  injection H as <-. exists a, a0. split; [reflexivity|]. split; [reflexivity|].
  unfold severity_sum, rel_weight, type_weight, change_weight, spec_bucket.
  unfold in_strs. cbn [existsb].
  destruct (py_eq a (VStr "implements")), (py_eq a (VStr "validates")),
           (py_eq a (VStr "depends_on")), (py_eq a0 (VStr "functional_requirement")),
           (py_eq a0 (VStr "contract")), (py_eq a0 (VStr "unit_of_work")),
           (String.eqb ct "removal"), (String.eqb ct "major_modification");
  reflexivity.
Qed.

(** C3 (counterexample): a [depends_on] relationship to an [extension]
    entity under a [modification] weighs 1 + 0 + 0 = 1, which the
    specification buckets as low; the analyzer reports it as medium. *)
Lemma severity_of_weight_one :
  match Impact.analyze_direct_impacts
          (analyzer_of [ent "S" "unit_of_work"; ent "X" "extension"] [rel "S" "X" "depends_on"])
          "S" "modification" with
  | Ok [it] => Impact.severity it = "medium"
               /\ severity_sum (VStr "depends_on") (VStr "extension") "modification" = 1
               /\ spec_bucket (severity_sum (VStr "depends_on") (VStr "extension") "modification") = "low"
  | _ => False
  end.
Proof. vm_compute. repeat split. Qed.

Lemma rfilter_true {A : Type} (p : A -> Res bool) (l ys : list A) (x : A) :
  rfilter p l = Ok ys -> In x ys -> In x l /\ p x = Ok true.
Proof.
  revert ys. induction l as [|y r IH]; intros ys H Hx; cbn in H.
  - injection H as <-. destruct Hx.
  - destruct (p y) as [b|e] eqn:Ep; cbn in H; [|discriminate].
    destruct (rfilter p r) as [zs|e] eqn:Er; cbn in H; [|discriminate].
    injection H as <-. destruct b.
    + destruct Hx as [<-|Hx]; [split; [left; reflexivity | assumption]|].
      destruct (IH zs eq_refl Hx). split; [right|]; assumption.
    + destruct (IH zs eq_refl Hx). split; [right|]; assumption.
Qed.

(** C3 (amended): every direct impact comes from a relationship touching the
    analyzed entity and names the entity at its other end; its severity is
    the bucket of 1 + s, where s is the weighted sum of the specification
    (relationship type, affected entity type, change type).  So s = 0 is
    low, 1 or 2 medium, 3 or 4 high and 5 or more critical. *)
Theorem direct_severity_shifted (a : Impact.Analyzer) (entity_id change_type : string)
  (items : list Impact.ImpactItem)
  (H : Impact.analyze_direct_impacts a entity_id change_type = Ok items) :
  Forall (fun it =>
            exists rs rel affected rt,
              Impact.rels a = Ok rs /\ In rel rs
              /\ Impact.touches rel (VStr entity_id) = Ok true
              /\ Impact.other_end rel (VStr entity_id) = Ok (Impact.entity_id it)
              /\ vget (Impact.entity_id it) (Impact.entity_index a) = Ok (Some affected)
              /\ py_get rel "type" (VStr "unknown") = Ok rt
              /\ py_get affected "type" (VStr "unknown") = Ok (Impact.entity_type it)
              /\ Impact.severity it = spec_bucket (1 + severity_sum rt (Impact.entity_type it) change_type))
         items.
Proof.
  unfold Impact.analyze_direct_impacts in H. unres H. injection H as <-.
  apply Forall_concat'. eapply rmap_Forall; [|eassumption].
  intros rel its Hin Hi. destruct (rfilter_true _ _ _ _ E0 Hin) as [Hin' Htouch].
  unfold Impact.direct_item in Hi.
  unres Hi; injection Hi as <-; first [apply Forall_nil | apply Forall_cons; [|apply Forall_nil]].
  match goal with Hs : Impact.calculate_impact_severity _ _ _ = Ok _ |- _ =>
    destruct (impact_severity_bucket _ _ _ _ Hs) as (rt & et & Hrt & Het & Hsev) end.
  rewrite Het in *.
  match goal with Hx : Ok et = Ok _ |- _ => injection Hx as <- end.
  do 4 eexists. cbn. repeat split; eassumption.
Qed.

Lemma direct_severity_shifted_witness :
  match Impact.analyze_direct_impacts
          (analyzer_of [ent "S" "unit_of_work"; ent "X" "extension"] [rel "S" "X" "depends_on"])
          "S" "modification" with
  | Ok items =>
      Forall (fun it =>
                exists rs rl affected rt,
                  Impact.rels (analyzer_of [ent "S" "unit_of_work"; ent "X" "extension"]
                                           [rel "S" "X" "depends_on"]) = Ok rs /\ In rl rs
                  /\ Impact.touches rl (VStr "S") = Ok true
                  /\ Impact.other_end rl (VStr "S") = Ok (Impact.entity_id it)
                  /\ vget (Impact.entity_id it)
                          (Impact.entity_index (analyzer_of [ent "S" "unit_of_work"; ent "X" "extension"]
                                                            [rel "S" "X" "depends_on"]))
                     = Ok (Some affected)
                  /\ py_get rl "type" (VStr "unknown") = Ok rt
                  /\ py_get affected "type" (VStr "unknown") = Ok (Impact.entity_type it)
                  /\ Impact.severity it = spec_bucket (1 + severity_sum rt (Impact.entity_type it) "modification"))
             items
  | Err _ => False
  end.
Proof.
  destruct (Impact.analyze_direct_impacts
              (analyzer_of [ent "S" "unit_of_work"; ent "X" "extension"] [rel "S" "X" "depends_on"])
              "S" "modification") eqn:E.
  - exact (direct_severity_shifted _ "S" "modification" a E).
  - vm_compute in E. discriminate E.
Defined.

(** ** C6: analyzing an entity that is not in the graph *)

(** C6 (counterexample): on an empty graph, the analysis of [FR-404]
    raises nothing: it returns an ordinary report whose risk assessment is a
    dict holding the message. *)
Lemma missing_entity_returns_report :
  match fst (Impact.analyze_change_impact (analyzer_of [] []) "FR-404" "removal"
               (fun _ => 0) 0%nat) with
  | Ok r => Impact.risk_assessment r = VDict [("error", VStr "Entity FR-404 not found")]
            /\ Impact.direct_impacts r = [] /\ Impact.cascade_impacts r = []
  | Err _ => False
  end.
Proof. vm_compute. repeat split. Qed.

(** C6 (amended): for an id that is not in the entity index and any change
    type, [analyze_change_impact] raises nothing.  It returns a report with
    no direct, indirect or cascade impacts, no mitigation strategies, no
    affected layers and no testing recommendations, and with
    [risk_assessment = {"error": "Entity <id> not found"}]. *)
Theorem missing_entity_report (a : Impact.Analyzer) (entity_id change_type : string)
  (c : Clock) (n : nat)
  (H : vlookup (VStr entity_id) (Impact.entity_index a) = None) :
  exists ts, fst (Impact.analyze_change_impact a entity_id change_type c n)
             = Ok (Impact.mkReport entity_id change_type ts [] [] []
                     (VDict [("error", VStr ("Entity " +++ entity_id +++ " not found"))]) [] [] []).
Proof.
  exists (isoformat (c n)). cbn. unfold Impact.analyze_phases, vget. cbn. rewrite H. reflexivity.
Qed.

Lemma missing_entity_report_witness :
  exists ts, fst (Impact.analyze_change_impact (analyzer_of [ent "S" "unit_of_work"] [])
                   "FR-404" "removal" (fun _ => 0) 0%nat)
             = Ok (Impact.mkReport "FR-404" "removal" ts [] [] []
                     (VDict [("error", VStr ("Entity " +++ "FR-404" +++ " not found"))]) [] [] []).
Proof.
  apply (missing_entity_report (analyzer_of [ent "S" "unit_of_work"] []) "FR-404" "removal"
           (fun _ => 0) 0%nat).
  vm_compute. reflexivity.
Defined.

(** ** C5: queries with an empty text *)

Lemma split_ws_empty : split_ws "" = [].
Proof. reflexivity. Qed.

Lemma found_entities_empty : Query.found_entities "" = [].
Proof. vm_compute. reflexivity. Qed.

Lemma detect_query_type_empty : Query.detect_query_type "" = "keyword".
Proof. vm_compute. reflexivity. Qed.

Lemma eqb_false_of_neq (s t : string) : s <> t -> String.eqb s t = false.
Proof. intro H. apply String.eqb_neq. exact H. Qed.

(** Every processor other than the pattern, coverage and gap processors
    returns [[]] on the empty text, without reading the clock. *)
Lemma processor_empty (q : Query.Engine) (t : string) (c : Clock) (n : nat) :
  t <> "pattern" -> t <> "coverage" -> t <> "gap" ->
  Query.processor q t "" c n = (Ok [], n).
Proof.
  intros Hp Hc Hg. unfold Query.processor.
  rewrite (eqb_false_of_neq _ _ Hp), (eqb_false_of_neq _ _ Hc), (eqb_false_of_neq _ _ Hg).
  destruct (String.eqb t "keyword"); [reflexivity|].
  destruct (String.eqb t "relationship").
  - unfold lift, Query.process_relationship_query. rewrite found_entities_empty. reflexivity.
  - destruct (String.eqb t "impact"); [|reflexivity].
    unfold Query.process_impact_query. rewrite found_entities_empty. reflexivity.
Qed.

(** C5 (counterexample): the empty text with the automatic type (detected
    as keyword) is answered with a successful, empty result: no error is
    recorded in the metadata. *)
Lemma empty_query_not_rejected :
  match fst (Query.query_ (engine_of [] []) "" "auto" (fun _ => 0) 0%nat) with
  | Ok r => Query.results r = [] /\ meta_error r = None
  | Err _ => False
  end.
Proof. vm_compute. split; reflexivity. Qed.

(** C5 (amended): [query] does not reject an empty text.  For every
    engine, clock and query type other than pattern, coverage and gap
    ("auto" is detected as keyword, an unknown type falls back to keyword),
    [query("", type)] returns normally a result with no entries, metadata
    [{query_type, timestamp, results_count: 0}] and no error entry. *)
Theorem empty_query_empty_result (q : Query.Engine) (query_type : string) (c : Clock) (n : nat)
  (Hp : query_type <> "pattern") (Hc : query_type <> "coverage") (Hg : query_type <> "gap") :
  exists r, fst (Query.query_ q "" query_type c n) = Ok r
            /\ Query.results r = [] /\ meta_error r = None
            /\ Query.query r = ""
            /\ exists ts, Query.metadata r =
                 VDict [("query_type", VStr (if String.eqb query_type "auto" then "keyword" else query_type));
                        ("timestamp", VStr ts); ("results_count", VInt 0)].
Proof.
  set (t := if String.eqb query_type "auto" then Query.detect_query_type "" else query_type).
  assert (Ht : t <> "pattern" /\ t <> "coverage" /\ t <> "gap").
  { unfold t. destruct (String.eqb query_type "auto");
      [rewrite detect_query_type_empty; repeat split; discriminate | auto]. }
  destruct Ht as (Hp' & Hc' & Hg').
  unfold Query.query_, mbind, now, mcatch. cbn beta iota.
  fold t. rewrite (processor_empty q t c (S n) Hp' Hc' Hg').
  eexists. split; [reflexivity|]. cbn. repeat split.
  exists (isoformat (c (S n))). unfold t.
  destruct (String.eqb query_type "auto"); [rewrite detect_query_type_empty|]; reflexivity.
Qed.

Lemma empty_query_empty_result_witness :
  exists r, fst (Query.query_ (engine_of [titled "FR-001" "Login"] []) "" "relationship"
                   (fun _ => 0) 0%nat) = Ok r
            /\ Query.results r = [] /\ meta_error r = None
            /\ Query.query r = ""
            /\ exists ts, Query.metadata r =
                 VDict [("query_type", VStr (if String.eqb "relationship" "auto" then "keyword" else "relationship"));
                        ("timestamp", VStr ts); ("results_count", VInt 0)].
Proof.
  apply (empty_query_empty_result (engine_of [titled "FR-001" "Login"] []) "relationship"
           (fun _ => 0) 0%nat); discriminate.
Defined.

(** ** C10: reading with no index files *)

Lemma concat_map_nil {A B : Type} (l : list A) : concat (map (fun _ => @nil B) l) = [].
Proof. induction l; cbn; auto. Qed.

Lemma rmap_const_nil {A B : Type} (f : A -> Res (list B)) (l : list A) :
  (forall x, f x = Ok []) -> rmap f l = Ok (map (fun _ => []) l).
Proof.
  intro Hf. induction l as [|x l IH]; cbn; [reflexivity|].
  rewrite Hf, IH. reflexivity.
Qed.

Lemma empty_keyword (kn : list (string * Value)) (st : list string) (text : string) :
  Query.process_keyword_query (empty_engine kn st) text = Ok [].
Proof.
  unfold Query.process_keyword_query.
  rewrite (rmap_const_nil (Query.find_requirements_by_keyword (empty_engine kn st)));
    [| intro kw; reflexivity].
  cbn. rewrite concat_map_nil. reflexivity.
Qed.

Lemma empty_relationship (kn : list (string * Value)) (st : list string) (text : string) :
  Query.process_relationship_query (empty_engine kn st) text = Ok [].
Proof.
  unfold Query.process_relationship_query.
  erewrite rmap_const_nil; [| intro i; cbn; destruct (_ || _); reflexivity].
  cbn. rewrite concat_map_nil. reflexivity.
Qed.

Lemma empty_impact_query (kn : list (string * Value)) (st : list string) (ids : list string) :
  forall (c : Clock) (n : nat),
  exists l, fst (mmap (fun entity_id =>
                         ia <<- Query.analyze_impact (empty_engine kn st) entity_id "modification" ;;
                         mret (VDict [("entity_id", VStr entity_id); ("impact_analysis", ia)])) ids c n)
            = Ok l
            /\ Forall2 (fun i v => exists ts, v = not_found_impact i ts) ids l.
Proof.
  induction ids as [|i ids IH]; intros c n.
  - exists []. split; [reflexivity | constructor].
  - destruct (IH c (S n)) as (l & Hl & Hf).
    cbn [mmap]. unfold mbind at 1.
    unfold Query.analyze_impact, mbind, now_iso, now, mret. cbn.
    destruct (mmap _ ids c (S n)) as [r n'] eqn:E. cbn in Hl |- *. subst r.
    eexists. split; [reflexivity|]. constructor; [|exact Hf].
    exists (isoformat (c n)). reflexivity.
Qed.

Lemma empty_entity_impact (s t : string) :
  s <> t -> Impact.calculate_entity_impact empty_analyzer s t = Ok "none".
Proof.
  intro H. unfold Impact.calculate_entity_impact, Impact.find_shortest_path. cbn.
  rewrite (eqb_false_of_neq _ _ H). reflexivity.
Qed.

Lemma Forall_dict_set {A : Type} (P : A -> Prop) (k : string) (v : A) (d : list (string * A)) :
  P v -> Forall (fun p => P (snd p)) d -> Forall (fun p => P (snd p)) (dict_set k v d).
Proof.
  intros Hv Hd. induction Hd as [|[k' v'] d Hh Ht IH]; cbn.
  - constructor; [exact Hv | constructor].
  - destruct (String.eqb k k'); constructor; auto.
Qed.

Lemma dict_set_keys {A : Type} (k : string) (v : A) (d : list (string * A)) :
  map fst (dict_set k v d) = if existsb (String.eqb k) (map fst d) then map fst d else (map fst d ++ [k])%list.
Proof.
  induction d as [|[k' v'] d IH]; cbn; [reflexivity|].
  destruct (String.eqb k k') eqn:E; cbn; [reflexivity|]. rewrite IH.
  destruct (existsb (String.eqb k) (map fst d)); reflexivity.
Qed.

Lemma dict_set_nodup {A : Type} (k : string) (v : A) (d : list (string * A)) :
  NoDup (map fst d) -> NoDup (map fst (dict_set k v d)).
Proof.
  intros H. rewrite dict_set_keys. destruct (existsb (String.eqb k) (map fst d)) eqn:E; [exact H|].
  apply NoDup_app; [exact H | repeat constructor; intros [] |].
  intros x Hx [Hk|[]]. subst x. assert (existsb (String.eqb k) (map fst d) = true).
  { apply existsb_exists. exists k. split; [exact Hx | apply String.eqb_refl]. } congruence.
Qed.

Lemma dict_set_has {A : Type} (k : string) (v : A) (d : list (string * A)) (t : string) :
  t = k \/ In t (map fst d) -> In t (map fst (dict_set k v d)).
Proof.
  rewrite dict_set_keys. intros H. destruct (existsb (String.eqb k) (map fst d)) eqn:E.
  - destruct H as [->|H]; [|exact H]. apply existsb_exists in E as (x & Hx & Hkx).
    apply String.eqb_eq in Hkx. subst. exact Hx.
  - apply in_or_app. destruct H as [->|H]; [right; left; reflexivity | left; exact H].
Qed.

Lemma Forall_dict_set_pair {A : Type} (P : string * A -> Prop) (k : string) (v : A) (d : list (string * A)) :
  P (k, v) -> Forall P d -> Forall P (dict_set k v d).
Proof.
  intros Hv Hd. induction Hd as [|[k' v'] d Hh Ht IH]; cbn.
  - constructor; [exact Hv | constructor].
  - destruct (String.eqb k k') eqn:E; constructor; auto.
    apply String.eqb_eq in E. subst. exact Hv.
Qed.

Lemma fold_rbind_err {A B : Type} (g : B -> A -> Res B) (l : list A) (e : string) :
  fold_left (fun acc x => y <- acc ;; g y x) l (Err e) = Err e.
Proof. induction l; cbn; auto. Qed.

Lemma entity_impact_level (a : Impact.Analyzer) (s t lvl : string) :
  Impact.calculate_entity_impact a s t = Ok lvl -> In lvl ["high"; "medium"; "low"; "none"].
Proof.
  unfold Impact.calculate_entity_impact. intros H. unres H. injection H as <-.
  destruct a0 as [[|x p]|]; cbn; auto.
  destruct (length p =? 1)%nat; cbn; auto. destruct (length p =? 2)%nat; cbn; auto.
Qed.

Lemma matrix_row (a : Impact.Analyzer) (s : string) (U l : list string) :
  forall row0 row, incl l U ->
  fold_left (fun racc target =>
               row <- racc ;;
               if String.eqb s target then Ok row
               else (lvl <- Impact.calculate_entity_impact a s target ;;
                     Ok (dict_set target lvl row))) l (Ok row0) = Ok row ->
  NoDup (map fst row0) -> Forall (row_ok U s) row0 ->
  NoDup (map fst row) /\ Forall (row_ok U s) row /\
  (forall t, In t (map fst row0) \/ (In t l /\ t <> s) -> In t (map fst row)).
Proof.
  induction l as [|x l IH]; intros row0 row Hl H Hn Hf; cbn in H.
  - injection H as <-. split; [exact Hn|]. split; [exact Hf|]. intros t [Ht|[[] _]]. exact Ht.
  - destruct (String.eqb s x) eqn:Es.
    + apply String.eqb_eq in Es. subst x.
      destruct (IH row0 row (proj2 (incl_cons_inv Hl)) H Hn Hf) as (H1 & H2 & H3).
      split; [exact H1|]. split; [exact H2|]. intros t [Ht|[[<-|Ht] Hts]].
      * apply H3. left. exact Ht.
      * congruence.
      * apply H3. right. auto.
    + destruct (Impact.calculate_entity_impact a s x) as [lvl|e] eqn:El; cbn in H;
        [|rewrite fold_rbind_err in H; discriminate].
      apply String.eqb_neq in Es.
      destruct (IH _ row (proj2 (incl_cons_inv Hl)) H) as (H1 & H2 & H3).
      * apply dict_set_nodup. exact Hn.
      * apply Forall_dict_set_pair; [|exact Hf]. split; [apply Hl; left; reflexivity|].
        split; [cbn; congruence | eapply entity_impact_level; exact El].
      * split; [exact H1|]. split; [exact H2|]. intros t Ht. apply H3.
        destruct Ht as [Ht|[[<-|Ht] Hts]].
        -- left. apply dict_set_has. right. exact Ht.
        -- left. apply dict_set_has. left. reflexivity.
        -- right. auto.
Qed.

Lemma matrix_rows (a : Impact.Analyzer) (U : list string) :
  forall l m0 m, incl l U ->
  fold_left
    (fun acc source =>
       m <- acc ;;
       row <- fold_left (fun racc target =>
                           row <- racc ;;
                           if String.eqb source target then Ok row
                           else (lvl <- Impact.calculate_entity_impact a source target ;;
                                 Ok (dict_set target lvl row)))
                        U (Ok []) ;;
       Ok (dict_set source row m))
    l (Ok m0) = Ok m ->
  NoDup (map fst m0) -> Forall (matrix_row_ok U) m0 ->
  NoDup (map fst m) /\ Forall (matrix_row_ok U) m /\
  (forall s, In s (map fst m0) \/ In s l -> In s (map fst m)).
Proof.
  induction l as [|x l IH]; intros m0 m Hl H Hn Hf; cbn in H.
  - injection H as <-. split; [exact Hn|]. split; [exact Hf|]. intros s [Hs|[]]. exact Hs.
  - destruct (fold_left _ U (Ok [])) as [row|e] eqn:Er; cbn in H;
      [|rewrite fold_rbind_err in H; discriminate].
    destruct (matrix_row a x U U [] row (incl_refl _) Er (NoDup_nil _) (Forall_nil _))
      as (R1 & R2 & R3).
    destruct (IH _ m (proj2 (incl_cons_inv Hl)) H) as (H1 & H2 & H3).
    + apply dict_set_nodup. exact Hn.
    + apply Forall_dict_set_pair; [|exact Hf].
      split; [apply Hl; left; reflexivity|]. split; [exact R1|]. split; [exact R2|].
      intros t Ht Htx. apply R3. right. auto.
    + split; [exact H1|]. split; [exact H2|]. intros s Hs. apply H3.
      destruct Hs as [Hs|[<-|Hs]].
      * left. apply dict_set_has. right. exact Hs.
      * left. apply dict_set_has. left. reflexivity.
      * right. exact Hs.
Qed.

Lemma empty_matrix_row (source : string) (ids : list string) :
  forall row0, all_none row0 ->
  exists row, fold_left (fun racc target =>
                           row <- racc ;;
                           if String.eqb source target then Ok row
                           else (lvl <- Impact.calculate_entity_impact empty_analyzer source target ;;
                                 Ok (dict_set target lvl row)))
                        ids (Ok row0) = Ok row /\ all_none row.
Proof.
  induction ids as [|t ids IH]; intros row0 H0; cbn.
  - exists row0. auto.
  - destruct (String.eqb source t) eqn:E.
    + apply IH. exact H0.
    + apply String.eqb_neq in E. rewrite (empty_entity_impact _ _ E). cbn.
      apply IH. apply (Forall_dict_set (fun x => x = "none")); [reflexivity | exact H0].
Qed.

Lemma empty_matrix_all_none (ids : list string) :
  exists m, Impact.generate_impact_matrix empty_analyzer ids = Ok m
            /\ Forall (fun row => all_none (snd row)) m.
Proof.
  unfold Impact.generate_impact_matrix.
  assert (G : forall srcs m0, Forall (fun row => all_none (snd row)) m0 ->
    exists m, fold_left (fun acc source =>
       m <- acc ;;
       row <- fold_left (fun racc target =>
                           row <- racc ;;
                           if String.eqb source target then Ok row
                           else (lvl <- Impact.calculate_entity_impact empty_analyzer source target ;;
                                 Ok (dict_set target lvl row)))
                        ids (Ok []) ;;
       Ok (dict_set source row m)) srcs (Ok m0) = Ok m
      /\ Forall (fun row => all_none (snd row)) m).
  { induction srcs as [|s srcs IH]; intros m0 H0; cbn.
    - exists m0. auto.
    - destruct (empty_matrix_row s ids [] (Forall_nil _)) as (row & Hr & Hn).
      rewrite Hr. cbn. apply IH. apply (Forall_dict_set all_none); assumption. }
  apply G. constructor.
Qed.
Lemma empty_matrix (ids : list string) :
  exists m, Impact.generate_impact_matrix empty_analyzer ids = Ok m
            /\ Forall (fun row => all_none (snd row)) m
            /\ (forall s t, In s ids -> In t ids -> s <> t ->
                 exists row, In (s, row) m /\ In (t, "none") row).
Proof.
  destruct (empty_matrix_all_none ids) as (m & Hm & Hn).
  exists m. split; [exact Hm|]. split; [exact Hn|].
  intros s t Hs Ht Hst.
  unfold Impact.generate_impact_matrix in Hm.
  destruct (matrix_rows empty_analyzer ids ids [] m (incl_refl _) Hm (NoDup_nil _) (Forall_nil _))
    as (_ & Hok & Hkeys).
  destruct (proj1 (in_map_iff _ _ _) (Hkeys s (or_intror Hs))) as ([s' row] & Es & Hin).
  cbn in Es. subst s'. exists row. split; [exact Hin|].
  rewrite Forall_forall in Hok, Hn.
  destruct (Hok _ Hin) as (_ & _ & _ & Hcols). cbn in Hcols.
  destruct (proj1 (in_map_iff _ _ _) (Hcols t Ht (not_eq_sym Hst))) as ([t' v] & Et & Hv).
  cbn in Et. subst t'.
  specialize (Hn _ Hin). cbn in Hn. unfold all_none in Hn. rewrite Forall_forall in Hn.
  specialize (Hn _ Hv). cbn in Hn. subst v. exact Hv.
Qed.


(** [query] catches every exception of its processor: it always returns. *)
Lemma query_returns (q : Query.Engine) (text t : string) (c : Clock) (n : nat) :
  exists r, fst (Query.query_ q text t c n) = Ok r.
Proof.
  unfold Query.query_, mcatch, mbind, now. cbn -[Query.processor].
  destruct (Query.processor _ _ _ _ _) as [[r|e] n']; cbn; eexists; reflexivity.
Qed.

(** C10 (counterexample): with no index files, the impact query
    "impact FR-001" returns one result, a record carrying the error
    "Entity FR-001 not found", and the impact matrix of two ids has a row
    for each of them. *)
Lemma empty_store_not_empty_results :
  match fst (Query.query_ (empty_engine [] []) "impact FR-001" "auto" (fun _ => 0) 0%nat) with
  | Ok r => length (Query.results r) = 1%nat
  | Err _ => False
  end
  /\ Impact.generate_impact_matrix empty_analyzer ["FR-001"; "FR-002"]
     = Ok [("FR-001", [("FR-002", "none")]); ("FR-002", [("FR-001", "none")])].
Proof. split; vm_compute; reflexivity. Qed.

(** C10 (amended): when entities.json and relationships.json are both
    absent, whatever knowledge files and feature files exist:
    - the impact analyzer is built with no entities, no relationships and
      an empty index, and the query engine with empty entity and
      relationship lists;
    - [query] returns (it never raises, on any text and type);
    - keyword and relationship processing give no results;
    - coverage (and gap) analysis gives one record whose four lists are
      empty;
    - impact processing gives, for each id found in the text, a record
      with no impacts and the error "Entity <id> not found";
    - the impact matrix is built: for every ordered pair [(s, t)] of
      distinct given ids, the row of [s] has the column [t] with level
      "none", and every level in it is "none";
    - the critical-dependency search gives no results. *)
Theorem empty_store_reads (knowledge : list (string * Value)) (feature_stems : list string)
  (ids : list string) (text t : string) (c : Clock) (n : nat) :
  Impact.init None None = Ok empty_analyzer
  /\ Query.entities (empty_engine knowledge feature_stems) = VList []
  /\ Query.relationships (empty_engine knowledge feature_stems) = VList []
  /\ (exists r, fst (Query.query_ (empty_engine knowledge feature_stems) text t c n) = Ok r)
  /\ Query.process_keyword_query (empty_engine knowledge feature_stems) text = Ok []
  /\ Query.process_relationship_query (empty_engine knowledge feature_stems) text = Ok []
  /\ Query.analyze_coverage_gaps (empty_engine knowledge feature_stems) c n
     = (Ok (empty_coverage (isoformat (c n))), S n)
  /\ (exists l, fst (Query.process_impact_query (empty_engine knowledge feature_stems) text c n) = Ok l
                /\ Forall2 (fun i v => exists ts, v = not_found_impact i ts)
                           (Query.found_entities text) l)
  /\ (exists m, Impact.generate_impact_matrix empty_analyzer ids = Ok m
                /\ Forall (fun row => all_none (snd row)) m
                /\ (forall s t, In s ids -> In t ids -> s <> t ->
                     exists row, In (s, row) m /\ In (t, "none") row))
  /\ Impact.find_critical_dependencies empty_analyzer = Ok [].
Proof.
  split; [reflexivity|].
  split; [reflexivity|].
  split; [reflexivity|].
  split; [apply query_returns|].
  split; [apply empty_keyword|].
  split; [apply empty_relationship|].
  split; [reflexivity|].
  split; [apply empty_impact_query|].
  split; [apply empty_matrix|].
  reflexivity.
Qed.

(** ** C8: indexing a corpus with a dangling reference *)

Lemma mbind_ok {A B : Type} (m : M A) (k : A -> M B) (c : Clock) (n : nat) (a : A) (n' : nat) :
  m c n = (Ok a, n') -> mbind m k c n = k a c n'.
Proof. intro H. unfold mbind. rewrite H. reflexivity. Qed.

Lemma mbind_assoc {A B C : Type} (m : M A) (f : A -> M B) (g : B -> M C) (c : Clock) (n : nat) :
  mbind (mbind m f) g c n = mbind m (fun x => mbind (f x) g) c n.
Proof. unfold mbind. destruct (m c n) as [[a|e] n']; reflexivity. Qed.

Section ScenarioSections.

Variable P : Value -> Prop.
Variable g : string -> Value -> M (list Value).
Hypothesis Hg : forall k v c n, String.eqb k "FR-001" = false -> is_dict v = true ->
  exists ls n', g k v c n = (Ok ls, n') /\ Forall P ls.

Lemma mmap_section (kvs : list (string * Value)) (c : Clock) (n : nat) :
  no_fr001 kvs = true ->
  exists ls n', mmap (fun kv => g (fst kv) (snd kv)) kvs c n = (Ok ls, n') /\ Forall P (concat ls).
Proof.
  revert c n. induction kvs as [|[k v] kvs IH]; intros c n H.
  - exists [], n. split; [reflexivity | constructor].
  - cbn in H. apply andb_prop in H as [H1 H2]. apply andb_prop in H1 as [Hk Hv].
    apply negb_true_iff in Hk.
    destruct (Hg k v c n Hk Hv) as (l1 & n1 & E1 & F1).
    destruct (IH c n1 H2) as (l2 & n2 & E2 & F2).
    exists (l1 :: l2), n2. cbn [mmap]. rewrite (mbind_ok _ _ _ _ _ _ E1).
    rewrite (mbind_ok _ _ _ _ _ _ E2). split; [reflexivity|].
    cbn. apply Forall_app. auto.
Qed.

Lemma over_items_section (kvs0 kvs : list (string * Value)) (key : string) (c : Clock) (n : nat) :
  assoc key kvs0 = Some (VDict kvs) -> no_fr001 kvs = true ->
  exists ls n', Indexer.over_items (VDict kvs0) key g c n = (Ok ls, n') /\ Forall P ls.
Proof.
  intros Ha Hn. unfold Indexer.over_items.
  rewrite (mbind_ok _ _ c n true n); [| cbn; rewrite Ha; reflexivity].
  rewrite (mbind_ok _ _ c n kvs n); [| cbn; rewrite Ha; reflexivity].
  destruct (mmap_section kvs c n Hn) as (ls & n' & E & F).
  rewrite (mbind_ok _ _ _ _ _ _ E). exists (concat ls), n'. auto.
Qed.

End ScenarioSections.

Lemma fr_entity_scenario (digest : Value -> string) k v c n :
  String.eqb k "FR-001" = false -> is_dict v = true ->
  exists ls n', Indexer.one (Indexer.fr_entity digest k v) c n = (Ok ls, n')
                /\ Forall scenario_entity ls.
Proof.
  intros Hk Hv. destruct v; try discriminate.
  eexists; eexists. split; [reflexivity|].
  constructor; [|constructor]. split; [|eexists; reflexivity].
  exists (VStr k). split; [reflexivity|]. exact Hk.
Qed.

Lemma nfr_entity_scenario (digest : Value -> string) k v c n :
  String.eqb k "FR-001" = false -> is_dict v = true ->
  exists ls n', Indexer.one (Indexer.nfr_entity digest k v) c n = (Ok ls, n')
                /\ Forall scenario_entity ls.
Proof.
  intros Hk Hv. destruct v; try discriminate.
  eexists; eexists. split; [reflexivity|].
  constructor; [|constructor]. split; [|eexists; reflexivity].
  exists (VStr k). split; [reflexivity|]. exact Hk.
Qed.

Lemma scenario_a_entities (digest : Value -> string) (frs nfrs : list (string * Value))
  (c : Clock) (n : nat) :
  no_fr001 frs = true -> no_fr001 nfrs = true ->
  exists es n', Indexer.extract_entities digest (scenario_a frs nfrs) c n = (Ok es, n')
                /\ Forall scenario_entity es.
Proof.
  intros H1 H2. unfold Indexer.extract_entities.
  rewrite (mbind_ok _ _ c n true n) by reflexivity. cbv beta iota.
  rewrite mbind_assoc.
  rewrite (mbind_ok _ _ c n (VDict (fr_section frs nfrs)) n) by reflexivity. cbv beta.
  destruct (over_items_section scenario_entity _ (fun k v c n => fr_entity_scenario digest k v c n)
              (fr_section frs nfrs) frs "functional_requirements" c n eq_refl H1)
    as (l1 & n1 & E1 & F1).
  rewrite mbind_assoc, (mbind_ok _ _ _ _ _ _ E1). cbv beta.
  destruct (over_items_section scenario_entity _ (fun k v c n => nfr_entity_scenario digest k v c n)
              (fr_section frs nfrs) nfrs "non_functional_requirements" c n1 eq_refl H2)
    as (l2 & n2 & E2 & F2).
  rewrite mbind_assoc, (mbind_ok _ _ _ _ _ _ E2).
  eexists; eexists. split; [reflexivity|].
  cbn. rewrite !app_nil_r. apply Forall_app. split; [exact F1|].
  apply Forall_app. split; [exact F2|].
  constructor; [|constructor]. split; [|eexists; reflexivity].
  exists (VStr "UoW-001"). split; reflexivity.
Qed.

Lemma scenario_a_relationships (frs nfrs : list (string * Value)) (c : Clock) (n : nat) :
  Indexer.extract_relationships (scenario_a frs nfrs) c n
  = (Ok [VDict [("source", VStr "UoW-001"); ("target", VStr "FR-001"); ("type", VStr "implements");
                ("metadata", VDict [("created", VStr (isoformat (c n)));
                                    ("source_file", VStr "framework_requirements")])]], S n).
Proof. reflexivity. Qed.

Lemma count_type_ok (xs : list Value) (t : string) :
  Forall (fun e => exists ty, py_getitem e "type" = Ok ty) xs ->
  exists v, Indexer.count_type xs t = Ok v.
Proof.
  intro H. unfold Indexer.count_type.
  assert (exists l, rfilter (fun e => ty <- py_getitem e "type" ;; Ok (py_eq ty (VStr t))) xs = Ok l)
    as [l ->]; [|eexists; reflexivity].
  induction H as [|e xs [ty Hty] _ [l IH]]; cbn; [eexists; reflexivity|].
  rewrite Hty, IH. cbn. eexists; reflexivity.
Qed.

Lemma counts_by_ok (xs : list Value) (ts : list string) :
  Forall (fun e => exists ty, py_getitem e "type" = Ok ty) xs ->
  exists v, Indexer.counts_by xs ts = Ok v.
Proof.
  intro H. unfold Indexer.counts_by.
  assert (exists l, rmap (fun t => c <- Indexer.count_type xs t ;; Ok (t, c)) ts = Ok l)
    as [l ->]; [|eexists; reflexivity].
  induction ts as [|t ts [l IH]]; cbn; [eexists; reflexivity|].
  destruct (count_type_ok xs t H) as [v ->]. cbn. rewrite IH. eexists; reflexivity.
Qed.

Lemma metadata_of_ok (ts : string) (es rs : list Value) :
  Forall (fun e => exists ty, py_getitem e "type" = Ok ty) es ->
  Forall (fun e => exists ty, py_getitem e "type" = Ok ty) rs ->
  exists m, Indexer.metadata_of ts es rs = Ok m.
Proof.
  intros He Hr. unfold Indexer.metadata_of.
  destruct (counts_by_ok es Indexer.entity_types He) as [v1 ->].
  destruct (counts_by_ok rs Indexer.relationship_types Hr) as [v2 ->].
  eexists; reflexivity.
Qed.

Lemma no_entity_with_id (t : Value) (es : list Value) :
  Forall (id_differs t) es ->
  existsb (fun e => match py_get e "id" VNull with Ok i => py_eq i t | Err _ => false end) es = false.
Proof.
  induction 1 as [|e es (i & Hi & Hd) _ IH]; cbn; [reflexivity|].
  rewrite Hi, Hd, IH. reflexivity.
Qed.

(** C8: for a corpus whose framework requirements hold the unit of work
    [UoW-001 {implements: [FR-001]}] and functional and non-functional
    requirements that are records, none of them [FR-001], indexing
    completes: entity and relationship extraction succeed, the relationships
    are exactly the one [implements] link from [UoW-001] to [FR-001], which
    is kept although no entity has the id [FR-001] (exactly one dangling
    reference to [FR-001]), and [index_ssot] returns the success summary. *)
Theorem scenario_a_one_dangling (digest : Value -> string) (frs nfrs : list (string * Value))
  (s : Indexer.Store) (c : Clock) (n : nat)
  (Hfrs : no_fr001 frs = true) (Hnfrs : no_fr001 nfrs = true) :
  exists es rs,
    fst (Indexer.extract_entities digest (scenario_a frs nfrs) c n) = Ok es
    /\ fst (Indexer.extract_relationships (scenario_a frs nfrs) c n) = Ok rs
    /\ length (dangling_for (VStr "FR-001") es rs) = 1%nat
    /\ (exists ts, rs = [VDict [("source", VStr "UoW-001"); ("target", VStr "FR-001");
                                ("type", VStr "implements");
                                ("metadata", VDict [("created", VStr ts);
                                                    ("source_file", VStr "framework_requirements")])]])
    /\ exists trace, fst (Indexer.index_ssot digest (scenario_a frs nfrs) s c n)
                     = Ok (trace, Ok (VDict [("entities_count", VInt (Z.of_nat (length es)));
                                             ("relationships_count", VInt 1);
                                             ("status", VStr "success")])).
Proof.
  destruct (scenario_a_entities digest frs nfrs c n Hfrs Hnfrs) as (es & n1 & E & F).
  assert (Fid : Forall (id_differs (VStr "FR-001")) es)
    by (eapply Forall_impl; [|exact F]; intros e [H _]; exact H).
  assert (Fty : Forall (fun e => exists ty, py_getitem e "type" = Ok ty) es)
    by (eapply Forall_impl; [|exact F]; intros e [_ H]; exact H).
  exists es. eexists. split; [rewrite E; reflexivity|].
  split; [rewrite scenario_a_relationships; reflexivity|].
  split; [cbn; rewrite (no_entity_with_id _ _ Fid); reflexivity|].
  split; [eexists; reflexivity|].
  unfold Indexer.index_ssot.
  rewrite (mbind_ok _ _ _ _ _ _ E).
  rewrite (mbind_ok _ _ _ _ _ _ (scenario_a_relationships frs nfrs c n1)).
  rewrite (mbind_ok _ _ c (S n1) (isoformat (c (S n1))) (S (S n1))) by reflexivity.
  destruct (metadata_of_ok (isoformat (c (S n1))) es
              [VDict [("source", VStr "UoW-001"); ("target", VStr "FR-001"); ("type", VStr "implements");
                      ("metadata", VDict [("created", VStr (isoformat (c n1)));
                                          ("source_file", VStr "framework_requirements")])]]
              Fty) as [m Hm].
  { constructor; [eexists; reflexivity | constructor]. }
  unfold Indexer.save_graphrag_data. rewrite Hm. eexists. reflexivity.
Qed.

Lemma scenario_a_one_dangling_witness :
  exists es rs,
    fst (Indexer.extract_entities sample_digest
           (scenario_a [("FR-002", VDict [("title", VStr "Logout")])] []) (fun _ => 0) 0%nat) = Ok es
    /\ fst (Indexer.extract_relationships
              (scenario_a [("FR-002", VDict [("title", VStr "Logout")])] []) (fun _ => 0) 0%nat) = Ok rs
    /\ length (dangling_for (VStr "FR-001") es rs) = 1%nat
    /\ (exists ts, rs = [VDict [("source", VStr "UoW-001"); ("target", VStr "FR-001");
                                ("type", VStr "implements");
                                ("metadata", VDict [("created", VStr ts);
                                                    ("source_file", VStr "framework_requirements")])]])
    /\ exists trace, fst (Indexer.index_ssot sample_digest
                           (scenario_a [("FR-002", VDict [("title", VStr "Logout")])] [])
                           (Indexer.mkStore Indexer.Missing Indexer.Missing Indexer.Missing)
                           (fun _ => 0) 0%nat)
                     = Ok (trace, Ok (VDict [("entities_count", VInt (Z.of_nat (length es)));
                                             ("relationships_count", VInt 1);
                                             ("status", VStr "success")])).
Proof.
  apply (scenario_a_one_dangling sample_digest [("FR-002", VDict [("title", VStr "Logout")])] []
           (Indexer.mkStore Indexer.Missing Indexer.Missing Indexer.Missing) (fun _ => 0) 0%nat);
    reflexivity.
Defined.

(** ** C7: keyword queries *)

Lemma In_insert_desc {A : Type} (key : A -> Q) (x y : A) (l : list A) :
  In y (insert_desc key x l) <-> y = x \/ In y l.
Proof.
  induction l as [|z l IH]; cbn; [intuition congruence|].
  destruct (Qle_bool (key x) (key z)); cbn; rewrite ?IH; intuition congruence.
Qed.

Lemma In_sort_desc {A : Type} (key : A -> Q) (y : A) (l : list A) :
  In y (sort_desc key l) <-> In y l.
Proof.
  unfold sort_desc.
  assert (G : forall acc, In y (fold_left (fun acc x => insert_desc key x acc) l acc)
                          <-> In y l \/ In y acc).
  { induction l as [|x l IH]; intro acc; cbn; [tauto|].
    rewrite IH, In_insert_desc. intuition congruence. }
  rewrite G. cbn. tauto.
Qed.

Lemma rmap_In {A B : Type} (f : A -> Res B) (l : list A) (ys : list B) (y : B) :
  rmap f l = Ok ys -> In y ys -> exists x, In x l /\ f x = Ok y.
Proof.
  revert ys. induction l as [|x r IH]; intros ys H Hy; cbn in H.
  - injection H as <-. destruct Hy.
  - unres H. injection H as <-. destruct Hy as [<-|Hy].
    + exists x. split; [left; reflexivity | assumption].
    + destruct (IH _ ltac:(first [eassumption | reflexivity]) Hy) as (x' & Hx & Hf).
      exists x'. split; [right; exact Hx | exact Hf].
Qed.

Lemma keyword_entry_result (q : Query.Engine) (tok : string) (es : list Value) (e : Value)
  (l : list (Q * Value)) (p : Q * Value) :
  Query.ents q = Ok es -> In e es -> Query.keyword_entry tok e = Ok l -> In p l ->
  keyword_result q tok (snd p).
Proof.
  intros Hes He H Hp. unfold Query.keyword_entry in H. unres H;
    injection H as <-; [|destruct Hp..].
  destruct Hp as [<-|[]].
  do 5 eexists. repeat (split; [eassumption|]). reflexivity.
Qed.

Lemma find_requirements_results (q : Query.Engine) (tok : string) (xs : list Value) :
  Query.find_requirements_by_keyword q tok = Ok xs -> Forall (keyword_result q tok) xs.
Proof.
  intro H. unfold Query.find_requirements_by_keyword in H. unres H.
  injection H as <-. apply Forall_forall. intros r Hr.
  apply in_map_iff in Hr as ([rv r'] & <- & Hp). apply In_sort_desc in Hp.
  apply in_concat in Hp as (l & Hl & Hp).
  destruct (rmap_In _ _ _ _ E0 Hl) as (e & He & Hk).
  exact (keyword_entry_result q tok _ e l (rv, r') E He Hk Hp).
Qed.

Lemma dedup_results_props (l seen out : list Value) :
  Query.dedup_results l seen = Ok out ->
  incl out l
  /\ Forall (fun r => exists i, Query.result_entity_id r = Ok i /\ existsb (py_eq i) seen = false) out
  /\ ForallOrdPairs distinct_ids out.
Proof.
  revert seen out. induction l as [|r rest IH]; intros seen out H; cbn in H.
  - injection H as <-. split; [apply incl_nil_l | split; constructor].
  - unres H.
    + destruct (IH _ _ H) as (Hi & Hf & Hd). split; [apply incl_tl; exact Hi | auto].
    + injection H as <-.
      unfold vset_mem in E0. unfold vset_add in E2.
      destruct (hashable a) eqn:Hh; [|discriminate E0].
      injection E0 as E0. rewrite E0 in E2. injection E2 as <-.
      destruct (IH _ _ E3) as (Hi & Hf & Hd).
      split; [apply incl_cons; [left; reflexivity | apply incl_tl; exact Hi]|].
      split.
      * constructor; [exists a; split; assumption|].
        eapply Forall_impl; [|exact Hf]. intros x (i & Hx & Hs).
        rewrite existsb_app in Hs. apply orb_false_iff in Hs as [Hs _]. eauto.
      * constructor; [|exact Hd].
        eapply Forall_impl; [|exact Hf]. intros x (i & Hx & Hs).
        rewrite existsb_app in Hs. apply orb_false_iff in Hs as [_ Hs]. cbn in Hs.
        rewrite orb_false_r in Hs. exists a, i. auto.
Qed.


(** A successful keyword query gives at most one entry per entity id (ids
    compared with [==]).  Each entry comes from one whitespace token [tok] of
    the query: it is [{entity, relevance, matches}] for a functional or
    non-functional requirement [e] of the engine whose lower-cased
    searchable text (title, description and acceptance criteria joined by
    spaces) contains [tok] in lower case, with relevance
    [calculate_relevance tok text]: the occurrences of [tok] in the text over
    its word count (at least 1). *)
Theorem keyword_query_results (q : Query.Engine) (text : string) (results : list Value)
  (H : Query.process_keyword_query q text = Ok results) :
  ForallOrdPairs distinct_ids results
  /\ Forall (fun r => exists tok, In tok (split_ws text) /\ keyword_result q tok r) results.
Proof.
  unfold Query.process_keyword_query in H. unres H.
  destruct (dedup_results_props _ _ _ H) as (Hi & _ & Hd). split; [exact Hd|].
  apply Forall_forall. intros r Hr. apply Hi in Hr.
  apply in_concat in Hr as (xs & Hxs & Hr).
  destruct (rmap_In _ _ _ _ E Hxs) as (tok & Ht & Hk).
  exists tok. split; [exact Ht|].
  apply find_requirements_results in Hk. rewrite Forall_forall in Hk. auto.
Qed.

Lemma keyword_query_results_witness :
  exists results,
    Query.process_keyword_query (engine_of [titled "FR-002" "alpha"; titled "FR-001" "alpha beta"] [])
      "alpha beta" = Ok results
    /\ ForallOrdPairs distinct_ids results
    /\ Forall (fun r => exists tok, In tok (split_ws "alpha beta") /\
                 keyword_result (engine_of [titled "FR-002" "alpha"; titled "FR-001" "alpha beta"] []) tok r)
              results.
Proof.
  eexists. split; [vm_compute; reflexivity|].
  apply keyword_query_results. vm_compute. reflexivity.
Defined.

(** C7 (counterexample): the query "alpha beta" on [FR-001] titled
    "alpha one two three" and [FR-002] titled "beta" returns [FR-001] with
    relevance 1/4 before [FR-002] with relevance 1.  The merged list is not
    sorted by relevance, although the code announces it ("Remove duplicates
    and sort by relevance").  Two requirements of equal relevance also keep
    the engine's order, [FR-002] before [FR-001], not ascending ids. *)
Lemma keyword_merged_not_sorted :
  match Query.process_keyword_query
          (engine_of [titled "FR-001" "alpha one two three"; titled "FR-002" "beta"] []) "alpha beta" with
  | Ok rs => rmap Query.result_entity_id rs = Ok [VStr "FR-001"; VStr "FR-002"]
             /\ rmap (fun r => py_getitem r "relevance") rs = Ok [VFloat (1 # 4); VFloat (1 # 1)]
  | Err _ => False
  end
  /\ match Query.process_keyword_query (engine_of [titled "FR-002" "alpha"; titled "FR-001" "alpha"] [])
            "alpha" with
     | Ok rs => rmap Query.result_entity_id rs = Ok [VStr "FR-002"; VStr "FR-001"]
                /\ rmap (fun r => py_getitem r "relevance") rs = Ok [VFloat (1 # 1); VFloat (1 # 1)]
     | Err _ => False
     end.
Proof. split; vm_compute; split; reflexivity. Qed.


(** ** C9: change detection *)

Lemma rmap_In_rev {A B : Type} (f : A -> Res B) (l : list A) (ys : list B) (x : A) :
  rmap f l = Ok ys -> In x l -> exists y, f x = Ok y /\ In y ys.
Proof.
  revert ys. induction l as [|x' r IH]; intros ys H Hx; cbn in H; [destruct Hx|].
  unres H. injection H as <-. destruct Hx as [<-|Hx].
  - exists a. split; [assumption | left; reflexivity].
  - destruct (IH _ ltac:(first [eassumption | reflexivity]) Hx) as (y & Hy & Hi).
    exists y. split; [exact Hy | right; exact Hi].
Qed.

Lemma in_concat_rmap {A B : Type} (f : A -> Res (list B)) (l : list A) (ys : list (list B)) (y : B) :
  rmap f l = Ok ys ->
  (In y (concat ys) <-> exists x l', In x l /\ f x = Ok l' /\ In y l').
Proof.
  intro H. rewrite in_concat. split.
  - intros (l' & Hl' & Hy). destruct (rmap_In f l ys l' H Hl') as (x & Hx & Hf). eauto.
  - intros (x & l' & Hx & Hf & Hy). destruct (rmap_In_rev f l ys x H Hx) as (y' & Hf' & Hi).
    rewrite Hf in Hf'. injection Hf' as <-. eauto.
Qed.

Lemma in_concat_map_rmap {A B C : Type} (g : C -> list B) (f : A -> Res C) (l : list A) (ys : list C) (y : B) :
  rmap f l = Ok ys ->
  (In y (concat (map g ys)) <-> exists x p, In x l /\ f x = Ok p /\ In y (g p)).
Proof.
  intro H. rewrite in_concat. split.
  - intros (l' & Hl' & Hy). apply in_map_iff in Hl' as (p & <- & Hp).
    destruct (rmap_In f l ys p H Hp) as (x & Hx & Hf). eauto.
  - intros (x & p & Hx & Hf & Hy). destruct (rmap_In_rev f l ys x H Hx) as (p' & Hf' & Hi).
    rewrite Hf in Hf'. injection Hf' as <-. exists (g p). split; [apply in_map; exact Hi | exact Hy].
Qed.

(** C9 (amended): when the GraphRAG state has no "entities" key,
    [detect_changes] reports nothing.  Otherwise, with [sents] the
    functional requirements, non-functional requirements and units of work
    of the SSOT (the only entities it derives: contracts and extensions are
    not among them) and [idx] the indexed entities keyed by id:
    - an id is an SSOT update iff it is a key of [sents] that is absent
      from [idx] or whose [hash] differs from the indexed [metadata.hash];
    - an id is a GraphRAG update iff it is a key of [idx], not a key of
      [sents], and its entity's type is pattern, decision or lesson;
    - an id is a conflict iff it is a key of [idx], not a key of [sents],
      and its entity's type is none of these (an indexed contract or
      extension included).
    [detect_changes] writes nothing, so a second run on the same states
    reports the same updates: they are empty only if the index already
    agrees with the SSOT. *)
Theorem detect_changes_classification (digest : Value -> string)
  (ssot_state graphrag_state : list (string * Value)) (ch : Sync.Changes)
  (H : Sync.detect_changes digest ssot_state graphrag_state = Ok ch) :
  match assoc "entities" graphrag_state with
  | None => ch = Sync.mkChanges [] [] []
  | Some ges =>
      exists sents gl idx,
        Sync.extract_ssot_entities digest ssot_state = Ok sents
        /\ py_iter ges = Ok gl /\ Sync.index_by_id gl = Ok idx
        /\ (forall x, In x (Sync.ssot_updates ch) <->
              exists eid se, x = VStr eid /\ In (eid, se) sents
                /\ (vlookup (VStr eid) idx = None
                    \/ exists ge, vlookup (VStr eid) idx = Some ge
                                  /\ Sync.entities_differ se ge = Ok true))
        /\ (forall x, In x (Sync.graphrag_updates ch) <->
              exists ge ty, In (x, ge) idx /\ Sync.in_ssot x sents = false
                /\ py_get ge "type" VNull = Ok ty /\ in_strs ty derived_types = true)
        /\ (forall x, In x (Sync.conflicts ch) <->
              exists ge ty, In (x, ge) idx /\ Sync.in_ssot x sents = false
                /\ py_get ge "type" VNull = Ok ty /\ in_strs ty derived_types = false)
  end.
Proof.
  unfold Sync.detect_changes in H.
  destruct (assoc "entities" graphrag_state) as [ges|]; [|injection H as <-; reflexivity].
  unres H. injection H as <-.
  exists a, a0, a1. do 3 (split; [first [reflexivity | assumption]|]).
  split; [|split].
  - intro x. cbn [Sync.ssot_updates]. rewrite (in_concat_rmap _ _ _ x E2). split.
    + intros ([eid se] & l' & Hx & Hf & Hy).
      destruct (vlookup (VStr eid) a1) as [ge|] eqn:El.
      * destruct (Sync.entities_differ se ge) as [[|]|] eqn:Ed; cbn in Hf; try discriminate Hf;
          injection Hf as <-; [|destruct Hy].
        destruct Hy as [<-|[]]. exists eid, se. split; [reflexivity|]. split; [exact Hx|].
        right. exists ge. auto.
      * injection Hf as <-. destruct Hy as [<-|[]]. exists eid, se. auto.
    + intros (eid & se & -> & Hx & Hc). exists (eid, se), [VStr eid]. split; [exact Hx|].
      split; [|left; reflexivity]. cbn.
      destruct Hc as [-> | (ge & -> & Hd)]; [reflexivity|]. rewrite Hd. reflexivity.
  - intro x. cbn [Sync.graphrag_updates]. rewrite (in_concat_map_rmap fst _ _ _ x E3). split.
    + intros ([eid ge] & p & Hx & Hf & Hy).
      cbv beta iota in Hf. destruct (Sync.in_ssot eid a) eqn:Hs; [injection Hf as <-; destruct Hy|].
      destruct (py_get ge "type" VNull) as [ty|] eqn:Ht; cbn [rbind] in Hf; [|discriminate Hf].
      destruct (in_strs ty ["pattern"; "decision"; "lesson"]) eqn:Hi; injection Hf as <-;
        cbn in Hy; [|destruct Hy].
      destruct Hy as [<-|[]]. exists ge, ty. auto.
    + intros (ge & ty & Hx & Hs & Ht & Hi). exists (x, ge), ([x], []). split; [exact Hx|].
      split; [|left; reflexivity]. cbv beta iota. rewrite Hs, Ht. cbn [rbind].
      unfold derived_types in Hi. rewrite Hi. reflexivity.
  - intro x. cbn [Sync.conflicts]. rewrite (in_concat_map_rmap snd _ _ _ x E3). split.
    + intros ([eid ge] & p & Hx & Hf & Hy).
      cbv beta iota in Hf. destruct (Sync.in_ssot eid a) eqn:Hs; [injection Hf as <-; destruct Hy|].
      destruct (py_get ge "type" VNull) as [ty|] eqn:Ht; cbn [rbind] in Hf; [|discriminate Hf].
      destruct (in_strs ty ["pattern"; "decision"; "lesson"]) eqn:Hi; injection Hf as <-;
        cbn in Hy; [destruct Hy|].
      destruct Hy as [<-|[]]. exists ge, ty. auto.
    + intros (ge & ty & Hx & Hs & Ht & Hi). exists (x, ge), ([], [x]). split; [exact Hx|].
      split; [|left; reflexivity]. cbv beta iota. rewrite Hs, Ht. cbn [rbind].
      unfold derived_types in Hi. rewrite Hi. reflexivity.
Qed.

(** C9 (counterexample): a requirement absent from the index is reported
    by [detect_changes] on this run and on every later run, since nothing
    is written; and the contract [CTR-1], which the indexer derives from
    the SSOT, is reported as a conflict. *)
Lemma detect_changes_not_settled :
  Sync.detect_changes sample_digest sync_ssot sync_index
  = Ok (Sync.mkChanges [VStr "FR-001"] [VStr "P-1"] [VStr "CTR-1"])
  /\ match fst (Indexer.extract_entities sample_digest (VDict sync_ssot) (fun _ => 0) 0%nat) with
     | Ok es => map (fun e => py_get e "id" VNull) es = [Ok (VStr "FR-001"); Ok (VStr "CTR-1")]
     | Err _ => False
     end.
Proof. split; vm_compute; reflexivity. Qed.

Lemma detect_changes_classification_witness :
  match assoc "entities" sync_index with
  | None => Sync.mkChanges [VStr "FR-001"] [VStr "P-1"] [VStr "CTR-1"] = Sync.mkChanges [] [] []
  | Some ges =>
      exists sents gl idx,
        Sync.extract_ssot_entities sample_digest sync_ssot = Ok sents
        /\ py_iter ges = Ok gl /\ Sync.index_by_id gl = Ok idx
        /\ (forall x, In x [VStr "FR-001"] <->
              exists eid se, x = VStr eid /\ In (eid, se) sents
                /\ (vlookup (VStr eid) idx = None
                    \/ exists ge, vlookup (VStr eid) idx = Some ge
                                  /\ Sync.entities_differ se ge = Ok true))
        /\ (forall x, In x [VStr "P-1"] <->
              exists ge ty, In (x, ge) idx /\ Sync.in_ssot x sents = false
                /\ py_get ge "type" VNull = Ok ty /\ in_strs ty derived_types = true)
        /\ (forall x, In x [VStr "CTR-1"] <->
              exists ge ty, In (x, ge) idx /\ Sync.in_ssot x sents = false
                /\ py_get ge "type" VNull = Ok ty /\ in_strs ty derived_types = false)
  end.
Proof.
  apply (detect_changes_classification sample_digest sync_ssot sync_index
           (Sync.mkChanges [VStr "FR-001"] [VStr "P-1"] [VStr "CTR-1"])).
  vm_compute. reflexivity.
Defined.

(** ** Further properties of the impact analyzer, query engine and sync engine *)

(** Case split on every phase of [analyze_phases]. *)
Ltac phases_cases :=
  unfold Impact.analyze_phases; cbn [Impact.source_entity Impact.change_type];
  repeat match goal with
         | |- context [match ?x with _ => _ end] => let E := fresh "E" in destruct x eqn:E
         end.

Lemma mitigation_no_layers (r : Impact.ImpactReport) (ms : list string) :
  Impact.affected_layers r = [] -> Impact.generate_mitigation_strategies r = Ok ms ->
  ~ In "Coordinate changes across affected layers" ms.
Proof.
  unfold Impact.generate_mitigation_strategies. intros Hl H. unres H. injection H as <-.
  rewrite Hl. cbn [length Nat.ltb Nat.leb].
  repeat (rewrite in_app_iff). 
  repeat match goal with |- context [if ?b then _ else _] => destruct b end;
  cbn; intuition discriminate.
Qed.

Lemma phases_no_coordinate (a : Impact.Analyzer) (eid ct ts : string) :
  ~ In "Coordinate changes across affected layers" (Impact.mitigation_strategies
    (Impact.analyze_phases a (Impact.mkReport eid ct ts [] [] [] (VDict []) [] [] []))).
Proof.
  phases_cases; cbn; try (intros []).
  all: match goal with H : Impact.generate_mitigation_strategies _ = Ok _ |- _ =>
         apply (fun Hl => mitigation_no_layers _ _ Hl H); reflexivity end.
Qed.


(** Phase 5 of [analyze_change_impact] reads [report.affected_layers]
    before phase 6 fills it, so the layer count it tests is 0: no report ever
    carries the strategy "Coordinate changes across affected layers". *)
Theorem mitigation_never_coordinates (a : Impact.Analyzer) (entity_id change_type : string)
  (c : Clock) (n : nat) :
  match fst (Impact.analyze_change_impact a entity_id change_type c n) with
  | Ok r => ~ In "Coordinate changes across affected layers" (Impact.mitigation_strategies r)
  | Err _ => True
  end.
Proof. apply phases_no_coordinate. Qed.

Lemma indirect_severity_range (s : string) (rel : Value) :
  In (Impact.calculate_indirect_severity s rel) ["high"; "medium"; "low"].
Proof.
  unfold Impact.calculate_indirect_severity, Impact.severity_levels. cbn [assoc].
  repeat match goal with |- context [if String.eqb ?x ?y then _ else _] => destruct (String.eqb x y) end;
  cbn; auto.
Qed.

Lemma cascade_severity_range (k : nat) :
  In (Impact.calculate_cascade_severity k) ["medium"; "low"].
Proof.
  unfold Impact.calculate_cascade_severity.
  destruct (k <=? 3)%nat; [|destruct (k <=? 4)%nat]; cbn; auto.
Qed.

Lemma indirect_rels_sev (a : Impact.Analyzer) (eid : Value) (d : Impact.ImpactItem)
  (l : list Value) (acc res : list Impact.ImpactItem) :
  Forall indirect_sev acc -> Impact.indirect_rels a eid d l acc = Ok res -> Forall indirect_sev res.
Proof.
  revert acc. induction l as [|rel r IH]; intros acc Hacc H; cbn in H.
  - injection H as <-. exact Hacc.
  - unres H; try (eapply IH; [|exact H]; exact Hacc).
    eapply IH; [|exact H]. apply Forall_app. split; [exact Hacc|].
    constructor; [apply indirect_severity_range | constructor].
Qed.

Lemma indirect_sevs (a : Impact.Analyzer) (eid : string) (d i : list Impact.ImpactItem) :
  Impact.analyze_indirect_impacts a eid d = Ok i -> Forall indirect_sev i.
Proof.
  unfold Impact.analyze_indirect_impacts.
  assert (G : forall acc, (forall x, acc = Ok x -> Forall indirect_sev x) ->
              fold_left (fun acc d0 =>
                           acc <- acc ;;
                           rs <- Impact.rels a ;;
                           second_level_rels <- rfilter (Impact.second_level (VStr eid)
                                                           (Impact.entity_id d0)) rs ;;
                           Impact.indirect_rels a (VStr eid) d0 second_level_rels acc) d acc = Ok i ->
              Forall indirect_sev i).
  { induction d as [|d0 r IH]; intros acc Hacc H; cbn in H.
    - apply Hacc. exact H.
    - eapply IH; [|exact H]. intros x Hx. destruct acc as [acc|]; cbn in Hx; [|discriminate].
      unres Hx. eapply indirect_rels_sev; [|exact Hx]. apply Hacc. reflexivity. }
  apply G. intros x Hx. injection Hx as <-. constructor.
Qed.

Lemma cascade_step_sev (a : Impact.Analyzer) (cur : Value) (cpath : list Value) (l : list Value)
  (visited : list Value) (acc : list Impact.ImpactItem) (queue : list (Value * list Value))
  v' acc' q' :
  Forall cascade_sev acc ->
  Impact.cascade_step a cur cpath l visited acc queue = Ok (v', acc', q') ->
  Forall cascade_sev acc'.
Proof.
  revert visited acc queue.
  induction l as [|rel r IH]; intros visited acc queue Hacc H; cbn in H.
  - injection H as _ <- _. exact Hacc.
  - unres H; try (eapply IH; [|exact H]; exact Hacc).
    eapply IH; [|exact H]. apply Forall_app. split; [exact Hacc|].
    constructor; [apply cascade_severity_range | constructor].
Qed.

Lemma cascade_loop_sev (a : Impact.Analyzer) (rs : list Value) (fuel : nat)
  (queue : list (Value * list Value)) (visited : list Value) (acc res : list Impact.ImpactItem) :
  Forall cascade_sev acc -> Impact.cascade_loop a rs fuel queue visited acc = Ok res ->
  Forall cascade_sev res.
Proof.
  revert queue visited acc.
  induction fuel as [|fuel IH]; intros queue visited acc Hacc H; cbn [Impact.cascade_loop] in H.
  - injection H as <-. exact Hacc.
  - destruct queue as [|[cur cpath] queue']; [injection H as <-; exact Hacc|].
    destruct (length acc <? 20)%nat; [|injection H as <-; exact Hacc].
    destruct (5 <=? length cpath)%nat eqn:E5; [eapply IH; eassumption|].
    unres H. destruct a1 as [[visited' acc'] queue''].
    eapply IH; [|exact H]. eapply cascade_step_sev; eassumption.
Qed.

Lemma cascade_sevs (a : Impact.Analyzer) (eid : string) (ex cs : list Impact.ImpactItem) :
  Impact.analyze_cascade_impacts a eid ex = Ok cs -> Forall cascade_sev cs.
Proof.
  unfold Impact.analyze_cascade_impacts. intros H. unres H.
  eapply cascade_loop_sev; [|exact H]. constructor.
Qed.

Lemma phases_sevs (a : Impact.Analyzer) (eid ct ts : string) :
  let r := Impact.analyze_phases a (Impact.mkReport eid ct ts [] [] [] (VDict []) [] [] []) in
  Forall indirect_sev (Impact.indirect_impacts r) /\ Forall cascade_sev (Impact.cascade_impacts r).
Proof.
  phases_cases; cbn; split; try constructor; eauto using indirect_sevs, cascade_sevs.
Qed.


(** Indirect impacts are graded high, medium or low, and cascade impacts
    medium or low: only a direct impact can be critical. *)
Theorem later_impacts_never_critical (a : Impact.Analyzer) (entity_id change_type : string)
  (c : Clock) (n : nat) :
  match fst (Impact.analyze_change_impact a entity_id change_type c n) with
  | Ok r => Forall (fun i => In (Impact.severity i) ["high"; "medium"; "low"]) (Impact.indirect_impacts r)
            /\ Forall (fun i => In (Impact.severity i) ["medium"; "low"]) (Impact.cascade_impacts r)
  | Err _ => True
  end.
Proof. apply phases_sevs. Qed.

Lemma ForallOrdPairs_snoc {A : Type} (R : A -> A -> Prop) (l : list A) (y : A) :
  ForallOrdPairs R l -> Forall (fun x => R x y) l -> ForallOrdPairs R (l ++ [y]).
Proof.
  induction 1 as [|x l Hx Hl IH]; intros Hy; cbn.
  - constructor; constructor.
  - inversion Hy; subst. constructor.
    + apply Forall_app. split; [exact Hx | constructor; [assumption | constructor]].
    + apply IH. assumption.
Qed.

Lemma vset_add_incl (k : Value) (s s' : list Value) : vset_add k s = Ok s' -> incl s s'.
Proof.
  unfold vset_add. destruct (hashable k); [|discriminate]. intros H; injection H as <-.
  destruct (existsb (py_eq k) s); [apply incl_refl | apply incl_appl, incl_refl].
Qed.

Lemma existsb_false_forall {A : Type} (f : A -> bool) (l : list A) (x : A) :
  existsb f l = false -> In x l -> f x = false.
Proof.
  intros H Hx. destruct (f x) eqn:Ef; [|reflexivity].
  assert (existsb f l = true) by (apply existsb_exists; exists x; auto). congruence.
Qed.

Lemma vset_fresh (k : Value) (s s' : list Value) :
  vset_mem k s = Ok false -> vset_add k s = Ok s' ->
  s' = (s ++ [k])%list /\ (forall x, In x s -> py_eq k x = false).
Proof.
  unfold vset_mem, vset_add. destruct (hashable k); [|discriminate].
  intros H1 H2. injection H1 as H1. rewrite H1 in H2. injection H2 as <-.
  split; [reflexivity|]. intros x Hx. exact (existsb_false_forall _ _ _ H1 Hx).
Qed.

Lemma cascade_inv_grow (eid k : Value) (visited : list Value) (acc : list Impact.ImpactItem) :
  cascade_inv eid visited acc -> cascade_inv eid (visited ++ [k])%list acc.
Proof.
  intros (H1 & H2 & H3 & H4). repeat split; [apply in_or_app; left; exact H1| |exact H3|exact H4].
  eapply Forall_impl; [|exact H2]. intros i Hi. apply in_or_app. left. exact Hi.
Qed.

Lemma cascade_step_inv (a : Impact.Analyzer) (eid cur : Value) (cpath : list Value) (l : list Value)
  (visited : list Value) (acc : list Impact.ImpactItem) (queue : list (Value * list Value))
  v' acc' q' :
  cascade_inv eid visited acc ->
  Impact.cascade_step a cur cpath l visited acc queue = Ok (v', acc', q') ->
  cascade_inv eid v' acc'.
Proof.
  revert visited acc queue.
  induction l as [|rel r IH]; intros visited acc queue Hinv H; cbn in H.
  - injection H as <- <- _. exact Hinv.
  - unres H; try (eapply IH; [|exact H]; exact Hinv).
    all: subst; destruct (vset_fresh _ _ _ E0 E2) as [-> Hfresh];
         eapply IH; [|exact H]; try (apply cascade_inv_grow; exact Hinv).
    destruct Hinv as (H1 & H2 & H3 & H4). repeat split.
    + apply in_or_app. left. exact H1.
    + apply Forall_app. split.
      * eapply Forall_impl; [|exact H2]. intros i Hi. apply in_or_app. left. exact Hi.
      * constructor; [cbn; apply in_or_app; right; left; reflexivity | constructor].
    + apply Forall_app. split; [exact H3|]. constructor; [cbn; apply Hfresh; exact H1 | constructor].
    + apply ForallOrdPairs_snoc; [exact H4|].
      eapply Forall_impl; [|exact H2]. intros i Hi. cbn. apply Hfresh. exact Hi.
Qed.

Lemma cascade_loop_inv (a : Impact.Analyzer) (eid : Value) (rs : list Value) (fuel : nat)
  (queue : list (Value * list Value)) (visited : list Value) (acc res : list Impact.ImpactItem) :
  cascade_inv eid visited acc -> Impact.cascade_loop a rs fuel queue visited acc = Ok res ->
  exists visited', cascade_inv eid visited' res.
Proof.
  revert queue visited acc.
  induction fuel as [|fuel IH]; intros queue visited acc Hacc H; cbn [Impact.cascade_loop] in H.
  - injection H as <-. eauto.
  - destruct queue as [|[cur cpath] queue']; [injection H as <-; eauto|].
    destruct (length acc <? 20)%nat; [|injection H as <-; eauto].
    destruct (5 <=? length cpath)%nat eqn:E5; [eapply IH; eassumption|].
    unres H. destruct a1 as [[visited' acc'] queue''].
    eapply IH; [|exact H]. eapply cascade_step_inv; eassumption.
Qed.

Lemma fold_vset_add_incl (ex : list Impact.ImpactItem) (acc : Res (list Value)) (s0 v : list Value) :
  acc = Ok s0 ->
  fold_left (fun acc i => acc <- acc ;; vset_add (Impact.entity_id i) acc) ex acc = Ok v ->
  incl s0 v.
Proof.
  revert acc s0. induction ex as [|i r IH]; intros acc s0 Hacc H; cbn in H.
  - subst. injection H as <-. apply incl_refl.
  - subst. cbn in H. destruct (vset_add (Impact.entity_id i) s0) as [s1|e] eqn:E.
    + eapply incl_tran; [eapply vset_add_incl; exact E|]. eapply IH; [reflexivity|exact H].
    + exfalso. clear -H. induction r; cbn in H; [discriminate|exact (IHr H)].
Qed.

Lemma cascade_distinct (a : Impact.Analyzer) (eid : string) (ex cs : list Impact.ImpactItem) :
  Impact.analyze_cascade_impacts a eid ex = Ok cs ->
  Forall (fun i => py_eq (Impact.entity_id i) (VStr eid) = false) cs /\
  ForallOrdPairs (fun x y => py_eq (Impact.entity_id y) (Impact.entity_id x) = false) cs.
Proof.
  unfold Impact.analyze_cascade_impacts. intros H. unres H.
  edestruct cascade_loop_inv as (v' & _ & _ & H3 & H4); [|exact H|split; eassumption].
  repeat split; try constructor.
  eapply fold_vset_add_incl; [reflexivity | exact E | left; reflexivity].
Qed.

Lemma phases_cascade_distinct (a : Impact.Analyzer) (eid ct ts : string) :
  let r := Impact.analyze_phases a (Impact.mkReport eid ct ts [] [] [] (VDict []) [] [] []) in
  Forall (fun i => py_eq (Impact.entity_id i) (VStr eid) = false) (Impact.cascade_impacts r) /\
  ForallOrdPairs (fun x y => py_eq (Impact.entity_id y) (Impact.entity_id x) = false)
                 (Impact.cascade_impacts r).
Proof.
  phases_cases; cbn; try (split; constructor); eauto using cascade_distinct.
Qed.


(** The cascade impacts of a report never name the changed entity, and no
    entity occurs twice among them. *)
Theorem cascade_ids_fresh (a : Impact.Analyzer) (entity_id change_type : string)
  (c : Clock) (n : nat) :
  match fst (Impact.analyze_change_impact a entity_id change_type c n) with
  | Ok r => Forall (fun i => py_eq (Impact.entity_id i) (VStr entity_id) = false) (Impact.cascade_impacts r) /\
            ForallOrdPairs (fun x y => py_eq (Impact.entity_id y) (Impact.entity_id x) = false)
                           (Impact.cascade_impacts r)
  | Err _ => True
  end.
Proof. apply phases_cascade_distinct. Qed.

Lemma Qle_bool_false (x y : Q) : Qle_bool x y = false -> (y <= x)%Q.
Proof.
  intros H. apply Qlt_le_weak. apply Qnot_le_lt. intros Hle.
  apply Qle_bool_iff in Hle. congruence.
Qed.

Lemma insert_desc_hd {A : Type} (key : A -> Q) (a : Q) (x : A) (l : list A) :
  HdRel (fun s t => (t <= s)%Q) a (map key l) -> (key x <= a)%Q ->
  HdRel (fun s t => (t <= s)%Q) a (map key (insert_desc key x l)).
Proof.
  destruct l as [|y l]; cbn; intros H Hx.
  - constructor. exact Hx.
  - inversion H; subst. destruct (Qle_bool (key x) (key y)); cbn; constructor; assumption.
Qed.

Lemma insert_desc_sorted {A : Type} (key : A -> Q) (x : A) (l : list A) :
  Sorted (fun s t => (t <= s)%Q) (map key l) ->
  Sorted (fun s t => (t <= s)%Q) (map key (insert_desc key x l)).
Proof.
  induction l as [|y l IH]; cbn; intros H.
  - repeat constructor.
  - destruct (Qle_bool (key x) (key y)) eqn:E.
    + cbn. inversion H; subst. constructor; [apply IH; assumption|].
      apply insert_desc_hd; [assumption|]. apply Qle_bool_iff. exact E.
    + cbn. constructor; [exact H|]. constructor. apply Qle_bool_false. exact E.
Qed.

Lemma sort_desc_sorted {A : Type} (key : A -> Q) (l : list A) :
  Sorted (fun s t => (t <= s)%Q) (map key (sort_desc key l)).
Proof.
  unfold sort_desc.
  assert (G : forall acc, Sorted (fun s t => (t <= s)%Q) (map key acc) ->
              Sorted (fun s t => (t <= s)%Q) (map key (fold_left (fun acc x => insert_desc key x acc) l acc))).
  { induction l as [|x l IH]; intros acc H; cbn; [exact H|]. apply IH. apply insert_desc_sorted. exact H. }
  apply G. constructor.
Qed.

Lemma py_min_le_l (x y : Q) : (Impact.py_min x y <= x)%Q.
Proof. unfold Impact.py_min. destruct (Qle_bool x y) eqn:E; [apply Qle_refl|]. apply Qle_bool_false. exact E. Qed.

Lemma py_min_le_r (x y : Q) : (Impact.py_min x y <= y)%Q.
Proof. unfold Impact.py_min. destruct (Qle_bool x y) eqn:E; [apply Qle_bool_iff; exact E|apply Qle_refl]. Qed.

Lemma py_eq_str (v : Value) (s : string) : py_eq v (VStr s) = true -> v = VStr s.
Proof. destruct v; cbn; try discriminate. intros H. apply String.eqb_eq in H. subst. reflexivity. Qed.

Lemma nat_Q_le (n : nat) (k : Z) : (Z.of_nat n <= k)%Z -> (inject_Z (Z.of_nat n) <= inject_Z k)%Q.
Proof. intros H. rewrite <- Zle_Qle. exact H. Qed.

Lemma nat_Q_nonneg (n : nat) : (0 <= inject_Z (Z.of_nat n))%Q.
Proof. change 0%Q with (inject_Z 0). rewrite <- Zle_Qle. lia. Qed.

Lemma critical_entry_ok (rs : list Value) (e : Value) (ps : list (Q * Value)) :
  Impact.critical_entry rs e = Ok ps -> Forall critical_ok ps.
Proof.
  unfold Impact.critical_entry. intros H. unres H; [|injection H as <-; constructor].
  injection H as <-. constructor; [|constructor].
  unfold Impact.calculate_criticality_score in E2.
  destruct (py_get e "type" (VStr "unknown")) as [ty|] eqn:Ety; cbn [rbind] in E2; [|discriminate].
  injection E2 as <-.
  apply Qle_bool_iff in E3.
  set (nin := length a0) in *. set (nout := length a1) in *.
  assert (Hm1 := py_min_le_l (inject_Z (Z.of_nat nin) * (1 # 10)) (4 # 10)).
  assert (Hm2 := py_min_le_r (inject_Z (Z.of_nat nout) * (5 # 100)) (2 # 10)).
  set (m1 := Impact.py_min (inject_Z (Z.of_nat nin) * (1 # 10)) (4 # 10)) in *.
  set (m2 := Impact.py_min (inject_Z (Z.of_nat nout) * (5 # 100)) (2 # 10)) in *.
  match type of E3 with (_ <= Impact.py_min ?sc _)%Q =>
    assert (Hs := py_min_le_l sc 1); assert (Hs1 := py_min_le_r sc 1) end.
  unfold critical_ok. cbn [fst snd]. do 5 eexists. split; [reflexivity|]. split; [split; lra|].
  split; [exact Ety|].
  assert (Hlt : forall k : Z, (Z.of_nat nin < k)%Z -> (inject_Z (Z.of_nat nin) <= inject_Z (k - 1))%Q)
    by (intros k Hk; apply nat_Q_le; lia).
  destruct (py_eq ty (VStr "functional_requirement")) eqn:T1;
  [|destruct (py_eq ty (VStr "contract")) eqn:T2;
    [|destruct (py_eq ty (VStr "unit_of_work")) eqn:T3]].
  - left. split; [apply py_eq_str; exact T1|].
    destruct (Z.lt_ge_cases (Z.of_nat nin) 1) as [Hk|Hk]; [|exact Hk].
    exfalso. apply Hlt in Hk. cbn in Hk. unfold inject_Z at 2 in Hk. rewrite ?T1, ?T2, ?T3 in Hs, E3. lra.
  - right; left. split; [apply py_eq_str; exact T2|].
    destruct (Z.lt_ge_cases (Z.of_nat nin) 2) as [Hk|Hk]; [|exact Hk].
    exfalso. apply Hlt in Hk. cbn in Hk. unfold inject_Z at 2 in Hk. rewrite ?T1, ?T2, ?T3 in Hs, E3. lra.
  - right; right. split; [apply py_eq_str; exact T3|].
    destruct (Z.lt_ge_cases (Z.of_nat nin) 3) as [Hk|Hk]; [|exact Hk].
    exfalso. apply Hlt in Hk. cbn in Hk. unfold inject_Z at 2 in Hk. rewrite ?T1, ?T2, ?T3 in Hs, E3. lra.
  - exfalso. rewrite ?T1, ?T2, ?T3 in Hs, E3. assert (Hm1r := py_min_le_r (inject_Z (Z.of_nat nin) * (1 # 10)) (4 # 10)). fold m1 in Hm1r. lra.
Qed.

Lemma Forall2_fst_snd {A B : Type} (R : A -> B -> Prop) (l : list (A * B)) :
  Forall (fun p => R (fst p) (snd p)) l -> Forall2 R (map fst l) (map snd l).
Proof. induction 1; cbn; constructor; assumption. Qed.

Lemma critical_entries (a : Impact.Analyzer) (l : list Value) :
  Impact.find_critical_dependencies a = Ok l ->
  exists ps, l = map snd ps /\ Forall critical_ok ps /\
             Sorted (fun s t => (t <= s)%Q) (map fst ps).
Proof.
  unfold Impact.find_critical_dependencies. intros H. unres H. injection H as <-.
  eexists. split; [reflexivity|]. split; [|apply sort_desc_sorted].
  apply Forall_forall. intros p Hp. apply In_sort_desc in Hp. revert p Hp. apply Forall_forall.
  apply Forall_concat'. eapply rmap_Forall; [|exact E].
  intros e ps _ He. cbv beta in He. unres He. eapply critical_entry_ok. exact He.
Qed.


(** [find_critical_dependencies] returns entries whose criticality scores lie
    in [0.7, 1] and are sorted in descending order. *)
Theorem critical_dependencies_ranked (a : Impact.Analyzer) (l : list Value) :
  Impact.find_critical_dependencies a = Ok l ->
  exists scores : list Q,
    Forall2 (fun s v => py_get v "criticality_score" VNull = Ok (VFloat s)) scores l /\
    Forall (fun s => (7 # 10 <= s <= 1)%Q) scores /\
    Sorted (fun s t => (t <= s)%Q) scores.
Proof.
  intros H. destruct (critical_entries a l H) as (ps & -> & Hok & Hs).
  exists (map fst ps). split; [|split; [|exact Hs]].
  - apply Forall2_fst_snd. eapply Forall_impl; [|exact Hok].
    intros p (e & nin & nout & rf & ty & Hp & _). rewrite Hp. reflexivity.
  - apply Forall_map. eapply Forall_impl; [|exact Hok].
    intros p (e & nin & nout & rf & ty & _ & Hb & _). exact Hb.
Qed.


(** Every entry of [find_critical_dependencies] has the shape
    {entity, criticality_score, incoming_dependencies, outgoing_dependencies,
    risk_factors}, and its entity is a functional requirement with at least
    one incoming relationship, a contract with at least two, or a unit of
    work with at least three. *)
Theorem critical_dependencies_justified (a : Impact.Analyzer) (l : list Value) :
  Impact.find_critical_dependencies a = Ok l ->
  Forall (fun v => exists e s nin nout rf ty,
            v = VDict [("entity", e); ("criticality_score", VFloat s);
                       ("incoming_dependencies", VInt nin); ("outgoing_dependencies", VInt nout);
                       ("risk_factors", rf)] /\
            py_get e "type" (VStr "unknown") = Ok ty /\
            ((ty = VStr "functional_requirement" /\ 1 <= nin) \/
             (ty = VStr "contract" /\ 2 <= nin) \/
             (ty = VStr "unit_of_work" /\ 3 <= nin))) l.
Proof.
  intros H. destruct (critical_entries a l H) as (ps & -> & Hok & _).
  apply Forall_map. eapply Forall_impl; [|exact Hok].
  intros p (e & nin & nout & rf & ty & Hp & _ & Hty & Hc).
  exists e, (fst p), nin, nout, rf, ty. auto.
Qed.

Lemma critical_dependencies_ranked_witness :
  exists l, Impact.find_critical_dependencies critical_fixture = Ok l /\
    exists scores : list Q,
      Forall2 (fun s v => py_get v "criticality_score" VNull = Ok (VFloat s)) scores l /\
      Forall (fun s => (7 # 10 <= s <= 1)%Q) scores /\
      Sorted (fun s t => (t <= s)%Q) scores.
Proof.
  eexists. split; [vm_compute; reflexivity|].
  apply (critical_dependencies_ranked critical_fixture). vm_compute. reflexivity.
Defined.

Lemma critical_dependencies_justified_witness :
  exists l, Impact.find_critical_dependencies critical_fixture = Ok l /\ l <> [] /\
    Forall (fun v => exists e s nin nout rf ty,
              v = VDict [("entity", e); ("criticality_score", VFloat s);
                         ("incoming_dependencies", VInt nin); ("outgoing_dependencies", VInt nout);
                         ("risk_factors", rf)] /\
              py_get e "type" (VStr "unknown") = Ok ty /\
              ((ty = VStr "functional_requirement" /\ 1 <= nin) \/
               (ty = VStr "contract" /\ 2 <= nin) \/
               (ty = VStr "unit_of_work" /\ 3 <= nin))) l.
Proof.
  eexists. split; [vm_compute; reflexivity|]. split; [discriminate|].
  apply (critical_dependencies_justified critical_fixture). vm_compute. reflexivity.
Defined.

(** [generate_impact_matrix ids] has one row per id (keys without
    duplicates).  The row of [s] has one column per other id, never [s] itself,
    and every level is high, medium, low or none. *)
Theorem impact_matrix_complete (a : Impact.Analyzer) (ids : list string)
  (m : list (string * list (string * string))) :
  Impact.generate_impact_matrix a ids = Ok m ->
  NoDup (map fst m) /\ (forall s, In s (map fst m) <-> In s ids) /\
  Forall (fun p => NoDup (map fst (snd p)) /\
                   (forall t, In t (map fst (snd p)) <-> In t ids /\ t <> fst p) /\
                   Forall (fun q => In (snd q) ["high"; "medium"; "low"; "none"]) (snd p)) m.
Proof.
  unfold Impact.generate_impact_matrix. intros H.
  destruct (matrix_rows a ids ids [] m (incl_refl _) H (NoDup_nil _) (Forall_nil _))
    as (H1 & H2 & H3).
  split; [exact H1|]. split.
  - intros s. split; [|intros Hs; apply H3; right; exact Hs].
    intros Hs. apply in_map_iff in Hs as ([s' row] & <- & Hin).
    eapply Forall_forall in H2; [|exact Hin]. apply H2.
  - eapply Forall_impl; [|exact H2]. intros [s row] (Hs & Hn & Hr & Hc). cbn in *.
    split; [exact Hn|]. split.
    + intros t. split; [|intros [Ht Hts]; apply Hc; assumption].
      intros Ht. apply in_map_iff in Ht as ([t' l] & <- & Hin).
      eapply Forall_forall in Hr; [|exact Hin]. destruct Hr as (A & B & _). auto.
    + eapply Forall_impl; [|exact Hr]. intros q (_ & _ & Hq). exact Hq.
Qed.

Lemma impact_matrix_complete_witness :
  exists m, Impact.generate_impact_matrix critical_fixture ["FR-1"; "U1"; "U2"] = Ok m /\
  NoDup (map fst m) /\ (forall s, In s (map fst m) <-> In s ["FR-1"; "U1"; "U2"]) /\
  Forall (fun p => NoDup (map fst (snd p)) /\
                   (forall t, In t (map fst (snd p)) <-> In t ["FR-1"; "U1"; "U2"] /\ t <> fst p) /\
                   Forall (fun q => In (snd q) ["high"; "medium"; "low"; "none"]) (snd p)) m.
Proof.
  eexists. split; [vm_compute; reflexivity|].
  apply (impact_matrix_complete critical_fixture ["FR-1"; "U1"; "U2"]). vm_compute. reflexivity.
Defined.

Lemma chain_snoc {A : Type} (R : A -> A -> Prop) (p : list A) (d y : A) :
  p <> [] -> chain R p -> R (last p d) y -> chain R (p ++ [y])%list.
Proof.
  induction p as [|x p IH]; intros Hp Hc Hr; [congruence|].
  destruct p as [|x' p]; cbn in *; [auto|].
  destruct Hc as [Hxy Hc]. split; [exact Hxy|]. apply IH; [discriminate|exact Hc|exact Hr].
Qed.

Lemma last_snoc {A : Type} (p : list A) (y d : A) : last (p ++ [y])%list d = y.
Proof. induction p as [|x p IH]; [reflexivity|]. cbn. destruct (p ++ [y])%list eqn:E; [destruct p; discriminate|exact IH]. Qed.

Lemma hd_snoc {A : Type} (p : list A) (y x : A) : hd_error p = Some x -> hd_error (p ++ [y])%list = Some x.
Proof. destruct p; cbn; [discriminate|auto]. Qed.

Lemma bfs_expand_ok (rs : list Value) (s t cur : Value) (p : list Value) (connected : list Value) :
  Impact.connected_of cur rs = Ok connected -> bfs_entry rs s (cur, p) ->
  forall l visited queue res, incl l connected -> Forall (bfs_entry rs s) queue ->
  Impact.bfs_expand t p l visited queue = Ok res ->
  match res with
  | (Some found, _, _) => hd_error found = Some s /\ last found s = t /\ chain (linked rs) found
  | (None, _, q) => Forall (bfs_entry rs s) q
  end.
Proof.
  intros Hc (Hh & Hl & Hch). cbn [fst snd] in Hh, Hl, Hch. induction l as [|nxt l IH]; intros visited queue res Hincl Hq H; cbn in H.
  - injection H as <-. exact Hq.
  - assert (Hp : p <> []) by (destruct p; discriminate).
    destruct (py_eq nxt t) eqn:Et.
    + injection H as <-. split; [apply hd_snoc; exact Hh|]. split; [apply last_snoc|].
      apply (chain_snoc _ _ s); [exact Hp|exact Hch|]. rewrite Hl.
      exists connected, nxt. split; [exact Hc|]. split; [apply Hincl; left; reflexivity|right; exact Et].
    + unres H.
      * eapply IH; [| |exact H]; [intros z Hz; apply Hincl; right; exact Hz|exact Hq].
      * eapply IH; [| |exact H]; [intros z Hz; apply Hincl; right; exact Hz|].
        apply Forall_app. split; [exact Hq|]. constructor; [|constructor].
        split; [apply hd_snoc; exact Hh|]. split; [apply last_snoc|].
        apply (chain_snoc _ _ s); [exact Hp|exact Hch|]. rewrite Hl.
        exists connected, nxt. split; [exact Hc|]. split; [apply Hincl; left; reflexivity|left; reflexivity].
Qed.

Lemma bfs_loop_ok (rs : list Value) (s t : Value) :
  forall fuel queue visited found, Forall (bfs_entry rs s) queue ->
  Impact.bfs_loop rs t fuel queue visited = Ok (Some found) ->
  hd_error found = Some s /\ last found s = t /\ chain (linked rs) found.
Proof.
  induction fuel as [|fuel IH]; intros queue visited found Hq H; cbn in H; [discriminate|].
  destruct queue as [|[cur p] queue']; [discriminate|].
  inversion Hq as [|? ? He Hq']; subst.
  unres H. destruct a0 as [[[f|] v'] q''].
  - injection H as <-.
    exact (bfs_expand_ok rs s t cur p a E He a visited queue' _ (incl_refl _) Hq' E0).
  - eapply IH; [|exact H].
    exact (bfs_expand_ok rs s t cur p a E He a visited queue' _ (incl_refl _) Hq' E0).
Qed.


(** A path returned by [_find_shortest_path] starts at the source and ends
    at the target (or is the source alone when source equals target).  Each
    pair of consecutive entities is joined by a relationship, in either
    direction. *)
Theorem shortest_path_sound (a : Impact.Analyzer) (source target : Value) (p : list Value) :
  Impact.find_shortest_path a source target = Ok (Some p) ->
  hd_error p = Some source /\
  ((p = [source] /\ py_eq source target = true) \/ last p source = target) /\
  (forall rs, Impact.rels a = Ok rs -> chain (linked rs) p).
Proof.
  unfold Impact.find_shortest_path. destruct (py_eq source target) eqn:Est.
  - intros H. injection H as <-. split; [reflexivity|]. split; [left; auto|]. intros rs _. exact I.
  - intros H. unres H.
    assert (Hq : Forall (bfs_entry a0 source) [(source, [source])])
      by (repeat constructor).
    destruct (bfs_loop_ok a0 source target _ _ _ _ Hq H) as (H1 & H2 & H3).
    split; [exact H1|]. split; [right; exact H2|]. intros rs Hrs. assert (rs = a0) by congruence. subst. exact H3.
Qed.

Lemma shortest_path_sound_witness :
  exists p, Impact.find_shortest_path critical_fixture (VStr "U3") (VStr "U1") = Ok (Some p) /\
  length p = 3%nat /\
  hd_error p = Some (VStr "U3") /\
  ((p = [VStr "U3"] /\ py_eq (VStr "U3") (VStr "U1") = true) \/ last p (VStr "U3") = VStr "U1") /\
  (forall rs, Impact.rels critical_fixture = Ok rs -> chain (linked rs) p).
Proof.
  eexists. split; [vm_compute; reflexivity|]. split; [reflexivity|].
  apply (shortest_path_sound critical_fixture (VStr "U3") (VStr "U1")). vm_compute. reflexivity.
Defined.

Lemma append_loop_Forall (f : Value -> Res (list Value)) (P : Value -> Prop) (l acc : list Value) :
  (forall x ys, In x l -> f x = Ok ys -> Forall P ys) -> Forall P acc ->
  Forall P (fst (Impact.append_loop f l acc)).
Proof.
  revert acc. induction l as [|x r IH]; intros acc Hf Hacc; cbn; [exact Hacc|].
  destruct (f x) as [ys|e] eqn:E; cbn; [|exact Hacc].
  apply IH; [intros; eapply Hf; [right|]; eassumption|].
  apply Forall_app. split; [exact Hacc|]. eapply Hf; [left; reflexivity|exact E].
Qed.

Lemma rfilter_nil {A : Type} (p : A -> Res bool) (l : list A) :
  rfilter p l = Ok [] -> forall x, In x l -> p x = Ok false.
Proof.
  induction l as [|y r IH]; intros H x Hx; [destruct Hx|]. cbn in H. unres H.
  destruct a; [discriminate|]. injection H as ->.
  destruct Hx as [<-|Hx]; [exact E|]. apply IH; [reflexivity|exact Hx].
Qed.

Lemma dependents_ok (eid : Value) (related : list Value) (ds : list (list Value)) :
  rmap (Impact.dependent_of eid) related = Ok ds ->
  Forall (fun d => exists r ty t, In r related /\ py_get r "type" VNull = Ok ty /\
                     py_eq ty (VStr "depends_on") = true /\ py_get r "target" VNull = Ok t /\
                     py_eq t eid = true /\ py_get r "source" VNull = Ok d) (concat ds).
Proof.
  intros H. apply Forall_concat'. eapply rmap_Forall; [|exact H].
  intros r ys Hr Hy. unfold Impact.dependent_of in Hy. unres Hy; injection Hy as <-; repeat constructor.
  exists r, a, a0. auto 7.
Qed.

Lemma cascade_of_ok (a : Impact.Analyzer) (rs : list Value) (eid dep : Value) (ys : list Value) :
  Impact.rels a = Ok rs -> Impact.cascade_of rs eid dep = Ok ys ->
  Forall (fun d => d = dep /\
     (forall rs', Impact.rels a = Ok rs' -> forall r src ty t, In r rs' ->
       py_get r "source" VNull = Ok src -> py_eq src d = true ->
       py_get r "type" VNull = Ok ty -> py_eq ty (VStr "depends_on") = true ->
       py_get r "target" VNull = Ok t -> py_eq t eid = true)) ys.
Proof.
  intros Hrs H. unfold Impact.cascade_of in H. unres H. injection H as <-.
  destruct a0 as [|x l]; [|constructor]. constructor; [|constructor]. split; [reflexivity|].
  intros rs' Hrs' r src ty t Hr Hs Hsd Hty Htyd Ht.
  assert (rs' = rs) by congruence. subst rs'.
  pose proof (rfilter_nil _ _ E r Hr) as Hp. cbv beta in Hp.
  rewrite Hs in Hp. cbn [rbind] in Hp. rewrite Hsd, Hty in Hp. cbn [rbind] in Hp.
  rewrite Htyd, Ht in Hp. cbn [rbind] in Hp. injection Hp as Hp.
  destruct (py_eq t eid); [reflexivity|discriminate].
Qed.

Lemma removal_phases_cascade (a : Impact.Analyzer) (eid ts : string) :
  let s := Impact.removal_phases a eid ts in
  Forall (justified_removal a (VStr eid) (Impact.broken_relationships s)) (Impact.cascade_removals s).
Proof.
  unfold Impact.removal_phases.
  destruct (Impact.rels a) as [rs|e] eqn:Hrs; [|constructor].
  destruct (rfilter _ rs) as [related|e] eqn:Hrel; [|constructor].
  destruct (Impact.append_loop (Impact.orphan_of a (VStr eid)) related []) as [orph [e|]];
    [constructor|].
  destruct (rmap (Impact.dependent_of (VStr eid)) related) as [ds|e] eqn:Hds; [|constructor].
  assert (G : Forall (justified_removal a (VStr eid) related)
                (fst (Impact.append_loop (Impact.cascade_of rs (VStr eid)) (concat ds) []))).
  { apply append_loop_Forall; [|constructor].
    intros dep ys Hdep Hys. pose proof (cascade_of_ok a rs _ dep ys Hrs Hys) as Hc.
    pose proof (dependents_ok _ _ _ Hds) as Hd. rewrite Forall_forall in Hd.
    eapply Forall_impl; [|exact Hc]. intros d [-> Hno]. split; [apply Hd; exact Hdep|exact Hno]. }
  destruct (Impact.append_loop (Impact.cascade_of rs (VStr eid)) (concat ds) []) as [casc [e|]];
    [exact G|].
  destruct (Impact.append_loop (Impact.contract_of (VStr eid)) (Impact.entities a) []) as [ctr [e|]];
    exact G.
Qed.


(** [simulate_entity_removal] always returns a simulation.  Each entity in its
    cascade removals depends on the removed entity through one of the broken
    relationships, and all its [depends_on] relationships target the removed
    entity. *)
Theorem removal_cascade_justified (a : Impact.Analyzer) (entity_id : string) (c : Clock) (n : nat) :
  exists s, fst (Impact.simulate_entity_removal a entity_id c n) = Ok s /\
  Forall (fun d =>
    (exists r ty t, In r (Impact.broken_relationships s) /\
       py_get r "type" VNull = Ok ty /\ py_eq ty (VStr "depends_on") = true /\
       py_get r "target" VNull = Ok t /\ py_eq t (VStr entity_id) = true /\
       py_get r "source" VNull = Ok d) /\
    (forall rs, Impact.rels a = Ok rs -> forall r src ty t, In r rs ->
       py_get r "source" VNull = Ok src -> py_eq src d = true ->
       py_get r "type" VNull = Ok ty -> py_eq ty (VStr "depends_on") = true ->
       py_get r "target" VNull = Ok t -> py_eq t (VStr entity_id) = true))
    (Impact.cascade_removals s).
Proof.
  eexists. split; [reflexivity|]. apply removal_phases_cascade.
Qed.

Lemma removal_phases_plan (a : Impact.Analyzer) (eid ts : string) :
  let s := Impact.removal_phases a eid ts in
  (Impact.error s = None /\ exists pre, Impact.recovery_plan s = (pre ++ final_steps)%list) \/
  (exists e, Impact.error s = Some e /\ Impact.recovery_plan s = []).
Proof.
  unfold Impact.removal_phases.
  repeat match goal with
         | |- context [match ?x with _ => _ end] => let E := fresh "E" in destruct x eqn:E
         end; cbn; eauto.
  left. split; [reflexivity|]. unfold Impact.generate_recovery_plan. cbn.
  rewrite !app_assoc. eexists. reflexivity.
Qed.


(** A simulation of [simulate_entity_removal] either has no error and a
    recovery plan ending in the two fixed steps (documentation update, full
    verification), or carries an error and an empty recovery plan. *)
Theorem removal_plan_iff_success (a : Impact.Analyzer) (entity_id : string) (c : Clock) (n : nat) :
  exists s, fst (Impact.simulate_entity_removal a entity_id c n) = Ok s /\
  ((Impact.error s = None /\
    exists pre, Impact.recovery_plan s =
                (pre ++ ["Update documentation and traceability matrix";
                         "Run full SSOT verification after changes"])%list) \/
   (exists e, Impact.error s = Some e /\ Impact.recovery_plan s = [])).
Proof.
  eexists. split; [reflexivity|]. apply removal_phases_plan.
Qed.

Lemma append_loop_nil (f : Value -> Res (list Value)) (l acc : list Value) :
  Forall (fun x => f x = Ok []) l -> Impact.append_loop f l acc = (acc, None).
Proof.
  revert acc. induction l as [|x r IH]; intros acc H; cbn; [reflexivity|].
  inversion H; subst. rewrite H2. rewrite app_nil_r. apply IH. exact H3.
Qed.

Lemma rfilter_none {A : Type} (p : A -> Res bool) (l : list A) :
  Forall (fun x => p x = Ok false) l -> rfilter p l = Ok [].
Proof. induction 1 as [|x r Hx _ IH]; cbn; [reflexivity|]. rewrite Hx, IH. reflexivity. Qed.


(** Removing an entity that no relationship touches and no contract applies
    to breaks nothing: every list of the simulation is empty, there is no
    error, and the recovery plan is just the two fixed steps. *)
Theorem removal_of_isolated (a : Impact.Analyzer) (entity_id : string) (rs : list Value)
  (c : Clock) (n : nat) :
  Impact.rels a = Ok rs ->
  Forall (fun r => Impact.touches r (VStr entity_id) = Ok false) rs ->
  Forall (fun e => Impact.contract_of (VStr entity_id) e = Ok []) (Impact.entities a) ->
  exists s, fst (Impact.simulate_entity_removal a entity_id c n) = Ok s /\
  Impact.broken_relationships s = [] /\ Impact.orphaned_entities s = [] /\
  Impact.cascade_removals s = [] /\ Impact.affected_contracts s = [] /\
  Impact.error s = None /\
  Impact.recovery_plan s = ["Update documentation and traceability matrix";
                            "Run full SSOT verification after changes"].
Proof.
  intros Hrs Hno Hc. eexists. split; [reflexivity|].
  unfold Impact.removal_phases. rewrite Hrs, (rfilter_none _ _ Hno). cbn.
  rewrite (append_loop_nil _ _ _ Hc). cbn. auto 7.
Qed.

Lemma removal_of_isolated_witness :
  (exists rs, Impact.rels iso_fixture = Ok rs /\
   Forall (fun r => Impact.touches r (VStr "FR-2") = Ok false) rs) /\
  Forall (fun e => Impact.contract_of (VStr "FR-2") e = Ok []) (Impact.entities iso_fixture) /\
  exists s, fst (Impact.simulate_entity_removal iso_fixture "FR-2" (fun _ => 0) O) = Ok s /\
  Impact.broken_relationships s = [] /\ Impact.orphaned_entities s = [] /\
  Impact.cascade_removals s = [] /\ Impact.affected_contracts s = [] /\
  Impact.error s = None /\
  Impact.recovery_plan s = ["Update documentation and traceability matrix";
                            "Run full SSOT verification after changes"].
Proof.
  assert (Hr : Impact.rels iso_fixture = Ok [rel "U1" "FR-1" "implements"]) by (vm_compute; reflexivity).
  assert (Ht : Forall (fun r => Impact.touches r (VStr "FR-2") = Ok false) [rel "U1" "FR-1" "implements"])
    by (repeat constructor).
  assert (Hc : Forall (fun e => Impact.contract_of (VStr "FR-2") e = Ok []) (Impact.entities iso_fixture))
    by (repeat constructor).
  split; [exists [rel "U1" "FR-1" "implements"]; split; assumption|].
  split; [exact Hc|].
  exact (removal_of_isolated iso_fixture "FR-2" _ (fun _ => 0) O Hr Ht Hc).
Defined.

Lemma resolve_conflicts_manual (cs : list Value) :
  Sync.resolve_conflicts cs = map manual_review cs.
Proof.
  unfold Sync.resolve_conflicts.
  induction cs as [|c cs IH]; [reflexivity|].
  change (manual_review c :: flat_map (fun entity_id => match Sync.analyze_conflict entity_id with
    | Some conflict => match assoc (Sync.conflict_type conflict) Sync.conflict_resolvers with
      | Some resolver => [Sync.set_resolution (resolver conflict) conflict] | None => [conflict] end
    | None => [] end) cs = manual_review c :: map manual_review cs).
  rewrite IH. reflexivity.
Qed.


(** Whenever [detect_changes] reports SSOT updates, [full_sync] fails with the
    error of the import of [SSOTIndexer], having updated no entity. *)
Theorem full_sync_fails_on_ssot_updates (digest : Value -> string) (import_error : string)
  (ssot_state graphrag_state : list (string * Value)) (ch : Sync.Changes) :
  Sync.detect_changes digest ssot_state graphrag_state = Ok ch ->
  Sync.ssot_updates ch <> [] ->
  Sync.full_sync digest import_error ssot_state graphrag_state
  = Sync.mkSyncResult false 0 None (Some import_error).
Proof.
  intros Hd Hu. unfold Sync.full_sync. rewrite Hd.
  destruct (Sync.ssot_updates ch) eqn:E; [congruence|]. reflexivity.
Qed.


(** A successful [full_sync] found no SSOT updates.  It has no error, and it
    lists one content_divergence conflict per conflicting entity, marked
    manual_review_required. *)
Theorem full_sync_success (digest : Value -> string) (import_error : string)
  (ssot_state graphrag_state : list (string * Value)) :
  Sync.success (Sync.full_sync digest import_error ssot_state graphrag_state) = true ->
  exists ch, Sync.detect_changes digest ssot_state graphrag_state = Ok ch /\
    Sync.ssot_updates ch = [] /\
    Sync.error (Sync.full_sync digest import_error ssot_state graphrag_state) = None /\
    Sync.result_conflicts (Sync.full_sync digest import_error ssot_state graphrag_state)
    = Some (map manual_review (Sync.conflicts ch)).
Proof.
  unfold Sync.full_sync.
  destruct (Sync.detect_changes digest ssot_state graphrag_state) as [ch|e]; [|discriminate].
  intros Hs. exists ch. split; [reflexivity|].
  assert (Hfin : forall t, Sync.result_conflicts
            (Sync.mkSyncResult true t (Some match Sync.conflicts ch with
                                             | [] => [] | cs => Sync.resolve_conflicts cs end) None)
          = Some (map manual_review (Sync.conflicts ch))).
  { intro t. cbn. destruct (Sync.conflicts ch); [reflexivity|].
    rewrite resolve_conflicts_manual. reflexivity. }
  destruct (Sync.ssot_updates ch) eqn:Eu; [|cbn in Hs; discriminate].
  split; [reflexivity|].
  destruct (Sync.graphrag_updates ch) eqn:Eg; [split; [reflexivity|apply Hfin]|].
  destruct (Sync.success (Sync.sync_graphrag_to_ssot graphrag_state (v :: l))) eqn:Es;
    [split; [reflexivity|apply Hfin]|].
  rewrite Es in Hs. discriminate.
Qed.


Lemma full_sync_fails_on_ssot_updates_witness :
  Sync.detect_changes sample_digest sync_ssot sync_index
    = Ok (Sync.mkChanges [VStr "FR-001"] [VStr "P-1"] [VStr "CTR-1"]) /\
  Sync.ssot_updates (Sync.mkChanges [VStr "FR-001"] [VStr "P-1"] [VStr "CTR-1"]) <> [] /\
  Sync.full_sync sample_digest "No module named 'ssot_indexer'" sync_ssot sync_index
  = Sync.mkSyncResult false 0 None (Some "No module named 'ssot_indexer'").
Proof.
  assert (Hd : Sync.detect_changes sample_digest sync_ssot sync_index
               = Ok (Sync.mkChanges [VStr "FR-001"] [VStr "P-1"] [VStr "CTR-1"]))
    by (vm_compute; reflexivity).
  assert (Hu : Sync.ssot_updates (Sync.mkChanges [VStr "FR-001"] [VStr "P-1"] [VStr "CTR-1"]) <> [])
    by discriminate.
  split; [exact Hd|]. split; [exact Hu|].
  exact (full_sync_fails_on_ssot_updates sample_digest _ sync_ssot sync_index _ Hd Hu).
Defined.

Lemma full_sync_success_witness :
  Sync.success (Sync.full_sync sample_digest "No module named 'ssot_indexer'" [] contract_only_index) = true /\
  exists ch, Sync.detect_changes sample_digest [] contract_only_index = Ok ch /\
    Sync.ssot_updates ch = [] /\
    Sync.error (Sync.full_sync sample_digest "No module named 'ssot_indexer'" [] contract_only_index) = None /\
    Sync.result_conflicts (Sync.full_sync sample_digest "No module named 'ssot_indexer'" [] contract_only_index)
    = Some (map manual_review (Sync.conflicts ch)).
Proof.
  assert (Hs : Sync.success (Sync.full_sync sample_digest "No module named 'ssot_indexer'" [] contract_only_index) = true)
    by (vm_compute; reflexivity).
  split; [exact Hs|].
  exact (full_sync_success sample_digest _ [] contract_only_index Hs).
Defined.


Lemma not_in_forall (xs : list Value) (x : Value) :
  Query.not_in xs x = true -> forall t, In t xs -> py_eq x t = false.
Proof.
  unfold Query.not_in. intros H t Ht. apply negb_true_iff in H.
  destruct (py_eq x t) eqn:E; [|reflexivity].
  rewrite (proj2 (existsb_exists _ _) (ex_intro _ t (conj Ht E))) in H. discriminate.
Qed.


(** [_calculate_risk_level] in integer terms: with [n] the total number of
    impacts, a functional requirement or contract is high from 7, medium from
    4; any other entity is high from 10, medium from 5. *)
Theorem risk_level_thresholds (direct_count indirect_count : nat) (entity_type : Value) :
  Query.calculate_risk_level direct_count indirect_count entity_type =
  let total := (direct_count + indirect_count)%nat in
  if in_strs entity_type ["functional_requirement"; "contract"]
  then (if (7 <=? total)%nat then "high" else if (4 <=? total)%nat then "medium" else "low")
  else (if (10 <=? total)%nat then "high" else if (5 <=? total)%nat then "medium" else "low").
Proof.
  unfold Query.calculate_risk_level. cbv zeta.
  generalize (direct_count + indirect_count)%nat. intro k.
  destruct (in_strs entity_type ["functional_requirement"; "contract"]);
    unfold Qle_bool, Qmult; cbn [Qnum Qden];
    repeat match goal with
           | |- context [Z.leb ?a ?b] => destruct (Z.leb_spec a b)
           | |- context [Nat.leb ?a ?b] => destruct (Nat.leb_spec a b)
           end; first [reflexivity | exfalso; lia].
Qed.


(** [query] always returns a result for its query text.  Either the metadata
    counts its results and has no error entry, or the result is empty, took
    time 0 and its metadata carries the error. *)
Theorem query_never_raises (q : Query.Engine) (query_text query_type : string) (c : Clock) (n : nat) :
  exists r, fst (Query.query_ q query_text query_type c n) = Ok r /\
  Query.query r = query_text /\
  ((py_get (Query.metadata r) "results_count" VNull = Ok (VInt (Z.of_nat (length (Query.results r))))
    /\ py_get (Query.metadata r) "error" VNull = Ok VNull)
   \/ (Query.results r = [] /\ Query.execution_time r = 0 # 1 /\
       exists e, py_get (Query.metadata r) "error" VNull = Ok (VStr e))).
Proof.
  unfold Query.query_, mbind, mcatch, now. cbn beta iota.
  set (qt := if String.eqb query_type "auto" then Query.detect_query_type query_text else query_type).
  destruct (Query.processor q qt query_text c (S n)) as [[res|e] n'].
  - eexists. split; [reflexivity|]. split; [reflexivity|]. left. split; reflexivity.
  - unfold now_iso, mbind, now, mret. eexists. split; [reflexivity|]. split; [reflexivity|].
    right. split; [reflexivity|]. split; [reflexivity|]. exists e. reflexivity.
Qed.


(** Each entry of requirements_without_uows in [analyze_coverage_gaps] is the
    id of a (non-)functional requirement entity, and no implements relationship
    targets it. *)
Theorem coverage_gaps_requirements_sound (q : Query.Engine) (c : Clock) (n : nat) (v : Value) :
  fst (Query.analyze_coverage_gaps q c n) = Ok v ->
  exists es rs reqs,
    Query.ents q = Ok es /\ Query.rels q = Ok rs /\
    py_get v "requirements_without_uows" VNull = Ok (VList reqs) /\
    Forall (fun x =>
      (exists e, In e es /\
         Query.type_is ["functional_requirement"; "non_functional_requirement"] e = Ok true /\
         py_getitem e "id" = Ok x) /\
      (forall r t, In r rs -> Query.type_is ["implements"] r = Ok true ->
                   py_getitem r "target" = Ok t -> py_eq x t = false)) reqs.
Proof.
  unfold Query.analyze_coverage_gaps, now_iso, mbind, now, mret, lift. cbn beta iota.
  intro H. cbn [fst] in H.
  destruct (Query.ents q) as [es|e] eqn:Ees; cbn [rbind] in H; [|discriminate].
  destruct (Query.rels q) as [rs|e] eqn:Ers; cbn [rbind] in H; [|discriminate].
  destruct (Query.ids_of_type ["functional_requirement"; "non_functional_requirement"] es)
    as [reqids|e] eqn:Ereq; cbn [rbind] in H; [|discriminate].
  destruct (rfilter (Query.type_is ["implements"]) rs) as [impl|e] eqn:Eimpl; cbn [rbind] in H; [|discriminate].
  destruct (rmap (fun r => py_getitem r "target") impl) as [implemented|e] eqn:Eimd;
    cbn [rbind] in H; [|discriminate].
  unres H. injection H as <-.
  exists es, rs, (filter (Query.not_in implemented) reqids).
  split; [reflexivity|]. split; [reflexivity|]. split; [reflexivity|].
  apply Forall_forall. intros x Hx. apply filter_In in Hx as [Hx Hn]. split.
  - unfold Query.ids_of_type in Ereq.
    destruct (rfilter (Query.type_is ["functional_requirement"; "non_functional_requirement"]) es)
      as [xs|e] eqn:Exs; cbn [rbind] in Ereq; [|discriminate].
    destruct (rmap_In _ _ _ _ Ereq Hx) as (e & He & Hid).
    destruct (rfilter_true _ _ _ _ Exs He) as [He' Ht].
    exists e. auto.
  - intros r t Hr Ht Htg. apply (not_in_forall implemented x Hn).
    destruct (rmap_In_rev _ _ _ r Eimd) as (t' & Ht' & Hin).
    + clear -Eimpl Hr Ht. revert impl Eimpl. induction rs as [|r0 rs IH]; intros impl Eimpl; [destruct Hr|].
      cbn in Eimpl. destruct (Query.type_is ["implements"] r0) as [b|e] eqn:Eb; cbn [rbind] in Eimpl; [|discriminate].
      destruct (rfilter (Query.type_is ["implements"]) rs) as [zs|e] eqn:Ez; cbn [rbind] in Eimpl; [|discriminate].
      injection Eimpl as <-. destruct Hr as [<-|Hr].
      * rewrite Ht in Eb. injection Eb as <-. left. reflexivity.
      * destruct b; [right|]; apply (IH Hr zs eq_refl).
    + rewrite Htg in Ht'. injection Ht' as <-. exact Hin.
Qed.

Lemma coverage_gaps_requirements_sound_witness :
  exists v, fst (Query.analyze_coverage_gaps gaps_fixture (fun _ => 0) O) = Ok v /\
  exists es rs reqs,
    Query.ents gaps_fixture = Ok es /\ Query.rels gaps_fixture = Ok rs /\
    py_get v "requirements_without_uows" VNull = Ok (VList reqs) /\
    Forall (fun x =>
      (exists e, In e es /\
         Query.type_is ["functional_requirement"; "non_functional_requirement"] e = Ok true /\
         py_getitem e "id" = Ok x) /\
      (forall r t, In r rs -> Query.type_is ["implements"] r = Ok true ->
                   py_getitem r "target" = Ok t -> py_eq x t = false)) reqs.
Proof.
  destruct (fst (Query.analyze_coverage_gaps gaps_fixture (fun _ => 0) O)) as [v|e] eqn:E.
  - exists v. split; [reflexivity|]. exact (coverage_gaps_requirements_sound gaps_fixture (fun _ => 0) O v E).
  - exfalso. vm_compute in E. discriminate E.
Defined.
